(** * Trader: a shallow embedding of the trading bot's decision logic

    The TypeScript sources embedded here are
    - [config.ts]            (the [config] object),
    - [token-validator.ts]   ([TokenValidator.validateToken]),
    - [ai-analysis.ts]       ([AIAnalysisService]),
    - [position-monitor.ts]  ([PositionMonitor]),
    - [index.ts]             ([isAuthorized]).

    Conventions.
    - A JavaScript [number] that holds a price, an amount of money or a
      percentage is an IEEE-754 binary64 value: Rocq's primitive [float].
    - A [number] that only ever holds an integer (the risk score, which is a
      sum of integer literals, the confidence derived from it, a holder
      count, a millisecond clock reading, a Telegram user id) is a [Z].
    - Every call to an outside service is an explicit argument of the
      function that performs it: the argument records what the service
      answered, or that the call threw.
    - A text is held as the bytes of its UTF-8 encoding.
    - In [PositionMonitor] each call runs from its first to its last
      statement; [Async] splits the calls at their [await]s and lets them
      overlap. *)

From Stdlib Require Import ZArith Floats Bool Ascii String List Lia.
From stdpp Require Import gmap strings list fin_maps pretty.

Open Scope Z_scope.

(** ** JavaScript primitives used by the sources *)
Module Js.

(** [!x] for a number: [0], [-0] and [NaN] are falsy. *)
Definition falsy (x : float) : bool :=
  PrimFloat.eqb x 0%float || PrimFloat.is_nan x.

(** [a >= b], [a <= b], [a < b], [a > b] on numbers; each is [false] as
    soon as one side is [NaN]. *)
Definition ge (a b : float) : bool := PrimFloat.leb b a.
Definition le (a b : float) : bool := PrimFloat.leb a b.
Definition lt (a b : float) : bool := PrimFloat.ltb a b.
Definition gt (a b : float) : bool := PrimFloat.ltb b a.

(** [x || 0] for an optional number. *)
Definition orZero (x : option float) : float :=
  match x with
  | Some v => if falsy v then 0%float else v
  | None => 0%float
  end.

(** [String.prototype.toLowerCase], on the ASCII letters; every other
    code unit is kept. *)
Definition lowerAscii (c : ascii) : ascii :=
  let n := nat_of_ascii c in
  if ((65 <=? n) && (n <=? 90))%nat then ascii_of_nat (n + 32) else c.

Fixpoint toLowerCase (s : string) : string :=
  match s with
  | EmptyString => EmptyString
  | String c r => String (lowerAscii c) (toLowerCase r)
  end.

Fixpoint startsWith (p s : string) : bool :=
  match p, s with
  | EmptyString, _ => true
  | String _ _, EmptyString => false
  | String a p', String b s' => Ascii.eqb a b && startsWith p' s'
  end.

(** [hay.includes(needle)] on strings. *)
Fixpoint includes (hay needle : string) : bool :=
  startsWith needle hay ||
  match hay with
  | EmptyString => false
  | String _ r => includes r needle
  end.

(** [s.split(sep)] for a one-character separator. *)
Fixpoint split (sep : ascii) (s : string) : list string :=
  match s with
  | EmptyString => [EmptyString]
  | String c r =>
      if Ascii.eqb c sep then EmptyString :: split sep r
      else match split sep r with
           | h :: t => String c h :: t
           | [] => [String c EmptyString]
           end
  end.

(** Truthiness of a string: only the empty string is falsy. *)
Definition truthyString (s : string) : bool :=
  match s with EmptyString => false | _ => true end.

(** [Array.prototype.includes] on an array of strings. *)
Fixpoint arrayIncludes (l : list string) (x : string) : bool :=
  match l with
  | [] => false
  | y :: r => String.eqb y x || arrayIncludes r x
  end.

(** [n.toString()] for an integer [n] of magnitude below [10^21]: the
    decimal digits, with a leading minus sign for a negative number. *)
Definition numberToString (n : Z) : string := pretty n.

End Js.

(** ** config.ts *)
Module Config.

(** The fields the embedded functions read. [maxHoldTime] and
    [maxRiskScore] are results of [parseInt] and are taken to be integers. *)
Record t := mk {
  authorizedUsers : list string;
  takeProfitPercent : float;
  stopLossPercent : float;
  maxHoldTime : Z;
  minLiquidity : float;
  minMarketCap : float;
  maxRiskScore : Z
}.

(** [(process.env.AUTHORIZED_USERS || '').split(',').filter(Boolean)]:
    [None] is an unset variable. *)
Definition parseAuthorizedUsers (env : option string) : list string :=
  let raw := match env with
             | Some s => if Js.truthyString s then s else EmptyString
             | None => EmptyString
             end in
  List.filter Js.truthyString (Js.split ","%char raw).

(** The configuration obtained when no environment variable is set. *)
Definition defaults : t :=
  {| authorizedUsers := parseAuthorizedUsers None;
     takeProfitPercent := 20%float;
     stopLossPercent := (-10)%float;
     maxHoldTime := 300000;
     minLiquidity := 1000%float;
     minMarketCap := 5000%float;
     maxRiskScore := 7 |}.

End Config.

(** ** token-validator.ts *)
Module TokenValidator.

(** One entry of [reasons]; the numbers a message interpolates are kept as
    arguments instead of being printed. *)
Inductive Reason :=
| MintAuthorityEnabled
| FreezeAuthorityEnabled
| LowLiquidity (liquidity : float)
| LowMarketCap (marketCap : float)
| ConcentratedOwnership (topHolderPercent : float)
| FewHolders (holderCount : Z)
| AuthoritiesRevoked
| StrongLiquidity (liquidity : float)
| FailedToValidate.

Record TokenValidation := mkValidation {
  isValid : bool;
  riskScore : Z;
  liquidity : float;
  marketCap : float;
  holderCount : Z;
  topHolderPercent : float;
  hasLiquidityLock : bool;
  canMint : bool;
  canFreeze : bool;
  reasons : list Reason
}.

(** What [getMarketData] returned; it catches its own errors. *)
Record MarketData := mkMarket {
  md_liquidity : float;
  md_marketCap : float;
  md_price : float
}.

(** What [connection.getParsedAccountInfo(new PublicKey(tokenMint))] did:
    the call, or reading its answer, threw; it returned no parsed data; or
    it returned the two authorities of the mint account ([None] is
    JavaScript's [null], the one value [!== null] rejects). *)
Inductive AccountInfo :=
| RpcThrows
| NoParsedData
| Parsed (mintAuthority freezeAuthority : option string).

(** What [getHolderDistribution] returned; it catches its own errors. *)
Record HolderDistribution := mkHolders {
  hd_holderCount : Z;
  hd_topHolderPercent : float
}.

Record Upstream := mkUpstream {
  marketData : MarketData;
  accountInfo : AccountInfo;
  holders : HolderDistribution
}.

(** The record of the [catch] branch. *)
Definition failClosed : TokenValidation :=
  {| isValid := false; riskScore := 10;
     liquidity := 0%float; marketCap := 0%float;
     holderCount := 0; topHolderPercent := 0%float;
     hasLiquidityLock := false; canMint := true; canFreeze := true;
     reasons := [FailedToValidate] |}.

(** [if (c) { riskScore += k; reasons.push(r) }] on the pair of the two
    accumulators. *)
Definition penalise (c : bool) (k : Z) (r : Reason)
    (acc : Z * list Reason) : Z * list Reason :=
  if c then (fst acc + k, snd acc ++ [r]) else acc.

(** [if (c) reasons.push(r)]. *)
Definition signal (c : bool) (r : Reason)
    (acc : Z * list Reason) : Z * list Reason :=
  if c then (fst acc, snd acc ++ [r]) else acc.

Definition isSome {A} (o : option A) : bool :=
  match o with Some _ => true | None => false end.

Definition validateToken (cfg : Config.t) (up : Upstream) : TokenValidation :=
  let md := marketData up in
  match accountInfo up with
  | RpcThrows => failClosed
  | info =>
      let '(canMint, canFreeze) :=
        match info with
        | Parsed ma fa => (isSome ma, isSome fa)
        | _ => (false, false)
        end in
      let acc := (0, []) in
      let acc := penalise canMint 3 MintAuthorityEnabled acc in
      let acc := penalise canFreeze 2 FreezeAuthorityEnabled acc in
      let acc := penalise (Js.lt (md_liquidity md) (Config.minLiquidity cfg)) 2
                   (LowLiquidity (md_liquidity md)) acc in
      let acc := penalise (Js.lt (md_marketCap md) (Config.minMarketCap cfg)) 1
                   (LowMarketCap (md_marketCap md)) acc in
      let holderCount := hd_holderCount (holders up) in
      let topHolderPercent := hd_topHolderPercent (holders up) in
      let acc := penalise (Js.gt topHolderPercent 50%float) 2
                   (ConcentratedOwnership topHolderPercent) acc in
      let acc := penalise (holderCount <? 10) 1 (FewHolders holderCount) acc in
      let acc := signal (negb canMint && negb canFreeze) AuthoritiesRevoked acc in
      let acc := signal (Js.ge (md_liquidity md) (Config.minLiquidity cfg * 2)%float)
                   (StrongLiquidity (md_liquidity md)) acc in
      let riskScore := fst acc in
      let isValid := (riskScore <=? Config.maxRiskScore cfg) &&
                     Js.ge (md_liquidity md) (Config.minLiquidity cfg) &&
                     Js.ge (md_marketCap md) (Config.minMarketCap cfg) in
      {| isValid := isValid; riskScore := riskScore;
         liquidity := md_liquidity md; marketCap := md_marketCap md;
         holderCount := holderCount; topHolderPercent := topHolderPercent;
         hasLiquidityLock := false; canMint := canMint; canFreeze := canFreeze;
         reasons := snd acc |}
  end.

(** The flags the scoring reads, for an account lookup that returned. *)
Definition mintActive (up : Upstream) : bool :=
  match accountInfo up with Parsed ma _ => isSome ma | _ => false end.
Definition freezeActive (up : Upstream) : bool :=
  match accountInfo up with Parsed _ fa => isSome fa | _ => false end.
Definition upstreamFailed (up : Upstream) : bool :=
  match accountInfo up with RpcThrows => true | _ => false end.

(** The penalty table as the specification lists it: each line
    contributes its points when its condition holds and nothing
    otherwise. *)
Definition points (k : Z) (c : bool) : Z := if c then k else 0.

Definition penaltySum (cfg : Config.t) (up : Upstream) : Z :=
  points 3 (mintActive up)
  + points 2 (freezeActive up)
  + points 2 (Js.lt (md_liquidity (marketData up)) (Config.minLiquidity cfg))
  + points 1 (Js.lt (md_marketCap (marketData up)) (Config.minMarketCap cfg))
  + points 2 (Js.gt (hd_topHolderPercent (holders up)) 50%float)
  + points 1 (hd_holderCount (holders up) <? 10).

End TokenValidator.

(** ** ai-analysis.ts *)
Module AIAnalysis.
Import TokenValidator.

Inductive Recommendation := BUY | HOLD | AVOID.

(** [summary] of the fallback branch is one of three fixed texts; the
    model's own text is kept as it came. *)
Inductive Summary :=
| ModelText (analysis : string)
| FallbackHighRisk
| FallbackLowRisk
| FallbackMediumRisk.

(** [keyPoints] holds lines of the model's text, or the validator's
    reasons on the fallback branch. *)
Inductive KeyPoints :=
| Lines (points : list string)
| Reasons (reasons : list Reason).

Record TokenAnalysis := mkAnalysis {
  summary : Summary;
  recommendation : Recommendation;
  confidence : Z;
  keyPoints : KeyPoints
}.

Definition extractRecommendation (analysis : string) (validation : TokenValidation)
    : Recommendation :=
  let lowerAnalysis := Js.toLowerCase analysis in
  if Js.includes lowerAnalysis "strong buy"
     || (Js.includes lowerAnalysis "buy" && (riskScore validation <=? 3))
  then BUY
  else if Js.includes lowerAnalysis "avoid" || (7 <=? riskScore validation)
  then AVOID
  else if Js.includes lowerAnalysis "buy" && (riskScore validation <=? 5)
  then BUY
  else HOLD.

Definition calculateConfidence (cfg : Config.t) (validation : TokenValidation) : Z :=
  let baseConfidence := 100 - riskScore validation * 10 in
  let adjustment := 0 in
  let adjustment :=
    if Js.ge (liquidity validation) (Config.minLiquidity cfg * 3)%float
    then adjustment + 10 else adjustment in
  let adjustment :=
    if Js.ge (marketCap validation) (Config.minMarketCap cfg * 3)%float
    then adjustment + 10 else adjustment in
  let adjustment :=
    if negb (canMint validation) && negb (canFreeze validation)
    then adjustment + 15 else adjustment in
  Z.min 100 (Z.max 0 (baseConfidence + adjustment)).

(** [String.prototype.trim] removes ECMAScript's white space and line
    terminators from both ends. In UTF-8 such a character is one byte
    (U+0009 to U+000D, U+0020), two bytes (U+00A0) or three bytes (U+1680,
    U+2000 to U+200A, U+2028, U+2029, U+202F, U+205F, U+3000, U+FEFF). *)
Definition isSpace (c : ascii) : bool :=
  let n := nat_of_ascii c in
  (((9 <=? n) && (n <=? 13)) || (n =? 32))%nat.

Definition isSpace2 (a b : ascii) : bool :=
  ((nat_of_ascii a =? 194) && (nat_of_ascii b =? 160))%nat.

Definition isSpace3 (a b c : ascii) : bool :=
  let x := nat_of_ascii a in
  let y := nat_of_ascii b in
  let z := nat_of_ascii c in
  (((x =? 225) && (y =? 154) && (z =? 128))
   || ((x =? 226) && (y =? 128)
       && (((128 <=? z) && (z <=? 138)) || (z =? 168) || (z =? 169) || (z =? 175)))
   || ((x =? 226) && (y =? 129) && (z =? 159))
   || ((x =? 227) && (y =? 128) && (z =? 128))
   || ((x =? 239) && (y =? 187) && (z =? 191)))%nat.

Section Strip.

(** The white-space characters of one, two and three bytes, as they read
    from the end the bytes are taken from. *)
Variable one : ascii -> bool.
Variable two : ascii -> ascii -> bool.
Variable three : ascii -> ascii -> ascii -> bool.

(** Drops white-space characters for as long as the bytes start with
    one. *)
Fixpoint strip (l : list ascii) : list ascii :=
  match l with
  | [] => []
  | a :: r =>
      if one a then strip r
      else
        match r with
        | [] => l
        | b :: r2 =>
            if two a b then strip r2
            else
              match r2 with
              | [] => l
              | c :: r3 => if three a b c then strip r3 else l
              end
        end
  end.

End Strip.

Definition trimStart (s : string) : string :=
  string_of_list_ascii
    (strip isSpace isSpace2 isSpace3 (list_ascii_of_string s)).

(** From the end the bytes of a character come last byte first. *)
Definition trimEnd (s : string) : string :=
  string_of_list_ascii
    (rev (strip isSpace (fun a b => isSpace2 b a) (fun a b c => isSpace3 c b a)
            (rev (list_ascii_of_string s)))).

Definition trim (s : string) : string := trimEnd (trimStart s).

(** [line.match(/^[\d\.\-\*]/)]. *)
Definition startsLikeItem (line : string) : bool :=
  match line with
  | String c _ =>
      let n := nat_of_ascii c in
      (((48 <=? n) && (n <=? 57)) || (n =? 46) || (n =? 45) || (n =? 42))%nat
  | EmptyString => false
  end.

Definition extractKeyPoints (analysis : string) : list string :=
  let lines :=
    List.filter (fun line => Js.truthyString (trim line))
                (Js.split (ascii_of_nat 10) analysis) in
  let points :=
    List.map trim
      (List.filter (fun line => startsLikeItem line || Js.includes line ":") lines) in
  firstn 4 points.

Definition fallbackAnalysis (cfg : Config.t) (validation : TokenValidation)
    : TokenAnalysis :=
  let '(summary, recommendation) :=
    if 7 <=? riskScore validation then (FallbackHighRisk, AVOID)
    else if riskScore validation <=? 3 then (FallbackLowRisk, BUY)
    else (FallbackMediumRisk, HOLD) in
  {| summary := summary;
     recommendation := recommendation;
     confidence := calculateConfidence cfg validation;
     keyPoints := Reasons (reasons validation) |}.

(** What [client.chat.completions.create] did: it threw, or it answered
    with [choices[0].message.content], which may be [null]. *)
Inductive Inference :=
| InferenceThrows
| Completion (content : option string).

Definition analyzeToken (cfg : Config.t) (validation : TokenValidation)
    (reply : Inference) : TokenAnalysis :=
  match reply with
  | Completion content =>
      let analysis :=
        match content with
        | Some s => if Js.truthyString s then s else EmptyString
        | None => EmptyString
        end in
      {| summary := ModelText analysis;
         recommendation := extractRecommendation analysis validation;
         confidence := calculateConfidence cfg validation;
         keyPoints := Lines (extractKeyPoints analysis) |}
  | InferenceThrows => fallbackAnalysis cfg validation
  end.

(** The confidence formula as the specification words it: a base of
    [100 - riskScore * 10], three bonuses, and a clamp to [0, 100]. *)
Definition clamp (lo hi x : Z) : Z :=
  if x <? lo then lo else if hi <? x then hi else x.

Definition confidenceFormula (cfg : Config.t) (validation : TokenValidation) : Z :=
  clamp 0 100
    (100 - riskScore validation * 10
     + points 10 (Js.ge (liquidity validation) (Config.minLiquidity cfg * 3)%float)
     + points 10 (Js.ge (marketCap validation) (Config.minMarketCap cfg * 3)%float)
     + points 15 (negb (canMint validation) && negb (canFreeze validation))).

End AIAnalysis.

(** ** position-monitor.ts *)
Module PositionMonitor.

Record Position := mkPosition {
  tokenMint : string;
  tokenSymbol : string;
  entryPrice : float;
  entryTime : Z;
  amountSol : float;
  active : bool
}.

(** [position.active = false] on the object the map holds. *)
Definition deactivate (p : Position) : Position :=
  {| tokenMint := tokenMint p; tokenSymbol := tokenSymbol p;
     entryPrice := entryPrice p; entryTime := entryTime p;
     amountSol := amountSol p; active := false |}.

(** The monitor object. A timer handle is a number; [timers] is the set
    of handles the event loop still fires, and [nextTimer] the handle the
    next [setInterval] returns. *)
Record Monitor := mkMonitor {
  positions : gmap string Position;
  monitoringIntervals : gmap string nat;
  timers : gset nat;
  nextTimer : nat
}.

Definition empty : Monitor :=
  {| positions := ∅; monitoringIntervals := ∅; timers := ∅; nextTimer := 0%nat |}.

(** The text handed to [exitPosition]; the numbers a message interpolates
    are kept as arguments. *)
Inductive ExitReason :=
| TakeProfit (profitPercent : float)
| StopLoss (profitPercent : float)
| MaxHoldTime (minutes : Z)
| ManualExit.

(** What [pumpPortal.sellToken(tokenMint, 100)] did. *)
Inductive Sell :=
| SellOk (signature : string)
| SellThrows (message : string).

(** What the two price services did. [PrimaryThrows]: the request, or
    reading its answer, threw. [PrimaryPrice p]: [p] is the value of
    [response.data.data[tokenMint]?.price], [None] when there is none.
    [FallbackEmpty]: the answer was missing or an empty list.
    [FallbackPrice p]: [p] is [parseFloat(response.data[0].priceUsd || '0')],
    which is [NaN] for a text that is no number. *)
Inductive Primary :=
| PrimaryThrows
| PrimaryPrice (price : option float).

Inductive Fallback :=
| FallbackThrows
| FallbackEmpty
| FallbackPrice (price : float).

Record PriceFeed := mkFeed {
  primary : Primary;
  fallback : Fallback
}.

Definition getCurrentPrice (feed : PriceFeed) : float :=
  match primary feed with
  | PrimaryPrice p => Js.orZero p
  | PrimaryThrows =>
      match fallback feed with
      | FallbackPrice p => p
      | FallbackEmpty | FallbackThrows => 0%float
      end
  end.

(** [setInterval] hands out a fresh handle; the map entry of the mint is
    overwritten, and a handle that was there before is not cleared. *)
Definition startMonitoring (m : Monitor) (tokenMint : string) : Monitor :=
  let interval := nextTimer m in
  {| positions := positions m;
     monitoringIntervals := <[tokenMint := interval]> (monitoringIntervals m);
     timers := {[interval]} ∪ timers m;
     nextTimer := S interval |}.

Definition addPosition (m : Monitor) (tokenMint tokenSymbol : string)
    (entryPrice amountSol : float) (now : Z) : Monitor :=
  let position :=
    {| tokenMint := tokenMint; tokenSymbol := tokenSymbol;
       entryPrice := entryPrice; entryTime := now;
       amountSol := amountSol; active := true |} in
  let m := {| positions := <[tokenMint := position]> (positions m);
              monitoringIntervals := monitoringIntervals m;
              timers := timers m;
              nextTimer := nextTimer m |} in
  startMonitoring m tokenMint.

(** The value of an [exitPosition] call: [undefined], the result record,
    or the error it rethrows. *)
Inductive ExitResult :=
| ExitNothing
| ExitClosed (reason : ExitReason) (signature : string) (finalPrice : float)
| ExitThrows (message : string).

(** The assignment to [active] and the removal of the timer come after
    the [await] of the sale, inside the [try]: a sale that throws skips
    both. A timer handle is an object, so [if (interval)] only asks
    whether the map had an entry. *)
Definition exitPosition (m : Monitor) (tokenMint : string) (reason : ExitReason)
    (sell : Sell) (finalFeed : PriceFeed) : Monitor * ExitResult :=
  match positions m !! tokenMint with
  | None => (m, ExitNothing)
  | Some position =>
      if negb (active position) then (m, ExitNothing)
      else
        match sell with
        | SellThrows message => (m, ExitThrows message)
        | SellOk signature =>
            let positions' := <[tokenMint := deactivate position]> (positions m) in
            let m' :=
              match monitoringIntervals m !! tokenMint with
              | Some interval =>
                  {| positions := positions';
                     monitoringIntervals := delete tokenMint (monitoringIntervals m);
                     timers := timers m ∖ {[interval]};
                     nextTimer := nextTimer m |}
              | None =>
                  {| positions := positions';
                     monitoringIntervals := monitoringIntervals m;
                     timers := timers m;
                     nextTimer := nextTimer m |}
              end in
            (m', ExitClosed reason signature (getCurrentPrice finalFeed))
        end
  end.

(** What one polling cycle did: returned at the first guard, returned
    for want of a price, found no exit condition, or called
    [exitPosition] with a reason (an error of that call is caught and
    logged). *)
Inductive Check :=
| CheckSkipped
| CheckNoPrice
| CheckHold
| CheckExit (reason : ExitReason) (result : ExitResult).

Definition profitPercentOf (currentPrice entryPrice : float) : float :=
  ((currentPrice - entryPrice) / entryPrice * 100)%float.

Definition checkPosition (cfg : Config.t) (m : Monitor) (tokenMint : string)
    (feed : PriceFeed) (now : Z) (sell : Sell) (finalFeed : PriceFeed)
    : Monitor * Check :=
  match positions m !! tokenMint with
  | None => (m, CheckSkipped)
  | Some position =>
      if negb (active position) then (m, CheckSkipped)
      else
        let currentPrice := getCurrentPrice feed in
        if Js.falsy currentPrice || PrimFloat.eqb currentPrice 0%float
        then (m, CheckNoPrice)
        else
          let profitPercent := profitPercentOf currentPrice (entryPrice position) in
          let timeHeld := now - entryTime position in
          let shouldExit :=
            Js.ge profitPercent (Config.takeProfitPercent cfg)
            || Js.le profitPercent (Config.stopLossPercent cfg)
            || (Config.maxHoldTime cfg <=? timeHeld) in
          if shouldExit then
            let reason :=
              if Js.ge profitPercent (Config.takeProfitPercent cfg)
              then TakeProfit profitPercent
              else if Js.le profitPercent (Config.stopLossPercent cfg)
              then StopLoss profitPercent
              else MaxHoldTime (timeHeld / 60000) in
            let '(m', result) := exitPosition m tokenMint reason sell finalFeed in
            (m', CheckExit reason result)
          else (m, CheckHold)
  end.

(** The value of a [manualExit] call: the signature, or the error. *)
Inductive Manual :=
| ManualSignature (signature : string)
| ManualNoActivePosition
| ManualThrows (message : string).

Definition manualExit (m : Monitor) (tokenMint : string)
    (sell : Sell) (finalFeed : PriceFeed) : Monitor * Manual :=
  match positions m !! tokenMint with
  | None => (m, ManualNoActivePosition)
  | Some position =>
      if negb (active position) then (m, ManualNoActivePosition)
      else
        let '(m', result) := exitPosition m tokenMint ManualExit sell finalFeed in
        (m', match result with
             | ExitClosed _ signature _ =>
                 ManualSignature
                   (if Js.truthyString signature then signature else EmptyString)
             | ExitNothing => ManualSignature EmptyString
             | ExitThrows message => ManualThrows message
             end)
  end.

Definition hasActivePosition (m : Monitor) (tokenMint : string) : bool :=
  match positions m !! tokenMint with
  | Some position => active position
  | None => false
  end.

(** Every handle in the map is cleared and the map is emptied;
    [positions] is not touched. *)
Definition stopAll (m : Monitor) : Monitor :=
  let cleared :=
    map_fold (fun _ interval live => live ∖ {[interval]})
             (timers m) (monitoringIntervals m) in
  {| positions := positions m;
     monitoringIntervals := ∅;
     timers := cleared;
     nextTimer := nextTimer m |}.

(** *** Sequences of operations

    Calls that each run to their end before the next one starts. Calls
    that overlap at their [await]s are the subject of [Async] below, of
    which these sequences are the case where every call is followed at
    once by the answers it waits for. *)

(** One call on the monitor, with what the outside services answer
    during it. *)
Inductive Op :=
| AddPosition (tokenMint tokenSymbol : string) (entryPrice amountSol : float) (now : Z)
| CheckPosition (tokenMint : string) (feed : PriceFeed) (now : Z)
                (sell : Sell) (finalFeed : PriceFeed)
| ExitPosition (tokenMint : string) (reason : ExitReason)
               (sell : Sell) (finalFeed : PriceFeed)
| ManualExitOp (tokenMint : string) (sell : Sell) (finalFeed : PriceFeed)
| StopAll.

Definition step (cfg : Config.t) (m : Monitor) (op : Op) : Monitor :=
  match op with
  | AddPosition mint symbol price amount now =>
      addPosition m mint symbol price amount now
  | CheckPosition mint feed now sell finalFeed =>
      fst (checkPosition cfg m mint feed now sell finalFeed)
  | ExitPosition mint reason sell finalFeed =>
      fst (exitPosition m mint reason sell finalFeed)
  | ManualExitOp mint sell finalFeed =>
      fst (manualExit m mint sell finalFeed)
  | StopAll => stopAll m
  end.

Definition run (cfg : Config.t) (m : Monitor) (ops : list Op) : Monitor :=
  fold_left (step cfg) ops m.

(** The monitor holds a record for [mint] whose [active] field is [b]. *)
Definition activeIs (m : Monitor) (mint : string) (b : bool) : Prop :=
  exists p, positions m !! mint = Some p /\ active p = b.

(** The monitor holds a polling task for [mint]. *)
Definition monitored (m : Monitor) (mint : string) : Prop :=
  is_Some (monitoringIntervals m !! mint).

Definition addsMint (mint : string) (op : Op) : bool :=
  match op with
  | AddPosition mint' _ _ _ _ => String.eqb mint' mint
  | _ => false
  end.

Definition isStopAll (op : Op) : bool :=
  match op with StopAll => true | _ => false end.

(** The reason a polling cycle surfaced, if it called [exitPosition]. *)
Definition surfaced (c : Check) : option ExitReason :=
  match c with
  | CheckExit reason _ => Some reason
  | _ => None
  end.

(** A step either leaves the monitor as it was, or closes the position of
    one mint: the stored record is deactivated and the polling task of
    that mint is dropped. *)
Definition closes (m m' : Monitor) (mint : string) : Prop :=
  exists p,
    positions m !! mint = Some p /\ active p = true /\
    positions m' = <[mint := deactivate p]> (positions m) /\
    monitoringIntervals m' = delete mint (monitoringIntervals m).

(** Both price services failed or had nothing for the mint: the primary
    one answered without a price, or it threw and the fallback threw or
    answered with an empty list. *)
Definition noData (feed : PriceFeed) : bool :=
  match primary feed, fallback feed with
  | PrimaryPrice None, _ => true
  | PrimaryThrows, (FallbackThrows | FallbackEmpty) => true
  | _, _ => false
  end.

(** Every monitored mint has an active position, and conversely. *)
Definition monitoredAreActive (m : Monitor) : Prop :=
  forall mint, monitored m mint -> activeIs m mint true.

Definition activeAreMonitored (m : Monitor) : Prop :=
  forall mint, activeIs m mint true -> monitored m mint.

End PositionMonitor.

(** ** index.ts *)
Module Bot.

Definition isAuthorized (cfg : Config.t) (userId : Z) : bool :=
  if (length (Config.authorizedUsers cfg) =? 0)%nat then true
  else Js.arrayIncludes (Config.authorizedUsers cfg) (Js.numberToString userId).

End Bot.

(** ** Concrete inputs *)
Module Examples.
Import TokenValidator AIAnalysis PositionMonitor.

(** A mint whose two authorities are live, with no liquidity, no market
    capitalisation and a single holder owning everything. *)
Definition worstCase : Upstream :=
  {| marketData := {| md_liquidity := 0%float; md_marketCap := 0%float;
                      md_price := 0%float |};
     accountInfo := Parsed (Some "Auth1111") (Some "Auth1111");
     holders := {| hd_holderCount := 1; hd_topHolderPercent := 100%float |} |}.

(** Both authorities live and liquidity under the floor; market
    capitalisation, concentration and holder count are fine. *)
Definition threeFlags : Upstream :=
  {| marketData := {| md_liquidity := 500%float; md_marketCap := 90000%float;
                      md_price := 0.25%float |};
     accountInfo := Parsed (Some "Auth1111") (Some "Auth1111");
     holders := {| hd_holderCount := 20; hd_topHolderPercent := 12.5%float |} |}.

(** A token with nothing against it and plenty of liquidity. *)
Definition cleanValidation : TokenValidation :=
  {| isValid := true; riskScore := 0;
     liquidity := 50000%float; marketCap := 250000%float;
     holderCount := 20; topHolderPercent := 12.5%float;
     hasLiquidityLock := false; canMint := false; canFreeze := false;
     reasons := [AuthoritiesRevoked; StrongLiquidity 50000%float] |}.

Definition openPosition : Position :=
  {| tokenMint := "MintA"; tokenSymbol := "AAA";
     entryPrice := 1%float; entryTime := 1000;
     amountSol := 0.5%float; active := true |}.

(** The monitor after [addPosition("MintA", "AAA", 1.0, 0.5)] at clock
    reading [1000]. *)
Definition oneOpen : Monitor :=
  addPosition PositionMonitor.empty "MintA" "AAA" 1%float 0.5%float 1000.

Definition quote (p : float) : PriceFeed :=
  {| primary := PrimaryPrice (Some p); fallback := FallbackThrows |}.

Definition noQuote : PriceFeed :=
  {| primary := PrimaryThrows; fallback := FallbackThrows |}.

Definition addA : Op := AddPosition "MintA" "AAA" 1%float 0.5%float 1000.
Definition sellA : Op := ManualExitOp "MintA" (SellOk "sig1") noQuote.

(** The monitor after the position of [MintA] was opened and sold. *)
Definition oneClosed : Monitor :=
  run Config.defaults PositionMonitor.empty [addA; sellA].

(** Operations that do not add [MintA] again. *)
Definition laterOps : list Op :=
  [ CheckPosition "MintA" (quote 2%float) 2000 (SellOk "sig2") noQuote;
    ManualExitOp "MintA" (SellOk "sig3") noQuote;
    ExitPosition "MintA" ManualExit (SellOk "sig4") noQuote;
    AddPosition "MintB" "BBB" 3%float 0.5%float 3000;
    StopAll ].

(** Operations without [stopAll]. *)
Definition tradingOps : list Op :=
  [ addA;
    AddPosition "MintB" "BBB" 3%float 0.5%float 3000;
    CheckPosition "MintA" (quote 2%float) 2000 (SellOk "sig2") noQuote;
    ManualExitOp "MintB" (SellThrows "timeout") noQuote ].

Definition withUsers : Config.t :=
  {| Config.authorizedUsers := Config.parseAuthorizedUsers (Some "1001,,2002");
     Config.takeProfitPercent := 20%float;
     Config.stopLossPercent := (-10)%float;
     Config.maxHoldTime := 300000;
     Config.minLiquidity := 1000%float;
     Config.minMarketCap := 5000%float;
     Config.maxRiskScore := 7 |}.

End Examples.

(** ** config.ts: reading the environment *)
Module Environment.

(** [process.env]: a variable is unset ([None]) or holds a text. *)
Definition Env := string -> option string.

(** [a || b] for an optional text [a]. *)
Definition orElse (a : option string) (b : string) : string :=
  match a with
  | Some s => if Js.truthyString s then s else b
  | None => b
  end.

Definition rpcUrl (env : Env) : string :=
  orElse (env "HELIUS_RPC_URL")
    (orElse (env "ALCHEMY_RPC_URL") "https://api.mainnet-beta.solana.com").

Definition walletPrivateKey (env : Env) : string :=
  orElse (env "WALLET_PRIVATE_KEY") EmptyString.

Definition telegramBotToken (env : Env) : string :=
  orElse (env "TELEGRAM_BOT_TOKEN") EmptyString.

Definition authorizedUsers (env : Env) : list string :=
  Config.parseAuthorizedUsers (env "AUTHORIZED_USERS").

(** The value of [validateConfig()]: it throws with the list of missing
    names, or it returns, having warned or not about an open bot. *)
Inductive Validated :=
| MissingVariables (names : list string)
| ConfigOk (warnedOpenAccess : bool).

Definition required (env : Env) : list (string * string) :=
  [ ("HELIUS_RPC_URL or ALCHEMY_RPC_URL"%string, rpcUrl env);
    ("WALLET_PRIVATE_KEY"%string, walletPrivateKey env);
    ("TELEGRAM_BOT_TOKEN"%string, telegramBotToken env) ].

Definition validateConfig (env : Env) : Validated :=
  let missing :=
    List.map fst
      (List.filter (fun entry => negb (Js.truthyString (snd entry))) (required env)) in
  if (0 <? length missing)%nat then MissingVariables missing
  else ConfigOk (length (authorizedUsers env) =? 0)%nat.

(** [parts.join(sep)] for a one-character separator. *)
Fixpoint join (sep : ascii) (parts : list string) : string :=
  match parts with
  | [] => EmptyString
  | [s] => s
  | s :: rest => (s ++ String sep (join sep rest))%string
  end.

(** No character of [s] is [c]. *)
Fixpoint lacks (c : ascii) (s : string) : bool :=
  match s with
  | EmptyString => true
  | String a r => negb (Ascii.eqb a c) && lacks c r
  end.

End Environment.

(** ** index.ts: the two handlers that reach the services *)
Module Surface.
Import TokenValidator AIAnalysis PositionMonitor Bot.

(** The character class [[1-9A-HJ-NP-Za-km-z]]. *)
Definition isBase58 (c : ascii) : bool :=
  let n := nat_of_ascii c in
  (((49 <=? n) && (n <=? 57))
   || ((65 <=? n) && (n <=? 72))
   || ((74 <=? n) && (n <=? 78))
   || ((80 <=? n) && (n <=? 90))
   || ((97 <=? n) && (n <=? 107))
   || ((109 <=? n) && (n <=? 122)))%nat.

Fixpoint allBase58 (s : string) : bool :=
  match s with
  | EmptyString => true
  | String c r => isBase58 c && allBase58 r
  end.

(** [/^[1-9A-HJ-NP-Za-km-z]{32,44}$/.test(s)]. *)
Definition solanaAddressRegex (s : string) : bool :=
  allBase58 s && (32 <=? String.length s)%nat && (String.length s <=? 44)%nat.

(** What the [message] handler sent back: nothing, the refusal, or the
    analysis, with the buy buttons or with the notice that trading is
    disabled. *)
Inductive MessageReply :=
| NoReply
| Unauthorized
| Analysis (tokenMint : string) (validation : TokenValidation)
           (analysis : TokenAnalysis) (buyButtons : bool).

(** The handler's [catch] branch is not modelled: [validateToken],
    [getTokenMetadata] and [analyzeToken] catch their own errors. *)
Definition onMessage (cfg : Config.t) (userId : Z) (msgText : option string)
    (up : Upstream) (reply : Inference) : MessageReply :=
  let text := Environment.orElse msgText EmptyString in
  if Js.startsWith "/" text then NoReply
  else if negb (solanaAddressRegex (trim text)) then NoReply
  else if negb (isAuthorized cfg userId) then Unauthorized
  else
    let tokenMint := trim text in
    let validation := validateToken cfg up in
    let analysis := analyzeToken cfg validation reply in
    Analysis tokenMint validation analysis (isValid validation).

(** [callback_data] of the buttons under an analysis:
    [`buy:${tokenMint}:${amount}`]. *)
Definition buyData (tokenMint amount : string) : string :=
  ("buy:" ++ tokenMint ++ ":" ++ amount)%string.

(** What the [try] block of the [callback_query] handler did up to the
    call of [addPosition]: a step threw, or the purchase went through and
    the two lookups after it gave a symbol and a price. *)
Inductive Buy :=
| BuyThrows (message : string)
| BuyOk (signature symbol : string) (price : float).

Inductive CallbackAnswer :=
| CallbackUnauthorized
| CallbackIgnored
| CustomComingSoon
| AlreadyHavePosition
| BuyFailed (message : string)
| Bought (tokenMint symbol signature : string) (amount price : float).

Section Callback.

(** JavaScript's [parseFloat] on a text. *)
Variable parseFloat : string -> float.

(** [parseFloat(amountStr)], where a third field that is missing is
    [undefined] and parses to [NaN]. *)
Definition parseAmount (amountStr : option string) : float :=
  match amountStr with
  | Some s => parseFloat s
  | None => PrimFloat.nan
  end.

Definition isCustom (amountStr : option string) : bool :=
  match amountStr with
  | Some s => String.eqb s "custom"
  | None => false
  end.

Definition onCallbackQuery (cfg : Config.t) (m : Monitor) (userId : Z)
    (queryData : option string) (buy : Buy) (now : Z) : Monitor * CallbackAnswer :=
  let data := Environment.orElse queryData EmptyString in
  if negb (isAuthorized cfg userId) then (m, CallbackUnauthorized)
  else if Js.startsWith "buy:" data then
    let fields := Js.split ":"%char data in
    let tokenMint := nth 1 fields EmptyString in
    let amountStr := nth_error fields 2 in
    if isCustom amountStr then (m, CustomComingSoon)
    else
      let amount := parseAmount amountStr in
      if hasActivePosition m tokenMint then (m, AlreadyHavePosition)
      else
        match buy with
        | BuyThrows message => (m, BuyFailed message)
        | BuyOk signature symbol price =>
            (addPosition m tokenMint symbol price amount now,
             Bought tokenMint symbol signature amount price)
        end
  else (m, CallbackIgnored).

End Callback.

End Surface.

(** ** position-monitor.ts, with calls that overlap

    [checkPosition] and [exitPosition] are [async]: a call runs up to an
    [await], other calls run while it waits, and it resumes later.
    [addPosition] and [stopAll] contain no [await]. Here each event is the
    part of a call between two suspensions. *)
Module Async.
Import PositionMonitor.

(** A [checkPosition] call waiting for the price, with the position
    object it read from the map before waiting. *)
Record WaitingCheck := mkWaitingCheck {
  wc_mint : string;
  wc_position : Position
}.

(** An [exitPosition] call waiting for the sale. It holds the position
    object it read from the map; [we_current] says whether the map still
    holds that same object, which is so until [addPosition] stores a new
    object under the mint (nothing else writes an entry of the map). *)
Record WaitingExit := mkWaitingExit {
  we_mint : string;
  we_reason : ExitReason;
  we_current : bool
}.

Record World := mkWorld {
  monitor : Monitor;
  checks : list WaitingCheck;
  exits : list WaitingExit
}.

Definition idle (m : Monitor) : World :=
  {| monitor := m; checks := []; exits := [] |}.

(** [exitPosition] up to [await this.pumpPortal.sellToken(...)]. *)
Definition exitStarts (w : World) (tokenMint : string) (reason : ExitReason) : World :=
  match positions (monitor w) !! tokenMint with
  | None => w
  | Some position =>
      if negb (active position) then w
      else {| monitor := monitor w; checks := checks w;
              exits := exits w ++ [mkWaitingExit tokenMint reason true] |}
  end.

(** [manualExit] up to the same [await]: its own guard, then the start of
    [exitPosition]. *)
Definition manualExitStarts (w : World) (tokenMint : string) : World :=
  match positions (monitor w) !! tokenMint with
  | None => w
  | Some position =>
      if negb (active position) then w
      else exitStarts w tokenMint ManualExit
  end.

(** [checkPosition] up to [await this.getCurrentPrice(tokenMint)]. *)
Definition checkStarts (w : World) (tokenMint : string) : World :=
  match positions (monitor w) !! tokenMint with
  | None => w
  | Some position =>
      if negb (active position) then w
      else {| monitor := monitor w;
              checks := checks w ++ [mkWaitingCheck tokenMint position];
              exits := exits w |}
  end.

(** The rest of [checkPosition], for the [i]-th waiting call: the exit
    conditions are evaluated on the object read before the wait, and
    [exitPosition] is entered when one holds. *)
Definition priceArrives (cfg : Config.t) (w : World) (i : nat)
    (feed : PriceFeed) (now : Z) : World :=
  match checks w !! i with
  | None => w
  | Some waiting =>
      let w' := {| monitor := monitor w; checks := delete i (checks w);
                   exits := exits w |} in
      let position := wc_position waiting in
      let currentPrice := getCurrentPrice feed in
      if Js.falsy currentPrice || PrimFloat.eqb currentPrice 0%float then w'
      else
        let profitPercent := profitPercentOf currentPrice (entryPrice position) in
        let timeHeld := now - entryTime position in
        let shouldExit :=
          Js.ge profitPercent (Config.takeProfitPercent cfg)
          || Js.le profitPercent (Config.stopLossPercent cfg)
          || (Config.maxHoldTime cfg <=? timeHeld) in
        if shouldExit then
          let reason :=
            if Js.ge profitPercent (Config.takeProfitPercent cfg)
            then TakeProfit profitPercent
            else if Js.le profitPercent (Config.stopLossPercent cfg)
            then StopLoss profitPercent
            else MaxHoldTime (timeHeld / 60000) in
          exitStarts w' (wc_mint waiting) reason
        else w'
  end.

(** What [exitPosition] does to the monitor once the sale went through:
    [position.active = false] on the object it holds, which shows in the
    map only if the map still holds that object, then the timer the map
    holds now for the mint is cleared and its entry deleted. *)
Definition settle (m : Monitor) (tokenMint : string) (current : bool) : Monitor :=
  let positions' :=
    if current then alter deactivate tokenMint (positions m) else positions m in
  match monitoringIntervals m !! tokenMint with
  | Some interval =>
      {| positions := positions';
         monitoringIntervals := delete tokenMint (monitoringIntervals m);
         timers := timers m ∖ {[interval]};
         nextTimer := nextTimer m |}
  | None =>
      {| positions := positions';
         monitoringIntervals := monitoringIntervals m;
         timers := timers m;
         nextTimer := nextTimer m |}
  end.

(** The rest of [exitPosition], for the [i]-th waiting call. A sale that
    throws changes nothing. *)
Definition saleSettles (w : World) (i : nat) (sell : Sell) : World :=
  match exits w !! i with
  | None => w
  | Some waiting =>
      match sell with
      | SellThrows _ =>
          {| monitor := monitor w; checks := checks w;
             exits := delete i (exits w) |}
      | SellOk _ =>
          {| monitor := settle (monitor w) (we_mint waiting) (we_current waiting);
             checks := checks w;
             exits := delete i (exits w) |}
      end
  end.

Definition retire (tokenMint : string) (waiting : WaitingExit) : WaitingExit :=
  if String.eqb (we_mint waiting) tokenMint
  then mkWaitingExit (we_mint waiting) (we_reason waiting) false
  else waiting.

(** [addPosition]: the waiting exits of the mint now hold an object the
    map has dropped. *)
Definition addPositionCall (w : World) (tokenMint tokenSymbol : string)
    (entryPrice amountSol : float) (now : Z) : World :=
  {| monitor := addPosition (monitor w) tokenMint tokenSymbol entryPrice amountSol now;
     checks := checks w;
     exits := retire tokenMint <$> exits w |}.

Definition stopAllCall (w : World) : World :=
  {| monitor := stopAll (monitor w); checks := checks w; exits := exits w |}.

Inductive Event :=
| AddPositionCall (tokenMint tokenSymbol : string) (entryPrice amountSol : float) (now : Z)
| StopAllCall
| CheckStarts (tokenMint : string)
| PriceArrives (i : nat) (feed : PriceFeed) (now : Z)
| ExitStarts (tokenMint : string) (reason : ExitReason)
| ManualExitStarts (tokenMint : string)
| SaleSettles (i : nat) (sell : Sell).

Definition step (cfg : Config.t) (w : World) (e : Event) : World :=
  match e with
  | AddPositionCall mint symbol price amount now =>
      addPositionCall w mint symbol price amount now
  | StopAllCall => stopAllCall w
  | CheckStarts mint => checkStarts w mint
  | PriceArrives i feed now => priceArrives cfg w i feed now
  | ExitStarts mint reason => exitStarts w mint reason
  | ManualExitStarts mint => manualExitStarts w mint
  | SaleSettles i sell => saleSettles w i sell
  end.

Definition run (cfg : Config.t) (w : World) (events : list Event) : World :=
  fold_left (step cfg) events w.

(** A call of [PositionMonitor.step] as the events of a call that nothing
    interrupts. *)
Definition expand (op : Op) : list Event :=
  match op with
  | AddPosition mint symbol price amount now =>
      [AddPositionCall mint symbol price amount now]
  | CheckPosition mint feed now sell _ =>
      [CheckStarts mint; PriceArrives 0 feed now; SaleSettles 0 sell]
  | ExitPosition mint reason sell _ => [ExitStarts mint reason; SaleSettles 0 sell]
  | ManualExitOp mint sell _ => [ManualExitStarts mint; SaleSettles 0 sell]
  | StopAll => [StopAllCall]
  end.

Definition isStopAllCall (e : Event) : bool :=
  match e with StopAllCall => true | _ => false end.

(** No exit of the mint is waiting for its sale. *)
Definition noExitWaits (w : World) (tokenMint : string) : bool :=
  forallb (fun waiting => negb (String.eqb (we_mint waiting) tokenMint)) (exits w).

(** The event is no [stopAll], and no [addPosition] for a mint one of
    whose exits is waiting for its sale. *)
Definition undisturbed (w : World) (e : Event) : bool :=
  match e with
  | StopAllCall => false
  | AddPositionCall mint _ _ _ _ => noExitWaits w mint
  | _ => true
  end.

Fixpoint calm (cfg : Config.t) (w : World) (events : list Event) : bool :=
  match events with
  | [] => true
  | e :: rest => undisturbed w e && calm cfg (step cfg w e) rest
  end.

End Async.

(** ** index.ts, with handlers that overlap *)
Module AsyncBot.
Import PositionMonitor Bot Surface.

(** A [callback_query] handler past its guards, waiting for the purchase
    and the two lookups that follow it. *)
Record WaitingBuy := mkWaitingBuy {
  wb_mint : string;
  wb_amount : float
}.

Record BotWorld := mkBotWorld {
  world : Async.World;
  buys : list WaitingBuy
}.

Definition start : BotWorld :=
  {| world := Async.idle PositionMonitor.empty; buys := [] |}.

Section Handlers.

Variable parseFloat : string -> float.

(** The [callback_query] handler up to its first [await]: the purchase it
    goes on to make, if it passes the guards. *)
Definition pressed (cfg : Config.t) (m : Monitor) (userId : Z)
    (queryData : option string) : option WaitingBuy :=
  let data := Environment.orElse queryData EmptyString in
  if negb (isAuthorized cfg userId) then None
  else if Js.startsWith "buy:" data then
    let fields := Js.split ":"%char data in
    let tokenMint := nth 1 fields EmptyString in
    let amountStr := nth_error fields 2 in
    if isCustom amountStr then None
    else
      let amount := parseAmount parseFloat amountStr in
      if hasActivePosition m tokenMint then None
      else Some (mkWaitingBuy tokenMint amount)
  else None.

Definition buttonPressed (cfg : Config.t) (bw : BotWorld) (userId : Z)
    (queryData : option string) : BotWorld :=
  match pressed cfg (Async.monitor (world bw)) userId queryData with
  | Some waiting => {| world := world bw; buys := buys bw ++ [waiting] |}
  | None => bw
  end.

(** The rest of the handler, for the [i]-th waiting one: [addPosition]
    when nothing threw, without looking at the monitor again. *)
Definition purchaseSettles (bw : BotWorld) (i : nat) (buy : Buy) (now : Z) : BotWorld :=
  match buys bw !! i with
  | None => bw
  | Some waiting =>
      match buy with
      | BuyThrows _ => {| world := world bw; buys := delete i (buys bw) |}
      | BuyOk _ symbol price =>
          {| world := Async.addPositionCall (world bw) (wb_mint waiting) symbol
                        price (wb_amount waiting) now;
             buys := delete i (buys bw) |}
      end
  end.

(** What the bot does to the monitor: a button is pressed, a purchase
    completes, a polling timer fires, a price or a sale comes back, the
    process is told to stop. The bot calls [addPosition], [stopAll] and
    [hasActivePosition] only; [checkPosition] is called by the timers. A
    timer may fire for any mint at any time, so also one that no map entry
    holds any more. *)
Inductive BotEvent :=
| ButtonPressed (userId : Z) (queryData : option string)
| PurchaseSettles (i : nat) (buy : Buy) (now : Z)
| TimerFires (tokenMint : string)
| PriceArrives (i : nat) (feed : PriceFeed) (now : Z)
| SaleSettles (i : nat) (sell : Sell)
| Shutdown.

Definition onMonitor (cfg : Config.t) (bw : BotWorld) (e : Async.Event) : BotWorld :=
  {| world := Async.step cfg (world bw) e; buys := buys bw |}.

Definition botStep (cfg : Config.t) (bw : BotWorld) (e : BotEvent) : BotWorld :=
  match e with
  | ButtonPressed userId queryData => buttonPressed cfg bw userId queryData
  | PurchaseSettles i buy now => purchaseSettles bw i buy now
  | TimerFires mint => onMonitor cfg bw (Async.CheckStarts mint)
  | PriceArrives i feed now => onMonitor cfg bw (Async.PriceArrives i feed now)
  | SaleSettles i sell => onMonitor cfg bw (Async.SaleSettles i sell)
  | Shutdown => onMonitor cfg bw Async.StopAllCall
  end.

Definition botRun (cfg : Config.t) (bw : BotWorld) (events : list BotEvent) : BotWorld :=
  fold_left (botStep cfg) events bw.

(** A press that passes the guards finds no other purchase of its mint
    under way. *)
Definition unrivalled (cfg : Config.t) (bw : BotWorld) (e : BotEvent) : bool :=
  match e with
  | ButtonPressed userId queryData =>
      match pressed cfg (Async.monitor (world bw)) userId queryData with
      | Some waiting =>
          forallb (fun other => negb (String.eqb (wb_mint other) (wb_mint waiting)))
                  (buys bw)
      | None => true
      end
  | _ => true
  end.

Fixpoint orderly (cfg : Config.t) (bw : BotWorld) (events : list BotEvent) : bool :=
  match events with
  | [] => true
  | e :: rest => unrivalled cfg bw e && orderly cfg (botStep cfg bw e) rest
  end.

End Handlers.

End AsyncBot.

(** ** Derived notions used to state properties *)
Module Derived.
Import TokenValidator AIAnalysis PositionMonitor.



Section Width.

Variable one : ascii -> bool.
Variable two : ascii -> ascii -> bool.
Variable three : ascii -> ascii -> ascii -> bool.

(** The number of bytes of the white-space character the bytes start
    with, 0 when they start with none. *)
Definition spaceWidth (l : list ascii) : nat :=
  match l with
  | [] => 0%nat
  | a :: r =>
      if one a then 1%nat
      else
        match r with
        | [] => 0%nat
        | b :: r2 =>
            if two a b then 2%nat
            else
              match r2 with
              | [] => 0%nat
              | c :: _ => if three a b c then 3%nat else 0%nat
              end
        end
  end.

End Width.


(** The monitor after the position [p] stored under [mint] was closed:
    what a successful sale leaves behind. *)
Definition closed (m : Monitor) (mint : string) (p : Position) : Monitor :=
  {| positions := <[mint := deactivate p]> (positions m);
     monitoringIntervals := delete mint (monitoringIntervals m);
     timers := match monitoringIntervals m !! mint with
               | Some interval => timers m ∖ {[interval]}
               | None => timers m
               end;
     nextTimer := nextTimer m |}.

(** The handle [h] is the polling task of some mint. *)
Definition registered (m : Monitor) (h : nat) : Prop :=
  exists mint, monitoringIntervals m !! mint = Some h.

(** Handles in the interval map are live, were handed out earlier, and
    belong to one mint each. *)
Definition handlesSound (m : Monitor) : Prop :=
  (forall mint h, monitoringIntervals m !! mint = Some h ->
     h ∈ timers m /\ (h < nextTimer m)%nat) /\
  (forall mint1 mint2 h,
     monitoringIntervals m !! mint1 = Some h ->
     monitoringIntervals m !! mint2 = Some h -> mint1 = mint2).

(** A live timer whose handle the interval map no longer holds. *)
Definition orphaned (m : Monitor) (h : nat) : Prop :=
  h ∈ timers m /\ ~ registered m h /\ (h < nextTimer m)%nat.

(** Every live timer is the polling task of a mint. *)
Definition noOrphans (m : Monitor) : Prop :=
  forall h, h ∈ timers m -> registered m h.

(** Every waiting exit holds the object the map holds. *)
Definition allCurrent (w : Async.World) : Prop :=
  Forall (fun waiting => Async.we_current waiting = true) (Async.exits w).

(** No purchase is waiting for a mint that has a polling task, and no
    two purchases are waiting for one mint. *)
Definition purchasesApart (bw : AsyncBot.BotWorld) : Prop :=
  (forall waiting, waiting ∈ AsyncBot.buys bw ->
     ~ monitored (Async.monitor (AsyncBot.world bw)) (AsyncBot.wb_mint waiting)) /\
  NoDup (AsyncBot.wb_mint <$> AsyncBot.buys bw).

(** Two records that agree on everything but [active]. *)
Definition sameTrade (p q : Position) : Prop :=
  tokenMint p = tokenMint q /\ tokenSymbol p = tokenSymbol q /\
  entryPrice p = entryPrice q /\ entryTime p = entryTime q /\
  amountSol p = amountSol q.

Definition touches (mint : string) (op : Op) : bool :=
  match op with
  | AddPosition k _ _ _ _ => String.eqb k mint
  | CheckPosition k _ _ _ _ => String.eqb k mint
  | ExitPosition k _ _ _ => String.eqb k mint
  | ManualExitOp k _ _ => String.eqb k mint
  | StopAll => false
  end.

End Derived.

(** ** More concrete inputs *)
Module Cases.
Import TokenValidator AIAnalysis PositionMonitor.

(** A mint with revoked authorities, deep liquidity and many holders. *)
Definition healthy : Upstream :=
  {| marketData := {| md_liquidity := 50000%float; md_marketCap := 250000%float;
                      md_price := 0.25%float |};
     accountInfo := Parsed None None;
     holders := {| hd_holderCount := 20; hd_topHolderPercent := 12.5%float |} |}.

Definition rpcDown : Upstream :=
  {| marketData := {| md_liquidity := 50000%float; md_marketCap := 250000%float;
                      md_price := 0.25%float |};
     accountInfo := RpcThrows;
     holders := {| hd_holderCount := 20; hd_topHolderPercent := 12.5%float |} |}.

(** The record of a failed validation, with the risk score lowered. *)
Definition mediumRisk : TokenValidation :=
  {| isValid := false; riskScore := 4;
     liquidity := 0%float; marketCap := 0%float;
     holderCount := 0; topHolderPercent := 0%float;
     hasLiquidityLock := false; canMint := true; canFreeze := true;
     reasons := [FailedToValidate] |}.

Definition mintA : string := "7xKXtg2CW87d97TXJSDpbD5jBkheTqA83TZRuJosgAsU".

(** A position registered while the market data lookup had failed, so
    with an entry price of 0. *)
Definition zeroEntry : Monitor :=
  addPosition PositionMonitor.empty "MintZ" "ZZZ" 0%float 0.5%float 1000.

(** [MintA] added twice without an exit in between. *)
Definition addedTwice : list Op := [Examples.addA; Examples.addA].

(** A [manualExit] of [MintA] is waiting for its sale when [MintA] is
    added again; then the sale goes through. *)
Definition overlapping : list Async.Event :=
  [ Async.AddPositionCall "MintA" "AAA" 1%float 0.5%float 1000;
    Async.ManualExitStarts "MintA";
    Async.AddPositionCall "MintA" "AAA" 2%float 0.5%float 5000;
    Async.SaleSettles 0 (SellOk "sig1") ].

(** Two polling cycles of [MintA] overlap, and two sales of [MintB] wait
    at once; no position is added while one of its exits waits. *)
Definition interleaved : list Async.Event :=
  [ Async.AddPositionCall "MintA" "AAA" 1%float 0.5%float 1000;
    Async.AddPositionCall "MintB" "BBB" 3%float 0.5%float 1500;
    Async.CheckStarts "MintA";
    Async.CheckStarts "MintA";
    Async.ManualExitStarts "MintB";
    Async.PriceArrives 1 (Examples.quote 2%float) 2000;
    Async.ExitStarts "MintB" ManualExit;
    Async.PriceArrives 0 (Examples.quote 2%float) 2100;
    Async.SaleSettles 1 (SellOk "sig1");
    Async.SaleSettles 0 (SellThrows "timeout");
    Async.SaleSettles 0 (SellOk "sig2");
    Async.SaleSettles 0 (SellOk "sig3") ].

(** The amount every button of the examples parses to. *)
Definition halfSol (amountStr : string) : float := 0.5%float.

(** The same buy button pressed twice before the first purchase is
    through; then both purchases go through. *)
Definition doublePress : list AsyncBot.BotEvent :=
  [ AsyncBot.ButtonPressed 7 (Some (Surface.buyData mintA "0.5"));
    AsyncBot.ButtonPressed 7 (Some (Surface.buyData mintA "0.5"));
    AsyncBot.PurchaseSettles 0 (Surface.BuyOk "sig1" "AAA" 0.25%float) 1000;
    AsyncBot.PurchaseSettles 0 (Surface.BuyOk "sig2" "AAA" 0.25%float) 1200 ].

(** A purchase, a second press refused for the active position, a polling
    cycle that takes profit, a new purchase of the same mint, shutdown. *)
Definition oneTrade : list AsyncBot.BotEvent :=
  [ AsyncBot.ButtonPressed 7 (Some (Surface.buyData mintA "0.5"));
    AsyncBot.PurchaseSettles 0 (Surface.BuyOk "sig1" "AAA" 0.25%float) 1000;
    AsyncBot.ButtonPressed 7 (Some (Surface.buyData mintA "0.5"));
    AsyncBot.TimerFires mintA;
    AsyncBot.PriceArrives 0 (Examples.quote 0.5%float) 6000;
    AsyncBot.SaleSettles 0 (SellOk "sig2");
    AsyncBot.ButtonPressed 7 (Some (Surface.buyData mintA "0.5"));
    AsyncBot.PurchaseSettles 0 (Surface.BuyOk "sig3" "AAA" 0.5%float) 9000;
    AsyncBot.Shutdown ].

(** The no-break space U+00A0 in UTF-8. *)
Definition nbsp : string :=
  String (ascii_of_nat 194) (String (ascii_of_nat 160) EmptyString).

(** The line separator U+2028 in UTF-8. *)
Definition lineSeparator : string :=
  String (ascii_of_nat 226)
    (String (ascii_of_nat 128) (String (ascii_of_nat 168) EmptyString)).

Definition onlyToken : Environment.Env :=
  fun name => if String.eqb name "TELEGRAM_BOT_TOKEN" then Some "123:abc"%string
              else None.

Definition fullEnv : Environment.Env :=
  fun name =>
    if String.eqb name "TELEGRAM_BOT_TOKEN" then Some "123:abc"%string
    else if String.eqb name "WALLET_PRIVATE_KEY" then Some "5Jkey"%string
    else if String.eqb name "AUTHORIZED_USERS" then Some "1001,,2002"%string
    else None.

End Cases.

(** * Properties *)

Import TokenValidator AIAnalysis PositionMonitor Bot.

(** ** Strings *)

Lemma startsWith_app (p s : string) :
  Js.startsWith p s = true <-> exists r, s = (p ++ r)%string.
Proof.
  revert s; induction p as [|a p IH]; intros s; simpl.
  - split; [intros _; exists s; reflexivity | reflexivity].
  - destruct s as [|b s].
    + split; [discriminate | intros [r Hr]; discriminate].
    + rewrite andb_true_iff, Ascii.eqb_eq, IH. split.
      * intros [-> [r ->]]. exists r. reflexivity.
      * intros [r Hr]. injection Hr as -> ->. split; [reflexivity | exists r; reflexivity].
Qed.

(** [includes] finds exactly the strings that occur somewhere in the
    text. *)
Lemma includes_occurs (hay needle : string) :
  Js.includes hay needle = true <->
  exists l r, hay = (l ++ needle ++ r)%string.
Proof.
  induction hay as [|c hay IH]; simpl; rewrite orb_true_iff, startsWith_app.
  - split.
    + intros [[r Hr] | H]; [|discriminate]. exists EmptyString, r. exact Hr.
    + intros [l [r H]]. left. destruct l; simpl in H.
      * exists r. exact H.
      * discriminate.
  - rewrite IH. split.
    + intros [[r Hr] | [l [r Hr]]].
      * exists EmptyString, r. exact Hr.
      * exists (String c l), r. simpl. rewrite Hr. reflexivity.
    + intros [l [r H]]. destruct l as [|a l]; simpl in H.
      * left. exists r. exact H.
      * right. injection H as _ H. exists l, r. exact H.
Qed.

Lemma arrayIncludes_In (l : list string) (x : string) :
  Js.arrayIncludes l x = true <-> In x l.
Proof.
  induction l as [|y l IH]; simpl.
  - split; [discriminate | tauto].
  - rewrite orb_true_iff, String.eqb_eq, IH. tauto.
Qed.

Lemma toLowerCase_example :
  Js.toLowerCase "Verdict: STRONG Buy!" = "verdict: strong buy!"%string.
Proof. reflexivity. Qed.

(** ** Token validator *)

(** The [catch] branch: a failed upstream call gives the fixed
    pessimistic record. *)
Lemma validateToken_fail_closed cfg up :
  upstreamFailed up = true -> validateToken cfg up = failClosed.
Proof.
  unfold upstreamFailed, validateToken.
  destruct (accountInfo up); [reflexivity | discriminate | discriminate].
Qed.

Lemma penalise_fst c k r acc :
  fst (penalise c k r acc) = fst acc + points k c.
Proof. destruct c; simpl; lia. Qed.

Lemma signal_fst c r acc : fst (signal c r acc) = fst acc.
Proof. destruct c; reflexivity. Qed.

Lemma points_bounds k c : 0 <= k -> 0 <= points k c <= k.
Proof. destruct c; simpl; lia. Qed.

(** The score of a validation that reached the scoring code is the
    penalty sum, whatever the account lookup returned. *)
Lemma riskScore_penaltySum cfg up :
  upstreamFailed up = false ->
  riskScore (validateToken cfg up) = penaltySum cfg up.
Proof.
  unfold upstreamFailed, validateToken, penaltySum, mintActive, freezeActive.
  destruct up as [md info hd]; simpl.
  destruct info as [| |ma fa]; [discriminate| |]; intros _; simpl;
    rewrite !signal_fst, !penalise_fst; simpl; lia.
Qed.

(** C7: when no upstream call fails, the risk score [validateToken]
    returns is the sum of the six listed penalties (3 for a live mint
    authority, 2 for a live freeze authority, 2 for liquidity under the
    floor, 1 for market capitalisation under the floor, 2 for a top holder
    above 50 percent, 1 for fewer than 10 holders) and nothing else; with
    exactly the first three conditions met the score is 7. *)
Theorem validateToken_riskScore_is_penalty_sum (cfg : Config.t) (up : Upstream) :
  upstreamFailed up = false ->
  riskScore (validateToken cfg up) = penaltySum cfg up /\
  (mintActive up = true ->
   freezeActive up = true ->
   Js.lt (md_liquidity (marketData up)) (Config.minLiquidity cfg) = true ->
   Js.lt (md_marketCap (marketData up)) (Config.minMarketCap cfg) = false ->
   Js.gt (hd_topHolderPercent (holders up)) 50%float = false ->
   (hd_holderCount (holders up) <? 10) = false ->
   riskScore (validateToken cfg up) = 7).
Proof.
  intros Hok. split; [exact (riskScore_penaltySum cfg up Hok)|].
  intros Hm Hf Hl Hc Ht Hh. rewrite (riskScore_penaltySum cfg up Hok).
  unfold penaltySum. rewrite Hm, Hf, Hl, Hc, Ht, Hh. reflexivity.
Qed.

Lemma validateToken_riskScore_is_penalty_sum_witness :
  riskScore (validateToken Config.defaults Examples.threeFlags)
    = penaltySum Config.defaults Examples.threeFlags /\
  riskScore (validateToken Config.defaults Examples.threeFlags) = 7.
Proof.
  destruct (validateToken_riskScore_is_penalty_sum
              Config.defaults Examples.threeFlags eq_refl) as [Hsum Hseven].
  split; [exact Hsum|].
  apply Hseven; reflexivity.
Defined.

(** The score never leaves the interval from 0 to 11. *)
Lemma validateToken_riskScore_range cfg up :
  0 <= riskScore (validateToken cfg up) <= 11.
Proof.
  destruct (upstreamFailed up) eqn:Hf.
  - unfold validateToken. unfold upstreamFailed in Hf.
    destruct (accountInfo up); try discriminate. simpl. lia.
  - rewrite (riskScore_penaltySum cfg up Hf). unfold penaltySum.
    pose proof (points_bounds 3 (mintActive up)).
    pose proof (points_bounds 2 (freezeActive up)).
    pose proof (points_bounds 2
      (Js.lt (md_liquidity (marketData up)) (Config.minLiquidity cfg))).
    pose proof (points_bounds 1
      (Js.lt (md_marketCap (marketData up)) (Config.minMarketCap cfg))).
    pose proof (points_bounds 2 (Js.gt (hd_topHolderPercent (holders up)) 50%float)).
    pose proof (points_bounds 1 (hd_holderCount (holders up) <? 10)).
    lia.
Qed.

(** C3: the risk score is documented to lie between 0 and 10, but with
    every penalty applying at once [validateToken] returns 11. *)
Theorem validateToken_riskScore_eleven :
  upstreamFailed Examples.worstCase = false /\
  riskScore (validateToken Config.defaults Examples.worstCase) = 11 /\
  ~ (0 <= riskScore (validateToken Config.defaults Examples.worstCase) <= 10).
Proof.
  split; [reflexivity|]. split; [reflexivity|].
  intros [_ H]. vm_compute in H. apply H. reflexivity.
Qed.

(** ** AI analysis *)

(** C2, as the specification states it, fails: a reply that says
    "STRONG BUY" is answered with BUY even at risk score 10. *)
Lemma extractRecommendation_strong_buy_beats_risk :
  7 <= riskScore failClosed /\
  extractRecommendation "Ape in now. STRONG BUY" failClosed <> AVOID /\
  recommendation
    (analyzeToken Config.defaults failClosed
       (Completion (Some "Ape in now. STRONG BUY"%string))) = BUY.
Proof.
  split; [vm_compute; discriminate|].
  split; [vm_compute; discriminate | reflexivity].
Qed.

Lemma extractRecommendation_strong_buy analysis validation :
  Js.includes (Js.toLowerCase analysis) "strong buy" = true ->
  extractRecommendation analysis validation = BUY.
Proof. intros H. unfold extractRecommendation. rewrite H. reflexivity. Qed.

Lemma extractRecommendation_high_risk analysis validation :
  7 <= riskScore validation ->
  Js.includes (Js.toLowerCase analysis) "strong buy" = false ->
  extractRecommendation analysis validation = AVOID.
Proof.
  intros Hrisk Hstrong. unfold extractRecommendation. rewrite Hstrong.
  assert (H3 : (riskScore validation <=? 3) = false) by (apply Z.leb_gt; lia).
  assert (H7 : (7 <=? riskScore validation) = true) by (apply Z.leb_le; lia).
  rewrite H3, H7, andb_false_r, orb_true_r. reflexivity.
Qed.

(** On the path where the inference call answers, the recommendation is
    the one [extractRecommendation] draws from the content, an absent
    content counting as the empty text. *)
Lemma analyzeToken_recommendation cfg validation content :
  recommendation (analyzeToken cfg validation (Completion content))
  = extractRecommendation
      (match content with Some text => text | None => EmptyString end) validation.
Proof. destruct content as [[|c r]|]; reflexivity. Qed.

(** C2 (amended): with a risk score of at least 7, a model text whose
    lower-cased form does not contain "strong buy" gives AVOID, both from
    [extractRecommendation] and from [analyzeToken] whenever the inference
    call answers, an empty or absent content included; a text that does
    contain "strong buy" gives BUY at every risk score. *)
Theorem extractRecommendation_avoid_unless_strong_buy
    (cfg : Config.t) (analysis : string) (validation : TokenValidation) :
  (7 <= riskScore validation ->
   Js.includes (Js.toLowerCase analysis) "strong buy" = false ->
   extractRecommendation analysis validation = AVOID /\
   recommendation (analyzeToken cfg validation (Completion (Some analysis))) = AVOID) /\
  (7 <= riskScore validation ->
   recommendation (analyzeToken cfg validation (Completion None)) = AVOID /\
   recommendation (analyzeToken cfg validation (Completion (Some EmptyString))) = AVOID) /\
  (Js.includes (Js.toLowerCase analysis) "strong buy" = true ->
   extractRecommendation analysis validation = BUY /\
   recommendation (analyzeToken cfg validation (Completion (Some analysis))) = BUY).
Proof.
  split; [|split].
  - intros Hrisk Hstrong. rewrite analyzeToken_recommendation.
    split; exact (extractRecommendation_high_risk analysis validation Hrisk Hstrong).
  - intros Hrisk. rewrite !analyzeToken_recommendation.
    split; apply extractRecommendation_high_risk; try exact Hrisk; reflexivity.
  - intros Hstrong. rewrite analyzeToken_recommendation.
    split; exact (extractRecommendation_strong_buy analysis validation Hstrong).
Qed.

Lemma extractRecommendation_avoid_unless_strong_buy_witness :
  extractRecommendation "looks tasty, BUY the dip" failClosed = AVOID /\
  recommendation
    (analyzeToken Config.defaults failClosed
       (Completion (Some "looks tasty, BUY the dip"%string))) = AVOID /\
  recommendation (analyzeToken Config.defaults failClosed (Completion None)) = AVOID /\
  extractRecommendation "STRONG BUY" failClosed = BUY.
Proof.
  destruct (extractRecommendation_avoid_unless_strong_buy
              Config.defaults "looks tasty, BUY the dip" failClosed)
    as [Hhigh [Hnone _]].
  destruct (extractRecommendation_avoid_unless_strong_buy
              Config.defaults "STRONG BUY" failClosed) as [_ [_ Hstrong]].
  destruct Hhigh as [Hx Ha]; [vm_compute; discriminate | reflexivity |].
  destruct Hnone as [Hn _]; [vm_compute; discriminate|].
  split; [exact Hx|]. split; [exact Ha|]. split; [exact Hn|].
  apply Hstrong. reflexivity.
Defined.

Lemma clamp_min_max x : clamp 0 100 x = Z.min 100 (Z.max 0 x).
Proof.
  unfold clamp. destruct (Z.ltb_spec x 0); [lia|].
  destruct (Z.ltb_spec 100 x); lia.
Qed.

Lemma calculateConfidence_unfold cfg validation :
  calculateConfidence cfg validation =
  Z.min 100 (Z.max 0
    (100 - riskScore validation * 10
     + points 10 (Js.ge (liquidity validation) (Config.minLiquidity cfg * 3)%float)
     + points 10 (Js.ge (marketCap validation) (Config.minMarketCap cfg * 3)%float)
     + points 15 (negb (canMint validation) && negb (canFreeze validation)))).
Proof.
  unfold calculateConfidence.
  destruct (Js.ge (liquidity validation) _), (Js.ge (marketCap validation) _),
    (negb (canMint validation) && negb (canFreeze validation)); simpl; f_equal; f_equal; lia.
Qed.

(** C8: the confidence is [100 - riskScore * 10], plus 10 for liquidity
    of at least three times its floor, plus 10 for market capitalisation of
    at least three times its floor, plus 15 when mint and freeze authority
    are both revoked, clamped to the interval from 0 to 100; so it is never
    negative, and a risk score of 0 with every bonus gives 100 (the sum
    before the clamp is 135), not 145. *)
Theorem calculateConfidence_formula_clamped
    (cfg : Config.t) (validation : TokenValidation) :
  calculateConfidence cfg validation = confidenceFormula cfg validation /\
  0 <= calculateConfidence cfg validation <= 100 /\
  (riskScore validation = 0 ->
   Js.ge (liquidity validation) (Config.minLiquidity cfg * 3)%float = true ->
   Js.ge (marketCap validation) (Config.minMarketCap cfg * 3)%float = true ->
   canMint validation = false ->
   canFreeze validation = false ->
   calculateConfidence cfg validation = 100 /\
   calculateConfidence cfg validation <> 145).
Proof.
  split; [|split].
  - rewrite calculateConfidence_unfold. unfold confidenceFormula.
    symmetry. apply clamp_min_max.
  - rewrite calculateConfidence_unfold. lia.
  - intros Hr Hl Hm Hcm Hcf. rewrite calculateConfidence_unfold.
    rewrite Hr, Hl, Hm, Hcm, Hcf. simpl. lia.
Qed.

Lemma calculateConfidence_formula_clamped_witness :
  calculateConfidence Config.defaults Examples.cleanValidation = 100.
Proof.
  destruct (calculateConfidence_formula_clamped
              Config.defaults Examples.cleanValidation) as [_ [_ Hfull]].
  destruct Hfull as [Hcap _]; [reflexivity .. | exact Hcap].
Defined.

(** ** Position monitor: one operation *)

Lemma closes_lookup_same m m' mint :
  closes m m' mint ->
  activeIs m' mint false /\ ~ activeIs m' mint true /\ ~ monitored m' mint.
Proof.
  intros [p [Hp [Ha [Hpos Hint]]]].
  assert (Hl : positions m' !! mint = Some (deactivate p))
    by (rewrite Hpos; apply lookup_insert_eq).
  split; [exists (deactivate p); split; [exact Hl | reflexivity]|]. split.
  - intros [q [Hq Hact]]. rewrite Hl in Hq. injection Hq as <-. discriminate.
  - unfold monitored. rewrite Hint, lookup_delete_eq. intros [x Hx]. discriminate.
Qed.

Lemma closes_lookup_other m m' mint other :
  closes m m' mint -> mint <> other ->
  positions m' !! other = positions m !! other /\
  monitoringIntervals m' !! other = monitoringIntervals m !! other.
Proof.
  intros [p [_ [_ [Hpos Hint]]]] Hne. rewrite Hpos, Hint. split.
  - apply lookup_insert_ne; exact Hne.
  - apply lookup_delete_ne; exact Hne.
Qed.

Lemma exitPosition_sold m mint p reason signature feed :
  positions m !! mint = Some p -> active p = true ->
  closes m (fst (exitPosition m mint reason (SellOk signature) feed)) mint /\
  snd (exitPosition m mint reason (SellOk signature) feed)
    = ExitClosed reason signature (getCurrentPrice feed).
Proof.
  intros Hp Ha. unfold exitPosition. rewrite Hp, Ha. simpl. split; [|reflexivity].
  exists p. repeat split; try assumption.
  - destruct (monitoringIntervals m !! mint); reflexivity.
  - destruct (monitoringIntervals m !! mint) eqn:Hi; simpl; [reflexivity|].
    symmetry. apply delete_id. exact Hi.
Qed.

Lemma exitPosition_sell_throws m mint p reason message feed :
  positions m !! mint = Some p -> active p = true ->
  exitPosition m mint reason (SellThrows message) feed = (m, ExitThrows message).
Proof. intros Hp Ha. unfold exitPosition. rewrite Hp, Ha. reflexivity. Qed.

Lemma exitPosition_cases m mint reason sell feed :
  fst (exitPosition m mint reason sell feed) = m \/
  closes m (fst (exitPosition m mint reason sell feed)) mint.
Proof.
  destruct (positions m !! mint) as [p|] eqn:Hp.
  - destruct (active p) eqn:Ha.
    + destruct sell as [signature|message].
      * right. exact (proj1 (exitPosition_sold m mint p reason signature feed Hp Ha)).
      * left. rewrite (exitPosition_sell_throws m mint p reason message feed Hp Ha).
        reflexivity.
    + left. unfold exitPosition. rewrite Hp, Ha. reflexivity.
  - left. unfold exitPosition. rewrite Hp. reflexivity.
Qed.

Lemma checkPosition_cases cfg m mint feed now sell finalFeed :
  fst (checkPosition cfg m mint feed now sell finalFeed) = m \/
  closes m (fst (checkPosition cfg m mint feed now sell finalFeed)) mint.
Proof.
  unfold checkPosition.
  destruct (positions m !! mint) as [p|]; [|left; reflexivity].
  destruct (negb (active p)); [left; reflexivity|].
  destruct (Js.falsy _ || _); [left; reflexivity|].
  match goal with |- context [if ?c then _ else _] => destruct c end;
    [|left; reflexivity].
  match goal with |- context [exitPosition m mint ?r sell finalFeed] =>
    pose proof (exitPosition_cases m mint r sell finalFeed) as H;
    destruct (exitPosition m mint r sell finalFeed) as [m' res] end.
  exact H.
Qed.

Lemma manualExit_cases m mint sell finalFeed :
  fst (manualExit m mint sell finalFeed) = m \/
  closes m (fst (manualExit m mint sell finalFeed)) mint.
Proof.
  unfold manualExit.
  destruct (positions m !! mint) as [p|]; [|left; reflexivity].
  destruct (negb (active p)); [left; reflexivity|].
  pose proof (exitPosition_cases m mint ManualExit sell finalFeed) as H.
  destruct (exitPosition m mint ManualExit sell finalFeed) as [m' res].
  exact H.
Qed.

Lemma oneOpen_lookup :
  positions Examples.oneOpen !! "MintA" = Some Examples.openPosition.
Proof. unfold Examples.oneOpen, addPosition. simpl. apply lookup_insert_eq. Qed.

Lemma oneOpen_monitored : monitoringIntervals Examples.oneOpen !! "MintA" = Some 0%nat.
Proof. unfold Examples.oneOpen, addPosition. simpl. apply lookup_insert_eq. Qed.

Lemma exitPosition_sold_lookup m mint p reason signature feed :
  positions m !! mint = Some p -> active p = true ->
  positions (fst (exitPosition m mint reason (SellOk signature) feed)) !! mint
    = Some (deactivate p) /\
  ~ monitored (fst (exitPosition m mint reason (SellOk signature) feed)) mint.
Proof.
  intros Hp Ha.
  destruct (exitPosition_sold m mint p reason signature feed Hp Ha) as [Hc _].
  destruct (closes_lookup_same _ _ _ Hc) as [[q [Hq Hact]] [_ Hno]].
  split; [|exact Hno].
  destruct Hc as [q' [Hq' [_ [Hpos _]]]]. rewrite Hpos, lookup_insert_eq.
  congruence.
Qed.

(** C1, as the specification states it, fails: after an [exitPosition]
    whose sell request throws, the position is still stored with
    [active = true] and its polling task is still registered. *)
Lemma exitPosition_failed_sell_stays_active :
  let after :=
    fst (exitPosition Examples.oneOpen "MintA" ManualExit
           (SellThrows "Failed to sell token: timeout") Examples.noQuote) in
  activeIs Examples.oneOpen "MintA" true /\
  activeIs after "MintA" true /\
  ~ activeIs after "MintA" false /\
  monitored after "MintA".
Proof.
  cbv zeta.
  rewrite (exitPosition_sell_throws _ _ _ _ _ _ oneOpen_lookup eq_refl). simpl.
  assert (Hact : activeIs Examples.oneOpen "MintA" true).
  { exists Examples.openPosition. split; [exact oneOpen_lookup | reflexivity]. }
  split; [exact Hact|]. split; [exact Hact|]. split.
  - intros [p [Hp Ha]]. rewrite oneOpen_lookup in Hp. injection Hp as <-. discriminate.
  - unfold monitored. rewrite oneOpen_monitored. eexists; reflexivity.
Qed.

(** C1 (amended): for a registered position with [active = true], an
    [exitPosition] call whose sell request succeeds marks the position
    [active = false], drops its polling task and returns the result
    record; a call whose sell request fails leaves the whole monitor
    unchanged, so the position stays [active = true], and rethrows the
    error. The only states are open and closed. *)
Theorem exitPosition_closes_only_after_sale
    (m : Monitor) (mint : string) (p : Position) (reason : ExitReason)
    (sell : Sell) (feed : PriceFeed) :
  positions m !! mint = Some p ->
  active p = true ->
  match sell with
  | SellOk signature =>
      positions (fst (exitPosition m mint reason sell feed)) !! mint
        = Some (deactivate p) /\
      activeIs (fst (exitPosition m mint reason sell feed)) mint false /\
      ~ monitored (fst (exitPosition m mint reason sell feed)) mint /\
      snd (exitPosition m mint reason sell feed)
        = ExitClosed reason signature (getCurrentPrice feed)
  | SellThrows message =>
      exitPosition m mint reason sell feed = (m, ExitThrows message) /\
      activeIs (fst (exitPosition m mint reason sell feed)) mint true
  end.
Proof.
  intros Hp Ha. destruct sell as [signature|message].
  - destruct (exitPosition_sold m mint p reason signature feed Hp Ha)
      as [[q [Hq [_ [Hpos Hint]]]] Hres].
    assert (q = p) as -> by congruence.
    assert (Hl : positions (fst (exitPosition m mint reason (SellOk signature) feed))
                 !! mint = Some (deactivate p)).
    { rewrite Hpos. apply lookup_insert_eq. }
    split; [exact Hl|]. split; [exists (deactivate p); split; [exact Hl|reflexivity]|].
    split; [|exact Hres].
    unfold monitored. rewrite Hint, lookup_delete_eq. intros [x Hx]. discriminate.
  - rewrite (exitPosition_sell_throws m mint p reason message feed Hp Ha).
    split; [reflexivity|]. exists p. split; assumption.
Qed.

Lemma exitPosition_closes_only_after_sale_witness :
  activeIs
    (fst (exitPosition Examples.oneOpen "MintA" ManualExit (SellOk "sig1")
            Examples.noQuote)) "MintA" false /\
  exitPosition Examples.oneOpen "MintA" ManualExit (SellThrows "timeout")
    Examples.noQuote = (Examples.oneOpen, ExitThrows "timeout").
Proof.
  split.
  - exact (proj1 (proj2 (exitPosition_closes_only_after_sale
             Examples.oneOpen "MintA" Examples.openPosition ManualExit
             (SellOk "sig1") Examples.noQuote oneOpen_lookup eq_refl))).
  - exact (proj1 (exitPosition_closes_only_after_sale
             Examples.oneOpen "MintA" Examples.openPosition ManualExit
             (SellThrows "timeout") Examples.noQuote oneOpen_lookup eq_refl)).
Defined.

(** ** Position monitor: one polling cycle *)

Lemma falsy_false_not_zero x :
  Js.falsy x = false -> Js.falsy x || PrimFloat.eqb x 0%float = false.
Proof.
  unfold Js.falsy. intros H. apply orb_false_iff in H as [Hz Hn].
  rewrite Hz, Hn. reflexivity.
Qed.

Lemma surfaced_exit m mint reason sell finalFeed :
  surfaced
    (snd (let '(m', result) := exitPosition m mint reason sell finalFeed in
          (m', CheckExit reason result))) = Some reason.
Proof. destruct (exitPosition m mint reason sell finalFeed). reflexivity. Qed.

(** C4: in a polling cycle that fires an exit, the reason handed on is
    take-profit whenever the profit reaches the take-profit threshold,
    stop-loss only when it does not and the profit is at or below the
    stop-loss threshold, and max-hold-time only when neither holds; so with
    the take-profit and the hold-time conditions both true the reason is
    take-profit and never max-hold, and a cycle surfaces one reason. *)
Theorem checkPosition_reason_priority
    (cfg : Config.t) (m : Monitor) (mint : string) (p : Position)
    (feed : PriceFeed) (now : Z) (sell : Sell) (finalFeed : PriceFeed) :
  positions m !! mint = Some p ->
  active p = true ->
  Js.falsy (getCurrentPrice feed) = false ->
  let profitPercent := profitPercentOf (getCurrentPrice feed) (entryPrice p) in
  let timeHeld := now - entryTime p in
  let takeProfit := Js.ge profitPercent (Config.takeProfitPercent cfg) in
  let stopLoss := Js.le profitPercent (Config.stopLossPercent cfg) in
  let reported := surfaced (snd (checkPosition cfg m mint feed now sell finalFeed)) in
  (takeProfit = true -> reported = Some (TakeProfit profitPercent)) /\
  (takeProfit = false -> stopLoss = true ->
   reported = Some (StopLoss profitPercent)) /\
  (takeProfit = false -> stopLoss = false -> Config.maxHoldTime cfg <= timeHeld ->
   reported = Some (MaxHoldTime (timeHeld / 60000))) /\
  (takeProfit = false -> stopLoss = false -> timeHeld < Config.maxHoldTime cfg ->
   reported = None) /\
  (takeProfit = true -> Config.maxHoldTime cfg <= timeHeld ->
   forall minutes, reported <> Some (MaxHoldTime minutes)).
Proof.
  intros Hp Ha Hprice profitPercent timeHeld takeProfit stopLoss reported.
  assert (Hcheck :
    reported =
    if takeProfit || stopLoss || (Config.maxHoldTime cfg <=? timeHeld)
    then Some (if takeProfit then TakeProfit profitPercent
               else if stopLoss then StopLoss profitPercent
               else MaxHoldTime (timeHeld / 60000))
    else None).
  { subst reported. unfold checkPosition. rewrite Hp, Ha.
    cbv beta iota zeta delta [negb].
    rewrite (falsy_false_not_zero _ Hprice).
    fold profitPercent timeHeld. fold takeProfit stopLoss.
    destruct (takeProfit || stopLoss || (Config.maxHoldTime cfg <=? timeHeld));
      [apply surfaced_exit | reflexivity]. }
  rewrite Hcheck. repeat split.
  - intros ->. reflexivity.
  - intros -> ->. reflexivity.
  - intros -> -> Hhold. apply Z.leb_le in Hhold. rewrite Hhold. reflexivity.
  - intros -> -> Hhold. apply Z.leb_gt in Hhold. rewrite Hhold. reflexivity.
  - intros -> _ minutes. simpl. discriminate.
Qed.

(** C9: when [getCurrentPrice] yields no usable price, which is what it
    does when both price services fail or have no data, the polling cycle
    returns before any exit condition is evaluated: the monitor is left
    exactly as it was, an active position stays active, and no exit is
    requested. *)
Theorem checkPosition_without_price_changes_nothing
    (cfg : Config.t) (m : Monitor) (mint : string)
    (feed : PriceFeed) (now : Z) (sell : Sell) (finalFeed : PriceFeed) :
  noData feed = true \/ Js.falsy (getCurrentPrice feed) = true ->
  Js.falsy (getCurrentPrice feed) = true /\
  fst (checkPosition cfg m mint feed now sell finalFeed) = m /\
  surfaced (snd (checkPosition cfg m mint feed now sell finalFeed)) = None /\
  forall p, positions m !! mint = Some p -> active p = true ->
    checkPosition cfg m mint feed now sell finalFeed = (m, CheckNoPrice) /\
    positions (fst (checkPosition cfg m mint feed now sell finalFeed)) !! mint
      = Some p.
Proof.
  intros Hgap.
  assert (Hfalsy : Js.falsy (getCurrentPrice feed) = true).
  { destruct Hgap as [Hno | H]; [|exact H].
    unfold noData in Hno. unfold getCurrentPrice.
    destruct (primary feed) as [|[price|]]; destruct (fallback feed);
      try discriminate; reflexivity. }
  split; [exact Hfalsy|].
  unfold checkPosition. destruct (positions m !! mint) as [q|] eqn:Hq.
  - destruct (active q) eqn:Ha; simpl; rewrite ?Hfalsy; simpl.
    + split; [reflexivity|]. split; [reflexivity|].
      intros p Hp _. injection Hp as <-. split; [reflexivity | exact Hq].
    + split; [reflexivity|]. split; [reflexivity|].
      intros p Hp Hact. congruence.
  - split; [reflexivity|]. split; [reflexivity|]. intros p Hp. discriminate.
Qed.

(** With an entry price of 1.0 and thresholds of 20 and -10, a quote of
    0.75 is a loss of 25 percent and surfaces the stop-loss reason. *)
Lemma checkPosition_stop_loss_example :
  surfaced
    (snd (checkPosition Config.defaults Examples.oneOpen "MintA"
            (Examples.quote 0.75%float) 2000 (SellOk "sig1") Examples.noQuote))
  = Some (StopLoss (-25)%float).
Proof. vm_compute. reflexivity. Qed.

(** The take-profit and the hold-time condition hold together here (a
    gain of 25 percent after 399 seconds, against a limit of 300). *)
Lemma checkPosition_reason_priority_witness :
  surfaced
    (snd (checkPosition Config.defaults Examples.oneOpen "MintA"
            (Examples.quote 1.25%float) 400000 (SellOk "sig1") Examples.noQuote))
  = Some (TakeProfit 25%float).
Proof.
  pose proof (checkPosition_reason_priority Config.defaults Examples.oneOpen
                "MintA" Examples.openPosition (Examples.quote 1.25%float) 400000
                (SellOk "sig1") Examples.noQuote oneOpen_lookup eq_refl eq_refl)
    as H.
  cbv zeta in H. destruct H as [Htake _]. apply Htake. reflexivity.
Defined.

Lemma checkPosition_without_price_changes_nothing_witness :
  checkPosition Config.defaults Examples.oneOpen "MintA" Examples.noQuote
    400000 (SellOk "sig1") Examples.noQuote = (Examples.oneOpen, CheckNoPrice).
Proof.
  destruct (checkPosition_without_price_changes_nothing Config.defaults
              Examples.oneOpen "MintA" Examples.noQuote 400000 (SellOk "sig1")
              Examples.noQuote (or_introl eq_refl)) as [_ [_ [_ H]]].
  exact (proj1 (H Examples.openPosition oneOpen_lookup eq_refl)).
Defined.

(** ** Position monitor: sequences of operations *)

Lemma run_cons cfg m op ops : run cfg m (op :: ops) = run cfg (step cfg m op) ops.
Proof. reflexivity. Qed.

Lemma step_add_or_close cfg m op :
  (exists mint symbol price amount now,
     op = AddPosition mint symbol price amount now /\
     step cfg m op = addPosition m mint symbol price amount now) \/
  (op = StopAll /\ step cfg m op = stopAll m) \/
  step cfg m op = m \/
  (exists mint, closes m (step cfg m op) mint).
Proof.
  destruct op as [mint symbol price amount now | mint feed now sell finalFeed
                 | mint reason sell finalFeed | mint sell finalFeed | ]; simpl.
  - left. exists mint, symbol, price, amount, now. split; reflexivity.
  - right; right.
    destruct (checkPosition_cases cfg m mint feed now sell finalFeed) as [H|H];
      [left; exact H | right; exists mint; exact H].
  - right; right.
    destruct (exitPosition_cases m mint reason sell finalFeed) as [H|H];
      [left; exact H | right; exists mint; exact H].
  - right; right.
    destruct (manualExit_cases m mint sell finalFeed) as [H|H];
      [left; exact H | right; exists mint; exact H].
  - right; left. split; reflexivity.
Qed.

Lemma addPosition_lookup_same m mint symbol price amount now :
  activeIs (addPosition m mint symbol price amount now) mint true /\
  monitored (addPosition m mint symbol price amount now) mint.
Proof.
  unfold activeIs, monitored, addPosition, startMonitoring; simpl. split.
  - eexists. split; [apply lookup_insert_eq | reflexivity].
  - rewrite lookup_insert_eq. eexists; reflexivity.
Qed.

Lemma addPosition_lookup_other m mint symbol price amount now other :
  mint <> other ->
  positions (addPosition m mint symbol price amount now) !! other
    = positions m !! other /\
  monitoringIntervals (addPosition m mint symbol price amount now) !! other
    = monitoringIntervals m !! other.
Proof.
  intros Hne. unfold addPosition, startMonitoring; simpl.
  split; apply lookup_insert_ne; exact Hne.
Qed.

(** A record that is stored inactive is not touched by a step that does
    not add its mint again. *)
Lemma step_keeps_inactive cfg m op mint p :
  positions m !! mint = Some p -> active p = false ->
  addsMint mint op = false ->
  positions (step cfg m op) !! mint = Some p.
Proof.
  intros Hp Ha Hadd.
  destruct (step_add_or_close cfg m op)
    as [(k & symbol & price & amount & now & -> & ->) | [[-> ->] | [-> | [k Hk]]]].
  - simpl in Hadd. apply String.eqb_neq in Hadd.
    rewrite (proj1 (addPosition_lookup_other m k symbol price amount now mint Hadd)).
    exact Hp.
  - exact Hp.
  - exact Hp.
  - destruct (decide (k = mint)) as [->|Hne].
    + destruct Hk as [q [Hq [Hact _]]]. congruence.
    + rewrite (proj1 (closes_lookup_other _ _ k mint Hk Hne)). exact Hp.
Qed.

Lemma run_keeps_inactive cfg ops : forall m mint p,
  positions m !! mint = Some p -> active p = false ->
  forallb (fun op => negb (addsMint mint op)) ops = true ->
  positions (run cfg m ops) !! mint = Some p.
Proof.
  induction ops as [|op ops IH]; intros m mint p Hp Ha Hops; [exact Hp|].
  simpl in Hops. apply andb_true_iff in Hops as [Hop Hrest].
  apply negb_true_iff in Hop. rewrite run_cons.
  apply IH; [|exact Ha|exact Hrest].
  apply step_keeps_inactive; assumption.
Qed.

Lemma step_monitoredAreActive cfg m op :
  monitoredAreActive m -> monitoredAreActive (step cfg m op).
Proof.
  intros Hinv mint.
  destruct (step_add_or_close cfg m op)
    as [(k & symbol & price & amount & now & -> & ->) | [[-> ->] | [-> | [k Hk]]]].
  - destruct (decide (k = mint)) as [->|Hne].
    + intros _. apply addPosition_lookup_same.
    + destruct (addPosition_lookup_other m k symbol price amount now mint Hne)
        as [Hpos Hint].
      unfold monitored, activeIs. rewrite Hpos, Hint. apply Hinv.
  - unfold monitored, stopAll; simpl. rewrite lookup_empty.
    intros [x Hx]. discriminate.
  - apply Hinv.
  - destruct (decide (k = mint)) as [->|Hne].
    + intros Hmon. destruct (closes_lookup_same _ _ _ Hk) as [_ [_ Hno]].
      contradiction.
    + destruct (closes_lookup_other _ _ k mint Hk Hne) as [Hpos Hint].
      unfold monitored, activeIs. rewrite Hpos, Hint. apply Hinv.
Qed.

Lemma step_activeAreMonitored cfg m op :
  isStopAll op = false ->
  activeAreMonitored m -> activeAreMonitored (step cfg m op).
Proof.
  intros Hstop Hinv mint.
  destruct (step_add_or_close cfg m op)
    as [(k & symbol & price & amount & now & -> & ->) | [[-> ->] | [-> | [k Hk]]]].
  - destruct (decide (k = mint)) as [->|Hne].
    + intros _. apply addPosition_lookup_same.
    + destruct (addPosition_lookup_other m k symbol price amount now mint Hne)
        as [Hpos Hint].
      unfold monitored, activeIs. rewrite Hpos, Hint. apply Hinv.
  - discriminate.
  - apply Hinv.
  - destruct (decide (k = mint)) as [->|Hne].
    + intros Hact. destruct (closes_lookup_same _ _ _ Hk) as [_ [Hno _]].
      contradiction.
    + destruct (closes_lookup_other _ _ k mint Hk Hne) as [Hpos Hint].
      unfold monitored, activeIs. rewrite Hpos, Hint. apply Hinv.
Qed.

Lemma run_monitoredAreActive cfg ops : forall m,
  monitoredAreActive m -> monitoredAreActive (run cfg m ops).
Proof.
  induction ops as [|op ops IH]; intros m Hinv; [exact Hinv|].
  rewrite run_cons. apply IH, step_monitoredAreActive, Hinv.
Qed.

Lemma run_activeAreMonitored cfg ops : forall m,
  forallb (fun op => negb (isStopAll op)) ops = true ->
  activeAreMonitored m -> activeAreMonitored (run cfg m ops).
Proof.
  induction ops as [|op ops IH]; intros m Hops Hinv; [exact Hinv|].
  simpl in Hops. apply andb_true_iff in Hops as [Hop Hrest].
  apply negb_true_iff in Hop. rewrite run_cons.
  apply IH; [exact Hrest|]. apply step_activeAreMonitored; assumption.
Qed.

Lemma empty_monitoredAreActive : monitoredAreActive PositionMonitor.empty.
Proof.
  intros mint [x Hx]. simpl in Hx. rewrite lookup_empty in Hx. discriminate.
Qed.

Lemma empty_activeAreMonitored : activeAreMonitored PositionMonitor.empty.
Proof.
  intros mint [p [Hp _]]. simpl in Hp. rewrite lookup_empty in Hp. discriminate.
Qed.

Lemma oneClosed_lookup :
  positions Examples.oneClosed !! "MintA" = Some (deactivate Examples.openPosition).
Proof.
  unfold Examples.oneClosed, run, Examples.addA, Examples.sellA. simpl.
  fold Examples.oneOpen.
  destruct (exitPosition_sold_lookup
              Examples.oneOpen "MintA" Examples.openPosition ManualExit "sig1"
              Examples.noQuote oneOpen_lookup eq_refl) as [H _].
  unfold manualExit. rewrite oneOpen_lookup. simpl.
  destruct (exitPosition Examples.oneOpen "MintA" ManualExit (SellOk "sig1")
              Examples.noQuote) as [m' res]. exact H.
Qed.

(** C5, as the specification states it, fails: once the position of a
    mint was sold and is stored with [active = false], a later
    [addPosition] for the same mint stores a record with [active = true]
    under it again. *)
Lemma addPosition_reactivates_closed_mint :
  activeIs Examples.oneClosed "MintA" false /\
  activeIs (run Config.defaults Examples.oneClosed [Examples.addA]) "MintA" true.
Proof.
  split.
  - exists (deactivate Examples.openPosition).
    split; [exact oneClosed_lookup | reflexivity].
  - apply addPosition_lookup_same.
Qed.

(** C5 (amended): once the record stored under a mint has
    [active = false], no later [checkPosition], [exitPosition],
    [manualExit] or [stopAll], and no [addPosition] for another mint, makes
    it active again: the stored record stays the same. Only an
    [addPosition] for that mint changes it, by storing a fresh record with
    [active = true]. *)
Theorem inactive_until_added_again
    (cfg : Config.t) (m : Monitor) (ops : list Op) (mint : string) (p : Position) :
  positions m !! mint = Some p ->
  active p = false ->
  forallb (fun op => negb (addsMint mint op)) ops = true ->
  positions (run cfg m ops) !! mint = Some p /\
  activeIs (run cfg m ops) mint false /\
  ~ activeIs (run cfg m ops) mint true /\
  forall symbol price amount now,
    activeIs (step cfg (run cfg m ops) (AddPosition mint symbol price amount now))
      mint true.
Proof.
  intros Hp Ha Hops.
  pose proof (run_keeps_inactive cfg ops m mint p Hp Ha Hops) as Hl.
  split; [exact Hl|]. split; [exists p; split; assumption|]. split.
  - intros [q [Hq Hact]]. congruence.
  - intros symbol price amount now. simpl. apply addPosition_lookup_same.
Qed.

Lemma inactive_until_added_again_witness :
  positions (run Config.defaults Examples.oneClosed Examples.laterOps) !! "MintA"
    = Some (deactivate Examples.openPosition).
Proof.
  exact (proj1 (inactive_until_added_again Config.defaults Examples.oneClosed
                  Examples.laterOps "MintA" (deactivate Examples.openPosition)
                  oneClosed_lookup eq_refl eq_refl)).
Defined.

(** C6, as the specification states it, fails: after [addPosition] and
    then [stopAll], the position is stored with [active = true] but the
    interval map has no entry for its mint. *)
Lemma stopAll_leaves_active_unmonitored :
  activeIs (run Config.defaults PositionMonitor.empty [Examples.addA; StopAll])
    "MintA" true /\
  ~ monitored (run Config.defaults PositionMonitor.empty [Examples.addA; StopAll])
      "MintA".
Proof.
  split.
  - exists Examples.openPosition. split; [exact oneOpen_lookup | reflexivity].
  - intros [x Hx]. simpl in Hx. rewrite lookup_empty in Hx. discriminate.
Qed.

(** The amended statement of C6 speaks of calls that overlap at their
    [await]s; it is proved in the last part, after the model of such
    calls. *)

(** ** Authorization *)

Lemma numberToString_decimal :
  Js.numberToString 7123456789 = "7123456789"%string /\
  Js.numberToString 0 = "0"%string /\
  Js.numberToString (-42) = "-42"%string.
Proof. repeat split; reflexivity. Qed.

Lemma parseAuthorizedUsers_examples :
  Config.parseAuthorizedUsers None = [] /\
  Config.parseAuthorizedUsers (Some EmptyString) = [] /\
  Config.parseAuthorizedUsers (Some "1001,,2002"%string)
    = ["1001"%string; "2002"%string].
Proof. repeat split; reflexivity. Qed.

(** C10: with an empty list of authorized users, [isAuthorized] accepts
    every user id; with a non-empty list it accepts exactly the ids whose
    decimal rendering is an element of the list. *)
Theorem isAuthorized_open_or_listed (cfg : Config.t) (userId : Z) :
  (Config.authorizedUsers cfg = [] -> isAuthorized cfg userId = true) /\
  (Config.authorizedUsers cfg <> [] ->
   (isAuthorized cfg userId = true <->
    In (Js.numberToString userId) (Config.authorizedUsers cfg))).
Proof.
  unfold isAuthorized. split.
  - intros ->. reflexivity.
  - intros Hne. destruct (Config.authorizedUsers cfg) as [|u users] eqn:Hu;
      [congruence|].
    simpl length. change (S (length users) =? 0)%nat with false. cbv iota.
    apply arrayIncludes_In.
Qed.

Lemma isAuthorized_open_or_listed_witness :
  isAuthorized Config.defaults 2002 = true /\
  isAuthorized Examples.withUsers 2002 = true /\
  isAuthorized Examples.withUsers 3003 = false.
Proof.
  split; [|split].
  - exact (proj1 (isAuthorized_open_or_listed Config.defaults 2002) eq_refl).
  - apply (proj2 (isAuthorized_open_or_listed Examples.withUsers 2002)).
    + discriminate.
    + vm_compute. right; left; reflexivity.
  - destruct (isAuthorized Examples.withUsers 3003) eqn:H; [|reflexivity].
    apply (proj2 (isAuthorized_open_or_listed Examples.withUsers 3003)) in H.
    + vm_compute in H. destruct H as [H|[H|[]]]; discriminate.
    + discriminate.
Defined.

(** * Further properties *)

Import Environment Surface Derived.

(** ** Splitting and joining *)

Lemma split_not_nil sep s : Js.split sep s <> [].
Proof.
  destruct s as [|c r]; simpl; [discriminate|].
  destruct (Ascii.eqb c sep); [discriminate|].
  destruct (Js.split sep r); discriminate.
Qed.

Lemma join_cons sep s rest :
  rest <> [] -> join sep (s :: rest) = (s ++ String sep (join sep rest))%string.
Proof. destruct rest; [congruence | reflexivity]. Qed.

Lemma join_cons_head sep c h t :
  join sep (String c h :: t) = String c (join sep (h :: t)).
Proof. destruct t; reflexivity. Qed.

Lemma lacks_app c a b :
  lacks c (a ++ b) = lacks c a && lacks c b.
Proof.
  induction a as [|x a IH]; simpl; [reflexivity|].
  rewrite IH. apply andb_assoc.
Qed.

Lemma split_lacks_id sep s :
  lacks sep s = true -> Js.split sep s = [s].
Proof.
  induction s as [|c r IH]; simpl; [reflexivity|].
  intros H. apply andb_true_iff in H as [Hc Hr].
  apply negb_true_iff in Hc. rewrite Hc, (IH Hr). reflexivity.
Qed.

Lemma split_app_sep sep a b :
  lacks sep a = true ->
  Js.split sep (a ++ String sep b) = a :: Js.split sep b.
Proof.
  induction a as [|c r IH]; simpl.
  - intros _. rewrite Ascii.eqb_refl. reflexivity.
  - intros H. apply andb_true_iff in H as [Hc Hr].
    apply negb_true_iff in Hc. rewrite Hc, (IH Hr). reflexivity.
Qed.

(** Joining the pieces of [split] with the separator gives the text
    back, no piece contains the separator, and there is always at least
    one piece. *)
Theorem split_join_roundtrip (sep : ascii) (s : string) :
  join sep (Js.split sep s) = s /\
  Forall (fun piece => lacks sep piece = true) (Js.split sep s) /\
  (1 <= length (Js.split sep s))%nat.
Proof.
  split; [|split].
  - induction s as [|c r IH]; simpl; [reflexivity|].
    destruct (Ascii.eqb c sep) eqn:Hc.
    + apply Ascii.eqb_eq in Hc as ->.
      rewrite join_cons by apply split_not_nil. rewrite IH. reflexivity.
    + destruct (Js.split sep r) as [|h t] eqn:Hs.
      * exfalso. exact (split_not_nil sep r Hs).
      * rewrite join_cons_head, IH. reflexivity.
  - induction s as [|c r IH]; simpl.
    + constructor; [reflexivity | constructor].
    + destruct (Ascii.eqb c sep) eqn:Hc.
      * constructor; [reflexivity | exact IH].
      * destruct (Js.split sep r) as [|h t]; [constructor; [|constructor]|].
        -- simpl. rewrite Hc. reflexivity.
        -- inversion IH as [|? ? Hh Ht]; subst. constructor; [|exact Ht].
           simpl. rewrite Hc, Hh. reflexivity.
  - pose proof (split_not_nil sep s). destruct (Js.split sep s); simpl; [congruence | lia].
Qed.

(** Splitting a joined list of pieces gives the pieces back, when
    there is at least one piece and no piece contains the separator. *)
Theorem join_split_roundtrip (sep : ascii) (pieces : list string) :
  pieces <> [] ->
  Forall (fun piece => lacks sep piece = true) pieces ->
  Js.split sep (join sep pieces) = pieces.
Proof.
  induction pieces as [|p rest IH]; [congruence|].
  intros _ Hall. inversion Hall as [|? ? Hp Hrest]; subst.
  destruct rest as [|q rest'].
  - simpl. apply split_lacks_id, Hp.
  - rewrite join_cons by discriminate.
    rewrite (split_app_sep sep p _ Hp), IH; [reflexivity | discriminate | exact Hrest].
Qed.

Lemma join_split_roundtrip_witness :
  Js.split ":" (join ":" ["buy"; "MintA"; "0.5"]) = ["buy"; "MintA"; "0.5"]%string.
Proof.
  apply (join_split_roundtrip ":" ["buy"; "MintA"; "0.5"]%string).
  - discriminate.
  - repeat constructor.
Defined.

(** ** Authorized users *)

Lemma truthyString_nonempty s : Js.truthyString s = true <-> s <> EmptyString.
Proof. destruct s; simpl; split; congruence. Qed.

Lemma parseAuthorizedUsers_filter env :
  Config.parseAuthorizedUsers env
  = List.filter Js.truthyString (Js.split "," (orElse env EmptyString)).
Proof. unfold Config.parseAuthorizedUsers, orElse. destruct env; reflexivity. Qed.

Lemma orElse_self s : orElse (Some s) EmptyString = s.
Proof. destruct s; reflexivity. Qed.

Lemma parseAuthorizedUsers_join pieces :
  Forall (fun piece => lacks "," piece = true) pieces ->
  Config.parseAuthorizedUsers (Some (join "," pieces))
  = List.filter Js.truthyString pieces.
Proof.
  intros Hall. rewrite parseAuthorizedUsers_filter, orElse_self.
  destruct pieces as [|piece rest]; [reflexivity|].
  rewrite join_split_roundtrip; [reflexivity | discriminate | exact Hall].
Qed.

(** X1: the parsed list of authorized users is the list of the non-empty
    pieces between the commas of the setting, in their order: a setting
    made by joining pieces with commas is parsed to those pieces with the
    empty ones left out, and every setting is such a join. So a text is in
    the list exactly when it is a non-empty piece of the setting, no entry
    is empty or holds a comma, and an unset or empty setting gives the
    empty list. Nothing is trimmed. *)
Theorem parseAuthorizedUsers_pieces
    (env : option string) (pieces : list string) (u : string) :
  (Forall (fun piece => lacks "," piece = true) pieces ->
   Config.parseAuthorizedUsers (Some (join "," pieces))
   = List.filter Js.truthyString pieces) /\
  (exists parts,
     orElse env EmptyString = join "," parts /\
     Forall (fun piece => lacks "," piece = true) parts /\
     Config.parseAuthorizedUsers env = List.filter Js.truthyString parts) /\
  (In u (Config.parseAuthorizedUsers env) <->
   u <> EmptyString /\ In u (Js.split "," (orElse env EmptyString))) /\
  Forall (fun user => user <> EmptyString /\ lacks "," user = true)
         (Config.parseAuthorizedUsers env) /\
  (orElse env EmptyString = EmptyString -> Config.parseAuthorizedUsers env = []).
Proof.
  split; [exact (parseAuthorizedUsers_join pieces)|].
  destruct (split_join_roundtrip "," (orElse env EmptyString)) as [Hjoin [Hl _]].
  split.
  { exists (Js.split "," (orElse env EmptyString)).
    split; [symmetry; exact Hjoin|]. split; [exact Hl|].
    apply parseAuthorizedUsers_filter. }
  rewrite parseAuthorizedUsers_filter. split; [|split].
  - rewrite filter_In, truthyString_nonempty. tauto.
  - apply List.Forall_forall. intros x Hx. apply filter_In in Hx as [Hin Ht].
    split; [apply truthyString_nonempty, Ht|].
    rewrite List.Forall_forall in Hl. apply Hl, Hin.
  - intros ->. reflexivity.
Qed.

Lemma parseAuthorizedUsers_pieces_witness :
  Config.parseAuthorizedUsers (Some "1001,,2002, 3003")
  = ["1001"; "2002"; " 3003"]%string.
Proof.
  exact (proj1 (parseAuthorizedUsers_pieces None
                  ["1001"; ""; "2002"; " 3003"]%string EmptyString)
           ltac:(repeat constructor)).
Defined.

Lemma isAuthorized_cases cfg userId :
  (Config.authorizedUsers cfg = [] -> isAuthorized cfg userId = true) /\
  (Config.authorizedUsers cfg <> [] ->
   (isAuthorized cfg userId = true <->
    In (Js.numberToString userId) (Config.authorizedUsers cfg))).
Proof.
  unfold isAuthorized. destruct (Config.authorizedUsers cfg) as [|u users].
  - split; [reflexivity | congruence].
  - split; [discriminate|]. intros _. apply arrayIncludes_In.
Qed.

(** X2: when the configured list renders the ids of a non-empty list of
    users, [isAuthorized] accepts exactly those users: two different ids
    never share a rendering. *)
Theorem isAuthorized_exactly_listed (cfg : Config.t) (ids : list Z) (userId : Z) :
  ids <> [] ->
  Config.authorizedUsers cfg = List.map Js.numberToString ids ->
  (isAuthorized cfg userId = true <-> In userId ids).
Proof.
  intros Hne Hcfg.
  destruct (isAuthorized_cases cfg userId) as [_ Hlisted].
  rewrite Hlisted.
  - rewrite Hcfg, in_map_iff. split.
    + intros [x [Hx Hin]]. unfold Js.numberToString in Hx.
      apply pretty_Z_inj in Hx. subst. exact Hin.
    + intros Hin. exists userId. split; [reflexivity | exact Hin].
  - rewrite Hcfg. destruct ids; [congruence | discriminate].
Qed.

Lemma isAuthorized_exactly_listed_witness :
  isAuthorized Examples.withUsers 2002 = true <-> In 2002 [1001; 2002].
Proof.
  apply (isAuthorized_exactly_listed Examples.withUsers [1001; 2002] 2002).
  - discriminate.
  - reflexivity.
Defined.

(** ** Reading the environment *)

Lemma orElse_truthy a b :
  Js.truthyString b = true -> Js.truthyString (orElse a b) = true.
Proof.
  intros Hb. unfold orElse. destruct a as [s|]; [|exact Hb].
  destruct (Js.truthyString s) eqn:Hs; [exact Hs | exact Hb].
Qed.

Lemma orElse_empty a :
  Js.truthyString (orElse a EmptyString) = false <->
  a = None \/ a = Some EmptyString.
Proof.
  unfold orElse. destruct a as [[|c r]|]; simpl; split; intros H;
    try discriminate; try tauto;
    destruct H as [H|H]; discriminate.
Qed.

Lemma rpcUrl_truthy env : Js.truthyString (rpcUrl env) = true.
Proof. unfold rpcUrl. apply orElse_truthy, orElse_truthy. reflexivity. Qed.

(** X3: [validateConfig] throws exactly when the wallet key or the bot
    token is unset or empty, and the names it lists are those of the two
    that are; the RPC address always has a value, so its name is never
    listed. When it returns, it has warned exactly when no authorized user
    is configured. *)
Theorem validateConfig_missing (env : Env) :
  let noWallet := negb (Js.truthyString (walletPrivateKey env)) in
  let noToken := negb (Js.truthyString (telegramBotToken env)) in
  validateConfig env =
    (if noWallet || noToken
     then MissingVariables
            ((if noWallet then ["WALLET_PRIVATE_KEY"%string] else []) ++
             (if noToken then ["TELEGRAM_BOT_TOKEN"%string] else []))
     else ConfigOk (match authorizedUsers env with [] => true | _ => false end)) /\
  (noWallet = true <->
   env "WALLET_PRIVATE_KEY"%string = None \/
   env "WALLET_PRIVATE_KEY"%string = Some EmptyString) /\
  (forall names, validateConfig env = MissingVariables names ->
     ~ In "HELIUS_RPC_URL or ALCHEMY_RPC_URL"%string names).
Proof.
  intros noWallet noToken.
  assert (Hv : validateConfig env =
    (if noWallet || noToken
     then MissingVariables
            ((if noWallet then ["WALLET_PRIVATE_KEY"%string] else []) ++
             (if noToken then ["TELEGRAM_BOT_TOKEN"%string] else []))
     else ConfigOk (match authorizedUsers env with [] => true | _ => false end))).
  { unfold validateConfig, required. simpl List.filter.
    rewrite (rpcUrl_truthy env). simpl negb. cbv iota.
    fold noWallet noToken.
    destruct noWallet, noToken; simpl; try reflexivity.
    destruct (authorizedUsers env); reflexivity. }
  split; [exact Hv|]. split.
  - subst noWallet. rewrite negb_true_iff. apply orElse_empty.
  - intros names Hn. rewrite Hv in Hn.
    destruct noWallet, noToken; simpl in Hn; try discriminate;
      injection Hn as <-; simpl; intros H;
      repeat (destruct H as [H|H]; [discriminate|]); exact H.
Qed.

Lemma validateConfig_missing_witness :
  validateConfig Cases.onlyToken = MissingVariables ["WALLET_PRIVATE_KEY"%string].
Proof.
  exact (proj1 (validateConfig_missing Cases.onlyToken)).
Defined.

Lemma validateConfig_examples :
  validateConfig Cases.onlyToken = MissingVariables ["WALLET_PRIVATE_KEY"%string] /\
  validateConfig Cases.fullEnv = ConfigOk false /\
  authorizedUsers Cases.fullEnv = ["1001"; "2002"]%string.
Proof. repeat split; reflexivity. Qed.

(** ** Comparisons of binary64 numbers *)

Lemma SFcompare_swap x y :
  SFcompare y x = option_map CompOpp (SFcompare x y).
Proof.
  destruct x as [sx|sx| |sx mx ex], y as [sy|sy| |sy my ey]; simpl;
    try reflexivity;
    try (destruct sx; reflexivity);
    try (destruct sy; reflexivity);
    try (destruct sx, sy; reflexivity).
  destruct sx, sy; try reflexivity; f_equal;
    rewrite (Z.compare_antisym ex ey);
    destruct (ex ?= ey)%Z; simpl; try reflexivity;
    rewrite (Pos.compare_cont_antisym mx my Eq); reflexivity.
Qed.

(** [a >= b] excludes [a < b]. *)
Lemma ge_not_lt a b : Js.ge a b = true -> Js.lt a b = false.
Proof.
  unfold Js.ge, Js.lt. rewrite FloatAxioms.leb_spec, FloatAxioms.ltb_spec.
  unfold SFleb, SFltb. rewrite (SFcompare_swap (Prim2SF b) (Prim2SF a)).
  destruct (SFcompare (Prim2SF b) (Prim2SF a)) as [[| |]|]; simpl; congruence.
Qed.

(** [a < b] excludes [a >= b]. *)
Lemma lt_not_ge a b : Js.lt a b = true -> Js.ge a b = false.
Proof.
  intros H. destruct (Js.ge a b) eqn:Hge; [|reflexivity].
  rewrite (ge_not_lt a b Hge) in H. discriminate.
Qed.

(** ** Token validator: validity and reasons *)














(** ** AI analysis: the two paths *)

Lemma string_app_assoc (a b c : string) :
  ((a ++ b) ++ c = a ++ (b ++ c))%string.
Proof.
  induction a as [|x a IH]; [reflexivity|].
  exact (f_equal (String x) IH).
Qed.

Lemma includes_strong_buy_buy text :
  Js.includes text "strong buy" = true -> Js.includes text "buy" = true.
Proof.
  rewrite !includes_occurs. intros [l [r ->]].
  exists (l ++ "strong ")%string, r.
  exact (eq_sym (string_app_assoc l "strong " ("buy" ++ r))).
Qed.

Lemma lowerAscii_idem c : Js.lowerAscii (Js.lowerAscii c) = Js.lowerAscii c.
Proof. destruct c as [[] [] [] [] [] [] [] []]; reflexivity. Qed.

Lemma toLowerCase_idem s : Js.toLowerCase (Js.toLowerCase s) = Js.toLowerCase s.
Proof.
  induction s as [|c r IH]; simpl; [reflexivity|].
  rewrite lowerAscii_idem, IH. reflexivity.
Qed.

(** X6: [extractRecommendation] looks at the text only through its
    lower-cased form. It answers BUY only when the text says "buy", and
    then only when it says "strong buy" or the risk score is at most 5;
    above a score of 3, a text that says "avoid" and not "strong buy" is
    answered with AVOID even if it also says "buy"; a text with neither
    word is answered with HOLD below a score of 7. *)
Theorem extractRecommendation_keywords (analysis : string) (validation : TokenValidation) :
  let text := Js.toLowerCase analysis in
  extractRecommendation text validation = extractRecommendation analysis validation /\
  (extractRecommendation analysis validation = BUY ->
   Js.includes text "buy" = true /\
   (Js.includes text "strong buy" = true \/ riskScore validation <= 5)) /\
  (Js.includes text "avoid" = true -> Js.includes text "strong buy" = false ->
   3 < riskScore validation ->
   extractRecommendation analysis validation = AVOID) /\
  (Js.includes text "buy" = false -> Js.includes text "avoid" = false ->
   riskScore validation < 7 ->
   extractRecommendation analysis validation = HOLD).
Proof.
  intros text. split; [|split; [|split]].
  - unfold extractRecommendation. subst text. rewrite toLowerCase_idem. reflexivity.
  - unfold extractRecommendation. fold text.
    destruct (Js.includes text "strong buy") eqn:Hs.
    + intros _. split; [apply includes_strong_buy_buy, Hs | left; reflexivity].
    + destruct (Js.includes text "buy") eqn:Hb; simpl.
      * destruct (riskScore validation <=? 3) eqn:H3.
        -- intros _. apply Z.leb_le in H3. split; [reflexivity | right; lia].
        -- destruct (Js.includes text "avoid" || (7 <=? riskScore validation));
             [discriminate|].
           destruct (riskScore validation <=? 5) eqn:H5; [|discriminate].
           intros _. apply Z.leb_le in H5. split; [reflexivity | right; exact H5].
      * destruct (Js.includes text "avoid" || (7 <=? riskScore validation));
          discriminate.
  - intros Ha Hs Hr. unfold extractRecommendation. fold text. rewrite Ha, Hs.
    assert (H3 : (riskScore validation <=? 3) = false) by (apply Z.leb_gt; lia).
    rewrite H3, andb_false_r. reflexivity.
  - intros Hb Ha Hr. unfold extractRecommendation. fold text.
    destruct (Js.includes text "strong buy") eqn:Hs.
    + apply includes_strong_buy_buy in Hs. congruence.
    + rewrite Hb, Ha.
      assert (H7 : (7 <=? riskScore validation) = false) by (apply Z.leb_gt; lia).
      rewrite H7. reflexivity.
Qed.

Lemma extractRecommendation_keywords_witness :
  extractRecommendation "I would avoid it, do not buy" Examples.cleanValidation = BUY /\
  extractRecommendation "Nothing to say" Examples.cleanValidation = HOLD.
Proof.
  split.
  - reflexivity.
  - apply (extractRecommendation_keywords "Nothing to say" Examples.cleanValidation);
      [reflexivity | reflexivity | simpl; lia].
Defined.

(** X7: when the inference call throws, [analyzeToken] answers from the
    risk score alone: AVOID from 7 up, BUY up to 3, HOLD in between, with
    the validator's reasons as key points. After a failed validation this
    is AVOID, and so is the answer to every model text that does not say
    "strong buy". *)
Theorem analyzeToken_fallback_tiers (cfg : Config.t) (validation : TokenValidation) :
  let answer := analyzeToken cfg validation InferenceThrows in
  (recommendation answer = AVOID <-> 7 <= riskScore validation) /\
  (recommendation answer = BUY <-> riskScore validation <= 3) /\
  (recommendation answer = HOLD <-> 4 <= riskScore validation <= 6) /\
  keyPoints answer = Reasons (reasons validation) /\
  (forall up, upstreamFailed up = true ->
     recommendation (analyzeToken cfg (validateToken cfg up) InferenceThrows) = AVOID /\
     forall text,
       Js.includes (Js.toLowerCase text) "strong buy" = false ->
       recommendation
         (analyzeToken cfg (validateToken cfg up) (Completion (Some text))) = AVOID).
Proof.
  cbv zeta.
  assert (Htiers :
    recommendation (analyzeToken cfg validation InferenceThrows) =
    if 7 <=? riskScore validation then AVOID
    else if riskScore validation <=? 3 then BUY else HOLD).
  { unfold analyzeToken, fallbackAnalysis.
    destruct (7 <=? riskScore validation); [reflexivity|].
    destruct (riskScore validation <=? 3); reflexivity. }
  rewrite Htiers.
  split; [|split; [|split; [|split]]].
  - destruct (Z.leb_spec 7 (riskScore validation));
      [|destruct (Z.leb_spec (riskScore validation) 3)];
      split; try discriminate; try lia; reflexivity.
  - destruct (Z.leb_spec 7 (riskScore validation));
      [|destruct (Z.leb_spec (riskScore validation) 3)];
      split; try discriminate; try lia; reflexivity.
  - destruct (Z.leb_spec 7 (riskScore validation));
      [|destruct (Z.leb_spec (riskScore validation) 3)];
      split; try discriminate; try lia; reflexivity.
  - unfold analyzeToken, fallbackAnalysis.
    destruct (7 <=? riskScore validation); [reflexivity|].
    destruct (riskScore validation <=? 3); reflexivity.
  - intros up Hf. rewrite (validateToken_fail_closed cfg up Hf).
    split; [reflexivity|].
    intros text Hs. simpl.
    destruct text as [|c r]; simpl Js.truthyString; cbv iota;
      apply extractRecommendation_high_risk; simpl; try lia; exact Hs.
Qed.

Lemma analyzeToken_fallback_tiers_witness :
  recommendation
    (analyzeToken Config.defaults (validateToken Config.defaults Cases.rpcDown)
       InferenceThrows) = AVOID.
Proof.
  destruct (analyzeToken_fallback_tiers Config.defaults Examples.cleanValidation)
    as (_ & _ & _ & _ & H).
  exact (proj1 (H Cases.rpcDown eq_refl)).
Defined.

(** X8: the confidence [analyzeToken] reports is the same on the model
    path and on the fallback path, whatever the model wrote. Between two
    validations that differ only in risk score, the riskier one never gets
    the higher confidence, and each point of risk costs at most 10. *)
Theorem confidence_follows_risk
    (cfg : Config.t) (v1 v2 : TokenValidation) (reply : Inference) :
  confidence (analyzeToken cfg v1 reply) = calculateConfidence cfg v1 /\
  (liquidity v1 = liquidity v2 -> marketCap v1 = marketCap v2 ->
   canMint v1 = canMint v2 -> canFreeze v1 = canFreeze v2 ->
   riskScore v1 <= riskScore v2 ->
   calculateConfidence cfg v2 <= calculateConfidence cfg v1 /\
   calculateConfidence cfg v1 - calculateConfidence cfg v2
     <= 10 * (riskScore v2 - riskScore v1)).
Proof.
  split.
  - destruct reply; [|reflexivity].
    unfold analyzeToken, fallbackAnalysis.
    destruct (7 <=? riskScore v1); [reflexivity|].
    destruct (riskScore v1 <=? 3); reflexivity.
  - intros Hl Hm Hcm Hcf Hr. rewrite !calculateConfidence_unfold.
    rewrite Hl, Hm, Hcm, Hcf. lia.
Qed.

Lemma confidence_follows_risk_witness :
  calculateConfidence Config.defaults failClosed
  <= calculateConfidence Config.defaults Cases.mediumRisk.
Proof.
  destruct (confidence_follows_risk Config.defaults Cases.mediumRisk failClosed
              InferenceThrows) as [_ H].
  apply H; try reflexivity. simpl. lia.
Defined.

(** ** Key points *)

Section StripFacts.

Variable one : ascii -> bool.
Variable two : ascii -> ascii -> bool.
Variable three : ascii -> ascii -> ascii -> bool.

Lemma strip_unfold l :
  strip one two three l =
  match spaceWidth one two three l with
  | O => l
  | w => strip one two three (drop w l)
  end.
Proof.
  destruct l as [|a [|b [|c r]]]; simpl; try reflexivity;
    destruct (one a); try reflexivity;
    destruct (two a b); try reflexivity;
    destruct (three a b c); reflexivity.
Qed.

Lemma spaceWidth_drop l :
  spaceWidth one two three l <> 0%nat ->
  (length (drop (spaceWidth one two three l) l) < length l)%nat.
Proof.
  intros Hw. rewrite length_drop.
  destruct l as [|a r]; [simpl in Hw; congruence|]. simpl length. lia.
Qed.

(** Induction along the characters [strip] drops. *)
Lemma strip_rect (P : list ascii -> Prop) :
  (forall l, spaceWidth one two three l = 0%nat -> P l) ->
  (forall l, spaceWidth one two three l <> 0%nat ->
             P (drop (spaceWidth one two three l) l) -> P l) ->
  forall l, P l.
Proof.
  intros Hstop Hdrop l.
  remember (length l) as n eqn:Hn. revert l Hn.
  induction n as [n IH] using lt_wf_ind. intros l Hn.
  destruct (Nat.eq_dec (spaceWidth one two three l) 0%nat) as [H0|Hpos].
  - apply Hstop, H0.
  - apply Hdrop; [exact Hpos|].
    apply (IH (length (drop (spaceWidth one two three l) l))); [|reflexivity].
    subst n. apply spaceWidth_drop, Hpos.
Qed.

Lemma strip_fixed l :
  spaceWidth one two three l = 0%nat -> strip one two three l = l.
Proof. intros H. rewrite strip_unfold, H. reflexivity. Qed.

Lemma strip_step l :
  spaceWidth one two three l <> 0%nat ->
  strip one two three l
  = strip one two three (drop (spaceWidth one two three l) l).
Proof.
  intros H. rewrite strip_unfold at 1.
  destruct (spaceWidth one two three l); [congruence | reflexivity].
Qed.

Lemma strip_width l :
  spaceWidth one two three (strip one two three l) = 0%nat.
Proof.
  induction l as [l H0 | l Hpos IH] using strip_rect.
  - rewrite (strip_fixed l H0). exact H0.
  - rewrite (strip_step l Hpos). exact IH.
Qed.

Lemma strip_suffix l : exists dropped, l = dropped ++ strip one two three l.
Proof.
  induction l as [l H0 | l Hpos IH] using strip_rect.
  - exists []. rewrite (strip_fixed l H0). reflexivity.
  - destruct IH as [dropped Hd]. rewrite (strip_step l Hpos).
    exists (take (spaceWidth one two three l) l ++ dropped).
    rewrite <- app_assoc, <- Hd. symmetry. apply take_drop.
Qed.

Lemma spaceWidth_prefix u x :
  spaceWidth one two three (u ++ x) = 0%nat -> spaceWidth one two three u = 0%nat.
Proof.
  destruct u as [|a [|b [|c u]]]; simpl; intros H; try reflexivity.
  - destruct (one a); [discriminate | reflexivity].
  - destruct (one a); [discriminate|].
    destruct (two a b); [destruct x; discriminate | reflexivity].
  - destruct (one a); [discriminate|]. destruct (two a b); [discriminate|].
    destruct (three a b c); [discriminate | reflexivity].
Qed.

End StripFacts.

Lemma trim_bytes s :
  trim s =
  string_of_list_ascii
    (rev (strip isSpace (fun a b => isSpace2 b a) (fun a b c => isSpace3 c b a)
            (rev (strip isSpace isSpace2 isSpace3 (list_ascii_of_string s))))).
Proof.
  unfold trim, trimEnd, trimStart.
  rewrite list_ascii_of_string_of_list_ascii. reflexivity.
Qed.

(** Trimming removes everything it can: trimming again changes nothing. *)
Lemma trim_idem s : trim (trim s) = trim s.
Proof.
  rewrite (trim_bytes (trim s)), (trim_bytes s).
  rewrite list_ascii_of_string_of_list_ascii.
  set (front := strip isSpace isSpace2 isSpace3 (list_ascii_of_string s)).
  set (back := strip isSpace (fun a b => isSpace2 b a)
                 (fun a b c => isSpace3 c b a) (rev front)).
  assert (Hfront : strip isSpace isSpace2 isSpace3 (rev back) = rev back).
  { apply strip_fixed.
    destruct (strip_suffix isSpace (fun a b => isSpace2 b a)
                (fun a b c => isSpace3 c b a) (rev front)) as [dropped Hd].
    fold back in Hd.
    apply (spaceWidth_prefix _ _ _ (rev back) (rev dropped)).
    rewrite <- rev_app_distr, <- Hd, rev_involutive.
    apply strip_width. }
  rewrite Hfront, rev_involutive.
  rewrite (strip_fixed _ _ _ back); [reflexivity|]. apply strip_width.
Qed.

Lemma lacks_bytes x s :
  lacks x s = true <->
  Forall (fun a => Ascii.eqb a x = false) (list_ascii_of_string s).
Proof.
  induction s as [|c r IH]; simpl.
  - split; [constructor | reflexivity].
  - rewrite andb_true_iff, negb_true_iff, IH, Forall_cons. reflexivity.
Qed.

Lemma trim_lacks x s : lacks x s = true -> lacks x (trim s) = true.
Proof.
  rewrite !lacks_bytes, trim_bytes, list_ascii_of_string_of_list_ascii.
  intros H.
  destruct (strip_suffix isSpace isSpace2 isSpace3 (list_ascii_of_string s))
    as [d1 H1].
  rewrite H1 in H. apply Forall_app in H as [_ H].
  apply Forall_rev in H.
  destruct (strip_suffix isSpace (fun a b => isSpace2 b a)
              (fun a b c => isSpace3 c b a)
              (rev (strip isSpace isSpace2 isSpace3 (list_ascii_of_string s))))
    as [d2 H2].
  rewrite H2 in H. apply Forall_app in H as [_ H].
  apply Forall_rev, H.
Qed.

(** White space outside ASCII is removed as well, at both ends and
    only there. *)
Lemma trim_examples :
  trim (Cases.nbsp ++ " buy " ++ Cases.nbsp) = "buy"%string /\
  trim (Cases.lineSeparator ++ "strong" ++ Cases.nbsp ++ "buy" ++ Cases.lineSeparator)
  = ("strong" ++ Cases.nbsp ++ "buy")%string /\
  trim (Cases.nbsp ++ Cases.lineSeparator) = EmptyString.
Proof. repeat split; vm_compute; reflexivity. Qed.

Lemma firstn_In_sub {A} n (l : list A) x : In x (firstn n l) -> In x l.
Proof.
  revert l; induction n as [|n IH]; intros [|y l]; simpl; try tauto.
  intros [H|H]; [left; exact H | right; exact (IH l H)].
Qed.

(** X9: [extractKeyPoints] returns at most four points. Each one is a
    line of the text with its surrounding white space removed: it is not
    empty, spans no line break, and comes from a line that starts with a
    digit, a dot, a dash or a star, or that contains a colon. A text with
    no such line gives no points. *)
Theorem extractKeyPoints_shape (analysis : string) :
  (length (extractKeyPoints analysis) <= 4)%nat /\
  Forall
    (fun point =>
       point <> EmptyString /\
       trim point = point /\
       lacks (ascii_of_nat 10) point = true /\
       exists line,
         In line (Js.split (ascii_of_nat 10) analysis) /\
         point = trim line /\
         (startsLikeItem line = true \/ Js.includes line ":" = true))
    (extractKeyPoints analysis).
Proof.
  unfold extractKeyPoints. split; [apply firstn_le_length|].
  apply List.Forall_forall. intros point Hin.
  apply firstn_In_sub in Hin. apply in_map_iff in Hin as (line & <- & Hline).
  apply filter_In in Hline as [Hline Hitem].
  apply filter_In in Hline as [Hline Hne].
  split; [apply truthyString_nonempty, Hne|].
  split; [apply trim_idem|]. split.
  - apply trim_lacks.
    destruct (split_join_roundtrip (ascii_of_nat 10) analysis) as [_ [Hl _]].
    rewrite List.Forall_forall in Hl. exact (Hl line Hline).
  - exists line. split; [exact Hline|]. split; [reflexivity|].
    apply orb_true_iff, Hitem.
Qed.

Lemma extractKeyPoints_example :
  extractKeyPoints
    ("Verdict: risky
  - indented bullet
1. liquidity is thin
plain sentence
* top holder owns most
- fifth
- sixth")
  = ["Verdict: risky"; "1. liquidity is thin"; "* top holder owns most"; "- fifth"]%string.
Proof. reflexivity. Qed.

(** A line wrapped in no-break spaces is a point when it holds a colon,
    and is stored without them; a line of no-break spaces only is blank. *)
Lemma extractKeyPoints_no_break_space :
  extractKeyPoints
    (Cases.nbsp ++ "Verdict: risky" ++ Cases.nbsp
     ++ String (ascii_of_nat 10) (Cases.nbsp ++ Cases.nbsp)
     ++ String (ascii_of_nat 10) "- thin liquidity")
  = ["Verdict: risky"; "- thin liquidity"]%string.
Proof. vm_compute. reflexivity. Qed.

(** ** Position monitor: what each call does *)

Lemma hasActivePosition_activeIs m mint :
  hasActivePosition m mint = true <-> activeIs m mint true.
Proof.
  unfold hasActivePosition, activeIs. destruct (positions m !! mint) as [p|].
  - split; [intros H; exists p; split; [reflexivity | exact H]|].
    intros [q [Hq Ha]]. injection Hq as ->. exact Ha.
  - split; [discriminate | intros [q [Hq _]]; discriminate].
Qed.

Lemma hasActivePosition_true m mint :
  hasActivePosition m mint = true ->
  exists p, positions m !! mint = Some p /\ active p = true.
Proof. intros H. apply hasActivePosition_activeIs, H. Qed.

Lemma exitPosition_sold_closed m mint p reason signature feed :
  positions m !! mint = Some p -> active p = true ->
  exitPosition m mint reason (SellOk signature) feed
  = (closed m mint p, ExitClosed reason signature (getCurrentPrice feed)).
Proof.
  intros Hp Ha. unfold exitPosition, closed. rewrite Hp, Ha. simpl.
  destruct (monitoringIntervals m !! mint) eqn:Hi; [reflexivity|].
  rewrite (delete_id _ _ Hi). reflexivity.
Qed.

Lemma exitPosition_idle m mint reason sell feed :
  hasActivePosition m mint = false ->
  exitPosition m mint reason sell feed = (m, ExitNothing).
Proof.
  unfold hasActivePosition, exitPosition.
  destruct (positions m !! mint) as [p|]; [|reflexivity].
  intros ->. reflexivity.
Qed.

Lemma idle_mint_is_skipped m mint sell finalFeed :
  hasActivePosition m mint = false ->
  (forall cfg feed now,
     checkPosition cfg m mint feed now sell finalFeed = (m, CheckSkipped)) /\
  manualExit m mint sell finalFeed = (m, ManualNoActivePosition).
Proof.
  intros H. unfold hasActivePosition in H. unfold checkPosition, manualExit.
  destruct (positions m !! mint) as [p|]; [|split; reflexivity].
  rewrite H. split; reflexivity.
Qed.

(** X10: for a mint without an active position (none stored, or one
    already closed) the three exit paths do nothing, whatever the sale
    would have answered: [exitPosition] returns nothing, a polling cycle is
    skipped, [manualExit] throws its own error, and the monitor is
    unchanged. A closed position is therefore never sold twice. *)
Theorem no_active_position_no_sale
    (cfg : Config.t) (m : Monitor) (mint : string) (reason : ExitReason)
    (feed : PriceFeed) (now : Z) (sell : Sell) (finalFeed : PriceFeed) :
  hasActivePosition m mint = false ->
  exitPosition m mint reason sell finalFeed = (m, ExitNothing) /\
  checkPosition cfg m mint feed now sell finalFeed = (m, CheckSkipped) /\
  manualExit m mint sell finalFeed = (m, ManualNoActivePosition).
Proof.
  intros H. split; [exact (exitPosition_idle m mint reason sell finalFeed H)|].
  unfold hasActivePosition in H. unfold checkPosition, manualExit.
  destruct (positions m !! mint) as [p|]; [|split; reflexivity].
  rewrite H. split; reflexivity.
Qed.

Lemma no_active_position_no_sale_witness :
  manualExit Examples.oneClosed "MintA" (SellOk "sig9") Examples.noQuote
  = (Examples.oneClosed, ManualNoActivePosition).
Proof.
  apply (no_active_position_no_sale Config.defaults Examples.oneClosed "MintA"
           ManualExit Examples.noQuote 0 (SellOk "sig9") Examples.noQuote).
  vm_compute. reflexivity.
Defined.

Lemma manualExit_on_open m mint p sell finalFeed :
  positions m !! mint = Some p -> active p = true ->
  manualExit m mint sell finalFeed =
  match sell with
  | SellOk signature => (closed m mint p, ManualSignature signature)
  | SellThrows message => (m, ManualThrows message)
  end.
Proof.
  intros Hp Ha. unfold manualExit. rewrite Hp, Ha. simpl negb. cbv iota.
  destruct sell as [signature|message].
  - rewrite (exitPosition_sold_closed m mint p ManualExit signature finalFeed Hp Ha).
    destruct signature; reflexivity.
  - rewrite (exitPosition_sell_throws m mint p ManualExit message finalFeed Hp Ha).
    reflexivity.
Qed.

(** X11: [manualExit] on an active position returns the signature of the
    sale and leaves the position closed, so that a second [manualExit]
    fails; when the sale throws, the error is passed on and the monitor is
    unchanged. *)
Theorem manualExit_active
    (m : Monitor) (mint : string) (sell : Sell) (finalFeed : PriceFeed) :
  hasActivePosition m mint = true ->
  match sell with
  | SellOk signature =>
      snd (manualExit m mint sell finalFeed) = ManualSignature signature /\
      hasActivePosition (fst (manualExit m mint sell finalFeed)) mint = false /\
      ~ monitored (fst (manualExit m mint sell finalFeed)) mint /\
      forall sell' feed',
        snd (manualExit (fst (manualExit m mint sell finalFeed)) mint sell' feed')
        = ManualNoActivePosition
  | SellThrows message =>
      manualExit m mint sell finalFeed = (m, ManualThrows message)
  end.
Proof.
  intros H. destruct (hasActivePosition_true m mint H) as [p [Hp Ha]].
  destruct sell as [signature|message].
  - assert (Hsold : manualExit m mint (SellOk signature) finalFeed
                    = (closed m mint p, ManualSignature signature)).
    { unfold manualExit. rewrite Hp, Ha. simpl negb. cbv iota.
      rewrite (exitPosition_sold_closed m mint p ManualExit signature finalFeed Hp Ha).
      destruct signature; reflexivity. }
    rewrite Hsold. cbn [fst snd].
    assert (Hclosed : hasActivePosition (closed m mint p) mint = false).
    { unfold hasActivePosition, closed; simpl. rewrite lookup_insert_eq. reflexivity. }
    split; [reflexivity|]. split; [exact Hclosed|]. split.
    + unfold monitored, closed; simpl. rewrite lookup_delete_eq.
      intros [x Hx]. discriminate.
    + intros sell' feed'.
      destruct (idle_mint_is_skipped (closed m mint p) mint sell' feed'
                  Hclosed) as [_ Hm].
      rewrite Hm. reflexivity.
  - unfold manualExit. rewrite Hp, Ha. simpl negb. cbv iota.
    rewrite (exitPosition_sell_throws m mint p ManualExit message finalFeed Hp Ha).
    reflexivity.
Qed.

Lemma manualExit_active_witness :
  snd (manualExit Examples.oneOpen "MintA" (SellOk "sig1") Examples.noQuote)
  = ManualSignature "sig1".
Proof.
  exact (proj1 (manualExit_active Examples.oneOpen "MintA" (SellOk "sig1")
                  Examples.noQuote eq_refl)).
Defined.


Lemma checkPosition_failed_sale_example :
  checkPosition Config.defaults Examples.oneOpen "MintA" (Examples.quote 1.25%float)
    2000 (SellThrows "timeout") Examples.noQuote
  = (Examples.oneOpen, CheckExit (TakeProfit 25%float) (ExitThrows "timeout")).
Proof. vm_compute. reflexivity. Qed.

Lemma checkPosition_fst cfg m mint feed now sell finalFeed :
  fst (checkPosition cfg m mint feed now sell finalFeed) = m \/
  exists p,
    positions m !! mint = Some p /\ active p = true /\
    fst (checkPosition cfg m mint feed now sell finalFeed) = closed m mint p.
Proof.
  unfold checkPosition.
  destruct (positions m !! mint) as [p|] eqn:Hp; [|left; reflexivity].
  destruct (active p) eqn:Ha; simpl negb; cbv iota; [|left; reflexivity].
  destruct (Js.falsy _ || _); [left; reflexivity|].
  cbv zeta.
  match goal with |- context [if ?c then _ else _] => destruct c end;
    [|left; reflexivity].
  match goal with |- context [exitPosition m mint ?r sell finalFeed] =>
    set (reason := r) end.
  destruct sell as [signature|message].
  - right. exists p.
    rewrite (exitPosition_sold_closed m mint p reason signature finalFeed Hp Ha).
    repeat split; first [assumption | reflexivity].
  - left. rewrite (exitPosition_sell_throws m mint p reason message finalFeed Hp Ha).
    reflexivity.
Qed.

(** Every step leaves the monitor alone, adds a position, stops all
    timers, or closes the active position of the mint it was called for. *)
Lemma step_shape cfg m op :
  step cfg m op = m \/
  (exists mint symbol price amount now,
     op = AddPosition mint symbol price amount now /\
     step cfg m op = addPosition m mint symbol price amount now) \/
  (op = StopAll /\ step cfg m op = stopAll m) \/
  (exists mint p,
     touches mint op = true /\ isStopAll op = false /\ addsMint mint op = false /\
     positions m !! mint = Some p /\ active p = true /\
     step cfg m op = closed m mint p).
Proof.
  destruct op as [mint symbol price amount now | mint feed now sell finalFeed
                 | mint reason sell finalFeed | mint sell finalFeed | ]; simpl.
  - right; left. exists mint, symbol, price, amount, now. split; reflexivity.
  - destruct (checkPosition_fst cfg m mint feed now sell finalFeed)
      as [H | (p & Hp & Ha & H)]; [left; exact H|].
    right; right; right. exists mint, p. rewrite H, String.eqb_refl.
    repeat split; assumption.
  - destruct (hasActivePosition m mint) eqn:Hact.
    + destruct (hasActivePosition_true m mint Hact) as [p [Hp Ha]].
      destruct sell as [signature|message].
      * right; right; right. exists mint, p.
        rewrite (exitPosition_sold_closed m mint p reason signature finalFeed Hp Ha).
        rewrite String.eqb_refl. repeat split; assumption.
      * left. rewrite (exitPosition_sell_throws m mint p reason message finalFeed Hp Ha).
        reflexivity.
    + left. rewrite (exitPosition_idle m mint reason sell finalFeed Hact). reflexivity.
  - destruct (hasActivePosition m mint) eqn:Hact.
    + destruct (hasActivePosition_true m mint Hact) as [p [Hp Ha]].
      pose proof (manualExit_on_open m mint p sell finalFeed Hp Ha) as H.
      destruct sell as [signature|message].
      * right; right; right. exists mint, p. rewrite H, String.eqb_refl.
        repeat split; assumption.
      * left. rewrite H. reflexivity.
    + left. destruct (idle_mint_is_skipped m mint sell finalFeed Hact) as [_ H].
      rewrite H. reflexivity.
  - right; right; left. split; reflexivity.
Qed.

(** ** Position monitor: framing and persistence *)

Lemma closed_lookup_other m k p mint :
  k <> mint ->
  positions (closed m k p) !! mint = positions m !! mint /\
  monitoringIntervals (closed m k p) !! mint = monitoringIntervals m !! mint.
Proof.
  intros Hne. unfold closed; simpl.
  rewrite (lookup_insert_ne _ _ _ _ Hne), (lookup_delete_ne _ _ _ Hne).
  split; reflexivity.
Qed.

Lemma touches_false_ne k mint : String.eqb k mint = false -> k <> mint.
Proof. apply String.eqb_neq. Qed.

(** X13: a call made for one mint leaves every other mint as it was: the
    stored record of the other mint is the same afterwards, and so is its
    entry in the interval map. [stopAll] keeps every record too. *)
Theorem step_frame (cfg : Config.t) (m : Monitor) (op : Op) (mint : string) :
  touches mint op = false ->
  positions (step cfg m op) !! mint = positions m !! mint /\
  (isStopAll op = false ->
   monitoringIntervals (step cfg m op) !! mint = monitoringIntervals m !! mint).
Proof.
  intros Ht.
  destruct (step_shape cfg m op)
    as [-> | [(k & symbol & price & amount & now & -> & ->)
       | [[-> ->] | (k & p & Hk & _ & _ & _ & _ & ->)]]].
  - split; reflexivity.
  - simpl in Ht. apply touches_false_ne in Ht.
    destruct (addPosition_lookup_other m k symbol price amount now mint Ht)
      as [Hpos Hint].
    split; [exact Hpos | intros _; exact Hint].
  - split; [reflexivity | discriminate].
  - assert (Hne : k <> mint).
    { intros ->. rewrite Hk in Ht. discriminate. }
    destruct (closed_lookup_other m k p mint Hne) as [Hpos Hint].
    split; [exact Hpos | intros _; exact Hint].
Qed.

Lemma step_frame_witness :
  positions
    (step Config.defaults Examples.oneOpen
       (AddPosition "MintB" "BBB" 3%float 0.5%float 3000)) !! "MintA"
  = positions Examples.oneOpen !! "MintA".
Proof.
  exact (proj1 (step_frame Config.defaults Examples.oneOpen
                  (AddPosition "MintB" "BBB" 3%float 0.5%float 3000) "MintA"
                  eq_refl)).
Defined.

Lemma sameTrade_refl p : sameTrade p p.
Proof. repeat split. Qed.

Lemma sameTrade_deactivate p q : sameTrade p q -> sameTrade p (deactivate q).
Proof. intros H. exact H. Qed.

Lemma step_keeps_record cfg m op mint p :
  positions m !! mint = Some p ->
  exists q, positions (step cfg m op) !! mint = Some q /\
    (addsMint mint op = false ->
     sameTrade p q /\ (active q = true -> active p = true)).
Proof.
  intros Hp.
  destruct (step_shape cfg m op)
    as [-> | [(k & symbol & price & amount & now & -> & ->)
       | [[-> ->] | (k & p' & _ & _ & _ & Hk & Ha & ->)]]].
  - exists p. split; [exact Hp|]. intros _. split; [apply sameTrade_refl | tauto].
  - destruct (decide (k = mint)) as [->|Hne].
    + destruct (addPosition_lookup_same m mint symbol price amount now)
        as [[q [Hq _]] _].
      exists q. split; [exact Hq|]. simpl. rewrite String.eqb_refl. discriminate.
    + exists p. rewrite (proj1 (addPosition_lookup_other m k symbol price amount
                                  now mint Hne)).
      split; [exact Hp|]. intros _. split; [apply sameTrade_refl | tauto].
  - exists p. split; [exact Hp|]. intros _. split; [apply sameTrade_refl | tauto].
  - destruct (decide (k = mint)) as [->|Hne].
    + assert (p' = p) as -> by congruence.
      exists (deactivate p). unfold closed; simpl. rewrite lookup_insert_eq.
      split; [reflexivity|]. intros _.
      split; [apply sameTrade_deactivate, sameTrade_refl | discriminate].
    + exists p. rewrite (proj1 (closed_lookup_other m k p' mint Hne)).
      split; [exact Hp|]. intros _. split; [apply sameTrade_refl | tauto].
Qed.

(** X14: a record, once stored under a mint, is never removed: after any
    further operations the mint still has a record. Unless the mint is
    added again, that record describes the same trade (same symbol, entry
    price, entry time and amount); only its [active] flag may have gone
    from true to false. *)
Theorem stored_record_persists
    (cfg : Config.t) (ops : list Op) (m : Monitor) (mint : string) (p : Position) :
  positions m !! mint = Some p ->
  exists q,
    positions (run cfg m ops) !! mint = Some q /\
    (forallb (fun op => negb (addsMint mint op)) ops = true ->
     sameTrade p q /\ (active q = true -> active p = true)).
Proof.
  revert m p. induction ops as [|op ops IH]; intros m p Hp.
  - exists p. split; [exact Hp|]. intros _. split; [apply sameTrade_refl | tauto].
  - destruct (step_keeps_record cfg m op mint p Hp) as [q1 [Hq1 Hsame1]].
    destruct (IH (step cfg m op) q1 Hq1) as [q [Hq Hsame]].
    exists q. rewrite run_cons. split; [exact Hq|].
    intros Hops. simpl in Hops. apply andb_true_iff in Hops as [Hop Hrest].
    apply negb_true_iff in Hop.
    destruct (Hsame1 Hop) as [Hs1 Ha1]. destruct (Hsame Hrest) as [Hs2 Ha2].
    split; [|tauto].
    destruct Hs1 as (? & ? & ? & ? & ?). destruct Hs2 as (? & ? & ? & ? & ?).
    repeat split; congruence.
Qed.

Lemma stored_record_persists_witness :
  exists q,
    positions (run Config.defaults Examples.oneOpen Examples.laterOps) !! "MintA"
    = Some q /\ sameTrade Examples.openPosition q.
Proof.
  destruct (stored_record_persists Config.defaults Examples.laterOps
              Examples.oneOpen "MintA" Examples.openPosition oneOpen_lookup)
    as [q [Hq Hsame]].
  exists q. split; [exact Hq | exact (proj1 (Hsame eq_refl))].
Defined.

(** ** Timers *)

Lemma stopAll_timers m h :
  h ∈ timers (stopAll m) <-> h ∈ timers m /\ ~ registered m h.
Proof.
  unfold stopAll, registered; simpl.
  apply (map_fold_weak_ind
           (fun (live : gset nat) (intervals : gmap string nat) =>
              h ∈ live <-> h ∈ timers m /\ ~ (exists mint, intervals !! mint = Some h))).
  - split; [intros H; split; [exact H|] | tauto].
    intros [mint Hm]. rewrite lookup_empty in Hm. discriminate.
  - intros mint interval intervals live Hfresh IH.
    rewrite elem_of_difference, elem_of_singleton, IH. split.
    + intros [[Hlive Hno] Hne]. split; [exact Hlive|].
      intros [k Hk]. destruct (decide (mint = k)) as [->|Hmk].
      * rewrite lookup_insert_eq in Hk. congruence.
      * rewrite lookup_insert_ne in Hk by exact Hmk. apply Hno. exists k. exact Hk.
    + intros [Hlive Hno]. split; [split; [exact Hlive|]|].
      * intros [k Hk]. apply Hno. exists k.
        destruct (decide (mint = k)) as [->|Hmk]; [congruence|].
        rewrite lookup_insert_ne by exact Hmk. exact Hk.
      * intros ->. apply Hno. exists mint. apply lookup_insert_eq.
Qed.

(** X15: [stopAll] keeps every stored record, so a position that was
    active still reads as active, and empties the interval map; it stops
    exactly the timers whose handles the map held, and a second [stopAll]
    changes nothing more. *)
Theorem stopAll_freezes (m : Monitor) :
  positions (stopAll m) = positions m /\
  (forall mint, hasActivePosition (stopAll m) mint = hasActivePosition m mint) /\
  (forall mint, ~ monitored (stopAll m) mint) /\
  (forall h, h ∈ timers (stopAll m) <-> h ∈ timers m /\ ~ registered m h) /\
  stopAll (stopAll m) = stopAll m.
Proof.
  split; [reflexivity|]. split; [reflexivity|]. split; [|split].
  - intros mint [x Hx]. simpl in Hx. rewrite lookup_empty in Hx. discriminate.
  - apply stopAll_timers.
  - unfold stopAll; simpl. rewrite map_fold_empty. reflexivity.
Qed.

Lemma empty_handlesSound : handlesSound PositionMonitor.empty.
Proof.
  split.
  - intros mint h H. simpl in H. rewrite lookup_empty in H. discriminate.
  - intros k1 k2 h H. simpl in H. rewrite lookup_empty in H. discriminate.
Qed.

Lemma addPosition_handlesSound m mint symbol price amount now :
  handlesSound m -> handlesSound (addPosition m mint symbol price amount now).
Proof.
  intros [Hlive Hinj]. unfold addPosition, startMonitoring; simpl. split; simpl.
  - intros k h Hk. rewrite lookup_insert in Hk.
    destruct (decide (mint = k)) as [_|_].
    + injection Hk as <-. split; [apply elem_of_union_l, elem_of_singleton; reflexivity | lia].
    + destruct (Hlive k h Hk) as [Hin Hlt].
      split; [apply elem_of_union_r, Hin | lia].
  - intros k1 k2 h H1 H2. rewrite lookup_insert in H1, H2.
    destruct (decide (mint = k1)) as [E1|_], (decide (mint = k2)) as [E2|_].
    + congruence.
    + injection H1 as <-. destruct (Hlive k2 _ H2). lia.
    + injection H2 as <-. destruct (Hlive k1 _ H1). lia.
    + exact (Hinj k1 k2 h H1 H2).
Qed.

Lemma closed_handlesSound m mint p :
  handlesSound m -> handlesSound (closed m mint p).
Proof.
  intros [Hlive Hinj]. unfold closed. split; simpl.
  - intros k h Hk. destruct (decide (mint = k)) as [->|Hne].
    + rewrite lookup_delete_eq in Hk. discriminate.
    + rewrite lookup_delete_ne in Hk by exact Hne.
      destruct (Hlive k h Hk) as [Hin Hlt]. split; [|exact Hlt].
      destruct (monitoringIntervals m !! mint) as [h'|] eqn:Hm; [|exact Hin].
      apply elem_of_difference. split; [exact Hin|].
      rewrite elem_of_singleton. intros ->. apply Hne. exact (Hinj mint k h' Hm Hk).
  - intros k1 k2 h H1 H2.
    destruct (decide (mint = k1)) as [->|Hn1];
      [rewrite lookup_delete_eq in H1; discriminate|].
    destruct (decide (mint = k2)) as [->|Hn2];
      [rewrite lookup_delete_eq in H2; discriminate|].
    rewrite lookup_delete_ne in H1, H2 by congruence. exact (Hinj k1 k2 h H1 H2).
Qed.

Lemma stopAll_handlesSound m : handlesSound (stopAll m).
Proof.
  split; simpl.
  - intros mint h H. rewrite lookup_empty in H. discriminate.
  - intros k1 k2 h H. rewrite lookup_empty in H. discriminate.
Qed.

Lemma step_handlesSound cfg m op : handlesSound m -> handlesSound (step cfg m op).
Proof.
  intros Hs.
  destruct (step_shape cfg m op)
    as [-> | [(k & symbol & price & amount & now & -> & ->)
       | [[-> ->] | (k & p & _ & _ & _ & _ & _ & ->)]]].
  - exact Hs.
  - apply addPosition_handlesSound, Hs.
  - apply stopAll_handlesSound.
  - apply closed_handlesSound, Hs.
Qed.

Lemma run_handlesSound cfg ops : forall m,
  handlesSound m -> handlesSound (run cfg m ops).
Proof.
  induction ops as [|op ops IH]; intros m Hs; [exact Hs|].
  rewrite run_cons. apply IH, step_handlesSound, Hs.
Qed.

Lemma step_orphaned cfg m op h : orphaned m h -> orphaned (step cfg m op) h.
Proof.
  intros (Hlive & Hno & Hlt).
  destruct (step_shape cfg m op)
    as [-> | [(k & symbol & price & amount & now & -> & ->)
       | [[-> ->] | (k & p & _ & _ & _ & _ & _ & ->)]]].
  - repeat split; assumption.
  - unfold orphaned, registered, addPosition, startMonitoring; simpl.
    split; [apply elem_of_union_r; assumption|]. split; [|lia].
    intros [mint Hm]. destruct (decide (k = mint)) as [->|Hne].
    + rewrite lookup_insert_eq in Hm. injection Hm as Hm. lia.
    + rewrite lookup_insert_ne in Hm by exact Hne. apply Hno. exists mint. exact Hm.
  - split; [apply stopAll_timers; split; assumption|]. split; [|exact Hlt].
    intros [mint Hm]. simpl in Hm. rewrite lookup_empty in Hm. discriminate.
  - unfold orphaned, registered, closed; simpl. split; [|split; [|exact Hlt]].
    + destruct (monitoringIntervals m !! k) as [h'|] eqn:Hk; [|exact Hlive].
      apply elem_of_difference. split; [exact Hlive|].
      rewrite elem_of_singleton. intros ->. apply Hno. exists k. exact Hk.
    + intros [mint Hm]. destruct (decide (k = mint)) as [->|Hne].
      * rewrite lookup_delete_eq in Hm. discriminate.
      * rewrite lookup_delete_ne in Hm by exact Hne. apply Hno. exists mint. exact Hm.
Qed.

Lemma run_orphaned cfg ops : forall m h, orphaned m h -> orphaned (run cfg m ops) h.
Proof.
  induction ops as [|op ops IH]; intros m h Ho; [exact Ho|].
  rewrite run_cons. apply IH, step_orphaned, Ho.
Qed.

(** X16: [addPosition] for a mint that still has a polling task replaces
    the handle in the interval map without clearing the old timer. The old
    timer stays live, no entry of the map refers to it any more, and no
    later operation of the monitor, [stopAll] included, ever stops it. *)
Theorem readded_mint_keeps_old_timer
    (cfg : Config.t) (before after : list Op)
    (mint symbol : string) (price amount : float) (now : Z) (h : nat) :
  monitoringIntervals (run cfg PositionMonitor.empty before) !! mint = Some h ->
  let readded :=
    addPosition (run cfg PositionMonitor.empty before) mint symbol price amount now in
  monitoringIntervals readded !! mint
    = Some (nextTimer (run cfg PositionMonitor.empty before)) /\
  h <> nextTimer (run cfg PositionMonitor.empty before) /\
  h ∈ timers (run cfg readded after) /\
  ~ registered (run cfg readded after) h.
Proof.
  intros Hh readded.
  pose proof (run_handlesSound cfg before _ empty_handlesSound) as [Hlive Hinj].
  destruct (Hlive mint h Hh) as [Hin Hlt].
  assert (Ho : orphaned readded h).
  { subst readded. unfold orphaned, registered, addPosition, startMonitoring; simpl.
    split; [apply elem_of_union_r; assumption|]. split; [|lia].
    intros [k Hk]. destruct (decide (mint = k)) as [->|Hne].
    - rewrite lookup_insert_eq in Hk. injection Hk as Hk. lia.
    - rewrite lookup_insert_ne in Hk by exact Hne.
      apply Hne. exact (Hinj mint k h Hh Hk). }
  split; [subst readded; unfold addPosition, startMonitoring; simpl;
          apply lookup_insert_eq|].
  split; [lia|].
  destruct (run_orphaned cfg after readded h Ho) as (H1 & H2 & _).
  split; assumption.
Qed.

Lemma readded_mint_keeps_old_timer_witness :
  0%nat ∈ timers (run Config.defaults
                    (addPosition Examples.oneOpen "MintA" "AAA" 2%float 0.5%float 5000)
                    [StopAll]).
Proof.
  exact (proj1 (proj2 (proj2 (readded_mint_keeps_old_timer Config.defaults
           [Examples.addA] [StopAll] "MintA" "AAA" 2%float 0.5%float 5000 0%nat
           oneOpen_monitored)))).
Defined.

(** ** An entry price of zero *)

Lemma positive_cases price :
  PrimFloat.ltb 0 price = true ->
  Prim2SF price = S754_infinity false \/
  exists m e, Prim2SF price = S754_finite false m e.
Proof.
  rewrite FloatAxioms.ltb_spec. unfold SFltb.
  change (Prim2SF 0) with (S754_zero false).
  destruct (Prim2SF price) as [s|s| |s m e]; simpl; try discriminate.
  - destruct s; [discriminate|]. left. reflexivity.
  - destruct s; [discriminate|]. right. exists m, e. reflexivity.
Qed.

Lemma positive_not_falsy price :
  PrimFloat.ltb 0 price = true -> Js.falsy price = false.
Proof.
  intros H. unfold Js.falsy, PrimFloat.is_nan. rewrite !FloatAxioms.eqb_spec.
  change (Prim2SF 0) with (S754_zero false). unfold SFeqb.
  destruct (positive_cases price H) as [-> | (m & e & ->)]; simpl.
  - reflexivity.
  - rewrite Z.compare_refl, Pos.compare_cont_refl. reflexivity.
Qed.

Lemma profitPercentOf_zero_entry price :
  PrimFloat.ltb 0 price = true ->
  profitPercentOf price 0 = PrimFloat.infinity.
Proof.
  intros H. unfold profitPercentOf. apply Prim2SF_inj.
  rewrite mul_spec, div_spec, sub_spec.
  change (Prim2SF 0) with (S754_zero false).
  change (Prim2SF PrimFloat.infinity) with (S754_infinity false).
  change (Prim2SF 100) with (S754_finite false 7036874417766400 (-46)).
  destruct (positive_cases price H) as [-> | (m & e & ->)]; reflexivity.
Qed.

Lemma not_nan_le_infinity x :
  PrimFloat.is_nan x = false -> Js.ge PrimFloat.infinity x = true.
Proof.
  unfold Js.ge, PrimFloat.is_nan. rewrite FloatAxioms.leb_spec, FloatAxioms.eqb_spec.
  change (Prim2SF PrimFloat.infinity) with (S754_infinity false).
  unfold SFleb, SFeqb.
  destruct (Prim2SF x) as [s|s| |s m e]; simpl; try discriminate; try reflexivity;
    destruct s; reflexivity.
Qed.

Lemma checkPosition_zero_entry cfg m mint p feed now sell finalFeed :
  positions m !! mint = Some p ->
  active p = true ->
  entryPrice p = 0%float ->
  PrimFloat.ltb 0 (getCurrentPrice feed) = true ->
  PrimFloat.is_nan (Config.takeProfitPercent cfg) = false ->
  checkPosition cfg m mint feed now sell finalFeed
  = (fst (exitPosition m mint (TakeProfit PrimFloat.infinity) sell finalFeed),
     CheckExit (TakeProfit PrimFloat.infinity)
       (snd (exitPosition m mint (TakeProfit PrimFloat.infinity) sell finalFeed))).
Proof.
  intros Hp Ha Hentry Hprice Htp.
  unfold checkPosition. rewrite Hp, Ha. simpl negb. cbv iota zeta.
  rewrite (falsy_false_not_zero _ (positive_not_falsy _ Hprice)).
  rewrite Hentry, (profitPercentOf_zero_entry _ Hprice).
  rewrite (not_nan_le_infinity _ Htp). simpl orb. cbv iota.
  destruct (exitPosition m mint (TakeProfit PrimFloat.infinity) sell finalFeed).
  reflexivity.
Qed.

(** X17: for a position registered with an entry price of 0 (the price
    that [getMarketData] reports when its lookup fails), the first polling
    cycle that sees a positive price calls [exitPosition] with the
    take-profit reason: the profit comes out as infinity, which reaches
    every take-profit threshold that is a number. If the sale goes through,
    the position is closed and its polling task dropped; if the sale
    throws, the monitor is left as it was, the position still active. *)
Theorem zero_entry_price_takes_profit
    (cfg : Config.t) (m : Monitor) (mint : string) (p : Position)
    (feed : PriceFeed) (now : Z) (sell : Sell) (finalFeed : PriceFeed) :
  positions m !! mint = Some p ->
  active p = true ->
  entryPrice p = 0%float ->
  PrimFloat.ltb 0 (getCurrentPrice feed) = true ->
  PrimFloat.is_nan (Config.takeProfitPercent cfg) = false ->
  surfaced (snd (checkPosition cfg m mint feed now sell finalFeed))
  = Some (TakeProfit PrimFloat.infinity) /\
  checkPosition cfg m mint feed now sell finalFeed
  = match sell with
    | SellOk signature =>
        (closed m mint p,
         CheckExit (TakeProfit PrimFloat.infinity)
           (ExitClosed (TakeProfit PrimFloat.infinity) signature
              (getCurrentPrice finalFeed)))
    | SellThrows message =>
        (m, CheckExit (TakeProfit PrimFloat.infinity) (ExitThrows message))
    end /\
  (forall signature, sell = SellOk signature ->
     activeIs (fst (checkPosition cfg m mint feed now sell finalFeed)) mint false /\
     ~ monitored (fst (checkPosition cfg m mint feed now sell finalFeed)) mint) /\
  (forall message, sell = SellThrows message ->
     fst (checkPosition cfg m mint feed now sell finalFeed) = m /\
     activeIs m mint true).
Proof.
  intros Hp Ha Hentry Hprice Htp.
  rewrite (checkPosition_zero_entry cfg m mint p feed now sell finalFeed
             Hp Ha Hentry Hprice Htp).
  split; [reflexivity|]. split; [|split].
  - destruct sell as [signature|message].
    + rewrite (exitPosition_sold_closed m mint p _ signature finalFeed Hp Ha).
      reflexivity.
    + unfold exitPosition. rewrite Hp, Ha. reflexivity.
  - intros signature ->.
    rewrite (exitPosition_sold_closed m mint p _ signature finalFeed Hp Ha).
    simpl. split.
    + exists (deactivate p). split; [apply lookup_insert_eq | reflexivity].
    + intros [x Hx]. simpl in Hx. rewrite lookup_delete_eq in Hx. discriminate.
  - intros message ->. unfold exitPosition. rewrite Hp, Ha. simpl.
    split; [reflexivity|]. exists p. split; assumption.
Qed.

Lemma zero_entry_price_takes_profit_witness :
  checkPosition Config.defaults Cases.zeroEntry "MintZ"
    (Examples.quote 0.25%float) 2000 (SellOk "sig1") Examples.noQuote
  = (closed Cases.zeroEntry "MintZ"
       (mkPosition "MintZ" "ZZZ" 0%float 1000 0.5%float true),
     CheckExit (TakeProfit PrimFloat.infinity)
       (ExitClosed (TakeProfit PrimFloat.infinity) "sig1"
          (getCurrentPrice Examples.noQuote))).
Proof.
  apply (zero_entry_price_takes_profit Config.defaults Cases.zeroEntry "MintZ"
           (mkPosition "MintZ" "ZZZ" 0%float 1000 0.5%float true)
           (Examples.quote 0.25%float) 2000 (SellOk "sig1") Examples.noQuote).
  - unfold Cases.zeroEntry, addPosition; simpl. apply lookup_insert_eq.
  - reflexivity.
  - reflexivity.
  - reflexivity.
  - reflexivity.
Defined.

(** ** The message handler *)

(** X18: the [message] handler answers with an analysis only to an
    authorized user whose text, trimmed, is 32 to 44 base58 characters; it
    offers the buy buttons exactly when the validator declares the token
    valid, hence never after a failed validation. Any other text gets no
    answer at all, also from a user who is not authorized. *)
Theorem onMessage_replies
    (cfg : Config.t) (userId : Z) (msgText : option string)
    (up : Upstream) (reply : Inference) :
  let text := orElse msgText EmptyString in
  match onMessage cfg userId msgText up reply with
  | NoReply =>
      Js.startsWith "/" text = true \/ solanaAddressRegex (trim text) = false
  | Unauthorized =>
      isAuthorized cfg userId = false /\ solanaAddressRegex (trim text) = true
  | Analysis tokenMint validation analysis buyButtons =>
      isAuthorized cfg userId = true /\
      tokenMint = trim text /\
      solanaAddressRegex tokenMint = true /\
      (32 <= String.length tokenMint <= 44)%nat /\
      validation = validateToken cfg up /\
      analysis = analyzeToken cfg validation reply /\
      buyButtons = isValid validation /\
      (buyButtons = true -> upstreamFailed up = false)
  end.
Proof.
  intros text. unfold onMessage. fold text.
  destruct (Js.startsWith "/" text); [left; reflexivity|].
  destruct (solanaAddressRegex (trim text)) eqn:Hre; simpl negb; cbv iota;
    [|right; reflexivity].
  destruct (isAuthorized cfg userId) eqn:Hauth; simpl negb; cbv iota;
    [|split; reflexivity].
  assert (Hlen : (32 <= String.length (trim text) <= 44)%nat).
  { unfold solanaAddressRegex in Hre.
    apply andb_true_iff in Hre as [Hre Hhi]. apply andb_true_iff in Hre as [_ Hlo].
    apply Nat.leb_le in Hlo, Hhi. split; assumption. }
  split; [reflexivity|]. split; [reflexivity|]. split; [exact Hre|].
  split; [exact Hlen|]. split; [reflexivity|]. split; [reflexivity|].
  split; [reflexivity|].
  intros Hvalid. destruct (upstreamFailed up) eqn:Hf; [|reflexivity].
  rewrite (validateToken_fail_closed cfg up Hf) in Hvalid. discriminate.
Qed.

Lemma onMessage_examples :
  onMessage Config.defaults 7 (Some "/start"%string) Cases.healthy InferenceThrows
    = NoReply /\
  onMessage Config.defaults 7 (Some "hello there"%string) Cases.healthy InferenceThrows
    = NoReply /\
  onMessage Examples.withUsers 7 (Some Cases.mintA) Cases.healthy InferenceThrows
    = Unauthorized /\
  (exists a,
     onMessage Config.defaults 7 (Some (" " ++ Cases.mintA)%string) Cases.healthy
       InferenceThrows
     = Analysis Cases.mintA (validateToken Config.defaults Cases.healthy) a true).
Proof.
  repeat split; try reflexivity. eexists. vm_compute. reflexivity.
Qed.

(** An address pasted with no-break spaces around it is analysed like
    the bare address. *)
Lemma onMessage_no_break_space :
  exists a,
    onMessage Config.defaults 7 (Some (Cases.nbsp ++ Cases.mintA ++ Cases.nbsp)%string)
      Cases.healthy InferenceThrows
    = Analysis Cases.mintA (validateToken Config.defaults Cases.healthy) a true.
Proof. eexists. vm_compute. reflexivity. Qed.

(** ** The buy buttons *)

Lemma isBase58_not_colon c : isBase58 c = true -> Ascii.eqb c ":" = false.
Proof. destruct c as [[] [] [] [] [] [] [] []]; vm_compute; congruence. Qed.

Lemma allBase58_lacks_colon s : allBase58 s = true -> lacks ":" s = true.
Proof.
  induction s as [|c r IH]; simpl; [reflexivity|].
  intros H. apply andb_true_iff in H as [Hc Hr].
  rewrite (isBase58_not_colon c Hc), (IH Hr). reflexivity.
Qed.

Lemma buyData_fields tokenMint amount :
  lacks ":" tokenMint = true -> lacks ":" amount = true ->
  Js.split ":" (buyData tokenMint amount) = ["buy"%string; tokenMint; amount].
Proof.
  intros Hm Ha.
  change (buyData tokenMint amount)
    with (join ":" ["buy"%string; tokenMint; amount]).
  apply join_split_roundtrip; [discriminate|].
  repeat constructor; assumption.
Qed.

Section CallbackFacts.

Variable parseFloat : string -> float.

(** X19: the data written on a buy button, [buy:<mint>:<amount>], is read
    back by the [callback_query] handler as that mint and that amount,
    for every mint the message handler accepts. Pressed by an authorized
    user, the button is refused while the mint has an active position;
    otherwise a purchase that goes through registers a position for that
    mint with the parsed amount, and one that throws registers nothing. *)
Theorem buy_button_roundtrip
    (cfg : Config.t) (m : Monitor) (userId : Z) (tokenMint amount : string)
    (buy : Buy) (now : Z) :
  solanaAddressRegex tokenMint = true ->
  lacks ":" amount = true ->
  amount <> "custom"%string ->
  isAuthorized cfg userId = true ->
  onCallbackQuery parseFloat cfg m userId (Some (buyData tokenMint amount)) buy now
  = if hasActivePosition m tokenMint then (m, AlreadyHavePosition)
    else match buy with
         | BuyThrows message => (m, BuyFailed message)
         | BuyOk signature symbol price =>
             (addPosition m tokenMint symbol price (parseFloat amount) now,
              Bought tokenMint symbol signature (parseFloat amount) price)
         end.
Proof.
  intros Hre Hamt Hcustom Hauth.
  assert (Hmint : lacks ":" tokenMint = true).
  { apply allBase58_lacks_colon. unfold solanaAddressRegex in Hre.
    apply andb_true_iff in Hre as [Hre _]. apply andb_true_iff in Hre as [Hre _].
    exact Hre. }
  unfold onCallbackQuery. rewrite Hauth. simpl negb. cbv iota.
  change (orElse (Some (buyData tokenMint amount)) EmptyString)
    with (buyData tokenMint amount).
  change (Js.startsWith "buy:" (buyData tokenMint amount)) with true. cbv iota zeta.
  rewrite (buyData_fields tokenMint amount Hmint Hamt).
  simpl nth. simpl nth_error. unfold isCustom, parseAmount.
  apply String.eqb_neq in Hcustom. rewrite Hcustom. reflexivity.
Qed.

(** X20: a [callback_query] changes the monitor in one case only: the
    user is authorized, the data starts with [buy:], its third field is
    not [custom], the mint named by its second field has no active
    position, and the purchase went through. Then a position is added for
    that mint with the amount parsed from the third field, which changes
    the monitor and makes the mint's position active. A user who is not
    authorized changes nothing. *)
Theorem onCallbackQuery_guards
    (cfg : Config.t) (m : Monitor) (userId : Z) (queryData : option string)
    (buy : Buy) (now : Z) :
  let data := orElse queryData EmptyString in
  let tokenMint := nth 1 (Js.split ":" data) EmptyString in
  let amountStr := nth_error (Js.split ":" data) 2 in
  let amount := parseAmount parseFloat amountStr in
  let result := onCallbackQuery parseFloat cfg m userId queryData buy now in
  (isAuthorized cfg userId = false -> result = (m, CallbackUnauthorized)) /\
  (fst result = m \/
   exists symbol signature price,
     isAuthorized cfg userId = true /\
     Js.startsWith "buy:" data = true /\
     isCustom amountStr = false /\
     hasActivePosition m tokenMint = false /\
     buy = BuyOk signature symbol price /\
     result = (addPosition m tokenMint symbol price amount now,
               Bought tokenMint symbol signature amount price) /\
     fst result <> m /\
     hasActivePosition (fst result) tokenMint = true) /\
  (forall signature symbol price,
     isAuthorized cfg userId = true ->
     Js.startsWith "buy:" data = true ->
     isCustom amountStr = false ->
     hasActivePosition m tokenMint = false ->
     buy = BuyOk signature symbol price ->
     result = (addPosition m tokenMint symbol price amount now,
               Bought tokenMint symbol signature amount price)).
Proof.
  intros data tokenMint amountStr amount result.
  unfold result, onCallbackQuery. fold data. cbv zeta.
  fold tokenMint amountStr. fold amount.
  split; [|split].
  - intros ->. reflexivity.
  - destruct (isAuthorized cfg userId); simpl negb; cbv iota; [|left; reflexivity].
    destruct (Js.startsWith "buy:" data); [|left; reflexivity].
    destruct (isCustom amountStr); [left; reflexivity|].
    destruct (hasActivePosition m tokenMint) eqn:Hact; [left; reflexivity|].
    destruct buy as [message|signature symbol price]; [left; reflexivity|].
    right. exists symbol, signature, price.
    split; [reflexivity|]. split; [reflexivity|]. split; [reflexivity|].
    split; [reflexivity|]. split; [reflexivity|]. split; [reflexivity|]. split.
    + simpl. intros H. apply (f_equal nextTimer) in H. simpl in H. lia.
    + unfold hasActivePosition, addPosition. simpl.
      rewrite lookup_insert_eq. reflexivity.
  - intros signature symbol price -> -> -> -> ->. reflexivity.
Qed.

End CallbackFacts.

Lemma buy_button_roundtrip_witness :
  snd (onCallbackQuery (fun _ => 0.5%float) Config.defaults PositionMonitor.empty 7
         (Some (buyData Cases.mintA "0.5")) (BuyOk "sig1" "AAA" 0.25%float) 1000)
  = Bought Cases.mintA "AAA" "sig1" 0.5%float 0.25%float.
Proof.
  rewrite (buy_button_roundtrip (fun _ => 0.5%float) Config.defaults
             PositionMonitor.empty 7 Cases.mintA "0.5"
             (BuyOk "sig1" "AAA" 0.25%float) 1000);
    [reflexivity | reflexivity | reflexivity | discriminate | reflexivity].
Defined.

Lemma onCallbackQuery_guards_witness :
  onCallbackQuery Cases.halfSol Examples.withUsers PositionMonitor.empty 7
    (Some (buyData Cases.mintA "0.5")) (BuyOk "sig1" "AAA" 0.25%float) 1000
  = (PositionMonitor.empty, CallbackUnauthorized) /\
  onCallbackQuery Cases.halfSol Config.defaults PositionMonitor.empty 7
    (Some (buyData Cases.mintA "0.5")) (BuyOk "sig1" "AAA" 0.25%float) 1000
  = (addPosition PositionMonitor.empty Cases.mintA "AAA" 0.25%float 0.5%float 1000,
     Bought Cases.mintA "AAA" "sig1" 0.5%float 0.25%float).
Proof.
  split.
  - exact (proj1 (onCallbackQuery_guards Cases.halfSol Examples.withUsers
                    PositionMonitor.empty 7 (Some (buyData Cases.mintA "0.5"))
                    (BuyOk "sig1" "AAA" 0.25%float) 1000) eq_refl).
  - exact (proj2 (proj2 (onCallbackQuery_guards Cases.halfSol Config.defaults
                    PositionMonitor.empty 7 (Some (buyData Cases.mintA "0.5"))
                    (BuyOk "sig1" "AAA" 0.25%float) 1000))
             "sig1"%string "AAA"%string 0.25%float
             eq_refl eq_refl eq_refl eq_refl eq_refl).
Defined.

(** ** From validation to confidence *)

Lemma validateToken_flags cfg up :
  upstreamFailed up = false ->
  canMint (validateToken cfg up) = mintActive up /\
  canFreeze (validateToken cfg up) = freezeActive up /\
  liquidity (validateToken cfg up) = md_liquidity (marketData up) /\
  marketCap (validateToken cfg up) = md_marketCap (marketData up).
Proof.
  unfold upstreamFailed, validateToken, mintActive, freezeActive.
  destruct (accountInfo up); [discriminate| |]; intros _; repeat split.
Qed.

Lemma validateToken_valid_thresholds cfg up :
  isValid (validateToken cfg up) = true ->
  upstreamFailed up = false /\ riskScore (validateToken cfg up) <= 8.
Proof.
  intros Hvalid.
  destruct (upstreamFailed up) eqn:Hf.
  - rewrite (validateToken_fail_closed cfg up Hf) in Hvalid. discriminate.
  - split; [reflexivity|].
    assert (Hv : isValid (validateToken cfg up) =
                 (riskScore (validateToken cfg up) <=? Config.maxRiskScore cfg)
                 && Js.ge (md_liquidity (marketData up)) (Config.minLiquidity cfg)
                 && Js.ge (md_marketCap (marketData up)) (Config.minMarketCap cfg)).
    { unfold validateToken, upstreamFailed in *.
      destruct (accountInfo up); [discriminate| |]; reflexivity. }
    rewrite Hv, !andb_true_iff in Hvalid. destruct Hvalid as [[_ Hl] Hm].
    rewrite (riskScore_penaltySum cfg up Hf). unfold penaltySum.
    rewrite (ge_not_lt _ _ Hl), (ge_not_lt _ _ Hm).
    pose proof (points_bounds 3 (mintActive up)).
    pose proof (points_bounds 2 (freezeActive up)).
    pose proof (points_bounds 2 (Js.gt (hd_topHolderPercent (holders up)) 50%float)).
    pose proof (points_bounds 1 (hd_holderCount (holders up) <? 10)).
    simpl points at 3 4. lia.
Qed.

(** X22: on what [validateToken] returns, the confidence has a floor and
    a ceiling: a token declared valid gets at least 20, a validation that
    failed upstream gets at most 20, and a token whose mint authority is
    live gets at most 90. *)
Theorem confidence_of_validated (cfg : Config.t) (up : Upstream) :
  let validation := validateToken cfg up in
  (isValid validation = true -> 20 <= calculateConfidence cfg validation) /\
  (upstreamFailed up = true -> calculateConfidence cfg validation <= 20) /\
  (upstreamFailed up = false -> mintActive up = true ->
   calculateConfidence cfg validation <= 90).
Proof.
  cbv zeta. split; [|split].
  - intros Hvalid.
    destruct (validateToken_valid_thresholds cfg up Hvalid) as [_ H8].
    rewrite calculateConfidence_unfold.
    pose proof (points_bounds 10
      (Js.ge (liquidity (validateToken cfg up)) (Config.minLiquidity cfg * 3)%float)).
    pose proof (points_bounds 10
      (Js.ge (marketCap (validateToken cfg up)) (Config.minMarketCap cfg * 3)%float)).
    pose proof (points_bounds 15
      (negb (canMint (validateToken cfg up)) && negb (canFreeze (validateToken cfg up)))).
    lia.
  - intros Hf. rewrite (validateToken_fail_closed cfg up Hf).
    rewrite calculateConfidence_unfold. simpl riskScore. simpl canMint. simpl negb.
    pose proof (points_bounds 10
      (Js.ge (liquidity failClosed) (Config.minLiquidity cfg * 3)%float)).
    pose proof (points_bounds 10
      (Js.ge (marketCap failClosed) (Config.minMarketCap cfg * 3)%float)).
    simpl andb. simpl points at 3. lia.
  - intros Hok Hauth.
    destruct (validateToken_flags cfg up Hok) as (Hcm & Hcf & _ & _).
    rewrite calculateConfidence_unfold, Hcm, Hcf, Hauth.
    rewrite (riskScore_penaltySum cfg up Hok). unfold penaltySum. rewrite Hauth.
    pose proof (points_bounds 10
      (Js.ge (liquidity (validateToken cfg up)) (Config.minLiquidity cfg * 3)%float)).
    pose proof (points_bounds 10
      (Js.ge (marketCap (validateToken cfg up)) (Config.minMarketCap cfg * 3)%float)).
    pose proof (points_bounds 2 (freezeActive up)).
    pose proof (points_bounds 2
      (Js.lt (md_liquidity (marketData up)) (Config.minLiquidity cfg))).
    pose proof (points_bounds 1
      (Js.lt (md_marketCap (marketData up)) (Config.minMarketCap cfg))).
    pose proof (points_bounds 2 (Js.gt (hd_topHolderPercent (holders up)) 50%float)).
    pose proof (points_bounds 1 (hd_holderCount (holders up) <? 10)).
    change (points 3 true) with 3. change (negb true && negb (freezeActive up)) with false.
    change (points 15 false) with 0. lia.
Qed.

Lemma confidence_of_validated_witness :
  20 <= calculateConfidence Config.defaults (validateToken Config.defaults Cases.healthy)
  /\ calculateConfidence Config.defaults (validateToken Config.defaults Cases.rpcDown)
     <= 20.
Proof.
  destruct (confidence_of_validated Config.defaults Cases.healthy) as [Hok _].
  destruct (confidence_of_validated Config.defaults Cases.rpcDown) as [_ [Hfail _]].
  split; [apply Hok | apply Hfail]; reflexivity.
Defined.

(** * Calls that overlap *)

(** ** What a settled sale does to the monitor *)

Lemma settle_fields m k current :
  positions (Async.settle m k current)
  = (if current then alter deactivate k (positions m) else positions m) /\
  monitoringIntervals (Async.settle m k current) = delete k (monitoringIntervals m) /\
  timers (Async.settle m k current)
  = match monitoringIntervals m !! k with
    | Some interval => timers m ∖ {[interval]}
    | None => timers m
    end /\
  nextTimer (Async.settle m k current) = nextTimer m.
Proof.
  unfold Async.settle. destruct (monitoringIntervals m !! k) eqn:Hk; simpl.
  - repeat split.
  - rewrite (delete_id _ _ Hk). repeat split.
Qed.

Lemma settle_positions_other m k current mint :
  k <> mint -> positions (Async.settle m k current) !! mint = positions m !! mint.
Proof.
  intros Hne. destruct (settle_fields m k current) as [-> _].
  destruct current; [apply lookup_alter_ne, Hne | reflexivity].
Qed.

Lemma settle_closed m k p :
  positions m !! k = Some p -> Async.settle m k true = closed m k p.
Proof.
  intros Hp.
  assert (Halter : alter deactivate k (positions m) = <[k := deactivate p]> (positions m)).
  { apply map_eq. intros j. destruct (decide (k = j)) as [->|Hne].
    - rewrite lookup_alter_eq, lookup_insert_eq, Hp. reflexivity.
    - rewrite lookup_alter_ne, lookup_insert_ne by exact Hne. reflexivity. }
  unfold Async.settle, closed. rewrite Halter.
  destruct (monitoringIntervals m !! k) eqn:Hk; [reflexivity|].
  rewrite (delete_id _ _ Hk). reflexivity.
Qed.

Lemma settle_monitoredAreActive m k current :
  monitoredAreActive m -> monitoredAreActive (Async.settle m k current).
Proof.
  intros Hinv mint Hmon. unfold monitored in Hmon.
  destruct (settle_fields m k current) as (_ & Hint & _ & _). rewrite Hint in Hmon.
  destruct (decide (k = mint)) as [->|Hne].
  - rewrite lookup_delete_eq in Hmon. destruct Hmon as [x Hx]. discriminate.
  - rewrite lookup_delete_ne in Hmon by exact Hne.
    destruct (Hinv mint Hmon) as [p [Hp Ha]].
    exists p. rewrite settle_positions_other by exact Hne. split; assumption.
Qed.

Lemma settle_activeAreMonitored m k :
  activeAreMonitored m -> activeAreMonitored (Async.settle m k true).
Proof.
  intros Hinv mint [p [Hp Ha]]. unfold monitored.
  destruct (settle_fields m k true) as (Hpos & Hint & _ & _).
  rewrite Hint. rewrite Hpos in Hp.
  destruct (decide (k = mint)) as [->|Hne].
  - rewrite lookup_alter_eq in Hp.
    destruct (positions m !! mint) as [q|]; simpl in Hp; [|discriminate].
    injection Hp as <-. discriminate.
  - rewrite lookup_alter_ne in Hp by exact Hne.
    rewrite lookup_delete_ne by exact Hne.
    apply Hinv. exists p. split; assumption.
Qed.

(** ** Every event, seen from the monitor *)

Lemma exitStarts_shape w mint reason :
  Async.exitStarts w mint reason = w \/
  Async.exitStarts w mint reason
  = {| Async.monitor := Async.monitor w; Async.checks := Async.checks w;
       Async.exits := Async.exits w ++ [Async.mkWaitingExit mint reason true] |}.
Proof.
  unfold Async.exitStarts. destruct (positions (Async.monitor w) !! mint) as [p|];
    [|left; reflexivity].
  destruct (negb (active p)); [left | right]; reflexivity.
Qed.

Lemma step_monitor cfg w e :
  Async.monitor (Async.step cfg w e) = Async.monitor w \/
  (exists mint symbol price amount now,
     e = Async.AddPositionCall mint symbol price amount now /\
     Async.monitor (Async.step cfg w e)
     = addPosition (Async.monitor w) mint symbol price amount now) \/
  (e = Async.StopAllCall /\
   Async.monitor (Async.step cfg w e) = stopAll (Async.monitor w)) \/
  (exists i waiting signature,
     e = Async.SaleSettles i (SellOk signature) /\
     Async.exits w !! i = Some waiting /\
     Async.monitor (Async.step cfg w e)
     = Async.settle (Async.monitor w) (Async.we_mint waiting)
         (Async.we_current waiting)).
Proof.
  destruct e as [mint symbol price amount now | | mint | i feed now
                | mint reason | mint | i sell]; simpl.
  - right; left. exists mint, symbol, price, amount, now. split; reflexivity.
  - right; right; left. split; reflexivity.
  - left. unfold Async.checkStarts.
    destruct (positions (Async.monitor w) !! mint) as [p|]; [|reflexivity].
    destruct (negb (active p)); reflexivity.
  - left. unfold Async.priceArrives.
    destruct (Async.checks w !! i) as [waiting|]; [|reflexivity].
    cbv zeta. destruct (Js.falsy _ || _); [reflexivity|].
    match goal with |- context [if ?c then _ else _] => destruct c end;
      [|reflexivity].
    match goal with |- context [Async.exitStarts ?w' ?k ?r] =>
      destruct (exitStarts_shape w' k r) as [-> | ->] end; reflexivity.
  - left. destruct (exitStarts_shape w mint reason) as [-> | ->]; reflexivity.
  - left. unfold Async.manualExitStarts.
    destruct (positions (Async.monitor w) !! mint) as [p|]; [|reflexivity].
    destruct (negb (active p)); [reflexivity|].
    destruct (exitStarts_shape w mint ManualExit) as [-> | ->]; reflexivity.
  - unfold Async.saleSettles.
    destruct (Async.exits w !! i) as [waiting|] eqn:Hi; [|left; reflexivity].
    destruct sell as [signature|message]; [|left; reflexivity].
    right; right; right. exists i, waiting, signature. repeat split. exact Hi.
Qed.

Lemma async_run_cons cfg w e events :
  Async.run cfg w (e :: events) = Async.run cfg (Async.step cfg w e) events.
Proof. reflexivity. Qed.

Lemma async_run_app cfg events1 events2 : forall w,
  Async.run cfg w (events1 ++ events2)
  = Async.run cfg (Async.run cfg w events1) events2.
Proof. intros w. unfold Async.run. apply fold_left_app. Qed.

Lemma async_step_monitoredAreActive cfg w e :
  monitoredAreActive (Async.monitor w) ->
  monitoredAreActive (Async.monitor (Async.step cfg w e)).
Proof.
  intros Hinv.
  destruct (step_monitor cfg w e)
    as [-> | [(k & symbol & price & amount & now & _ & ->)
       | [[_ ->] | (i & waiting & signature & _ & _ & ->)]]].
  - exact Hinv.
  - exact (step_monitoredAreActive cfg (Async.monitor w)
             (AddPosition k symbol price amount now) Hinv).
  - exact (step_monitoredAreActive cfg (Async.monitor w) StopAll Hinv).
  - apply settle_monitoredAreActive, Hinv.
Qed.

Lemma async_run_monitoredAreActive cfg events : forall w,
  monitoredAreActive (Async.monitor w) ->
  monitoredAreActive (Async.monitor (Async.run cfg w events)).
Proof.
  induction events as [|e events IH]; intros w Hinv; [exact Hinv|].
  rewrite async_run_cons. apply IH, async_step_monitoredAreActive, Hinv.
Qed.

(** ** While no position is added under a waiting exit *)

Lemma exitStarts_allCurrent w mint reason :
  allCurrent w -> allCurrent (Async.exitStarts w mint reason).
Proof.
  intros Hall. destruct (exitStarts_shape w mint reason) as [-> | ->];
    [exact Hall|].
  unfold allCurrent; simpl. apply Forall_app. split; [exact Hall|].
  constructor; [reflexivity | constructor].
Qed.

Lemma retire_other mint waiting :
  String.eqb (Async.we_mint waiting) mint = false -> Async.retire mint waiting = waiting.
Proof. intros H. unfold Async.retire. rewrite H. reflexivity. Qed.

Lemma async_step_allCurrent cfg w e :
  Async.undisturbed w e = true ->
  allCurrent w -> allCurrent (Async.step cfg w e).
Proof.
  intros Hcalm Hall.
  destruct e as [mint symbol price amount now | | mint | i feed now
                | mint reason | mint | i sell]; simpl in *.
  - unfold allCurrent; simpl. apply Forall_fmap, Forall_forall.
    intros waiting Hin. simpl.
    unfold Async.noExitWaits in Hcalm. rewrite forallb_forall in Hcalm.
    rewrite retire_other.
    + unfold allCurrent in Hall. rewrite Forall_forall in Hall. exact (Hall _ Hin).
    + apply negb_true_iff, Hcalm, list_elem_of_In, Hin.
  - discriminate.
  - unfold Async.checkStarts.
    destruct (positions (Async.monitor w) !! mint) as [p|]; [|exact Hall].
    destruct (negb (active p)); exact Hall.
  - unfold Async.priceArrives.
    destruct (Async.checks w !! i) as [waiting|]; [|exact Hall].
    cbv zeta. destruct (Js.falsy _ || _); [exact Hall|].
    match goal with |- context [if ?c then _ else _] => destruct c end;
      [|exact Hall].
    apply exitStarts_allCurrent. exact Hall.
  - apply exitStarts_allCurrent, Hall.
  - unfold Async.manualExitStarts.
    destruct (positions (Async.monitor w) !! mint) as [p|]; [|exact Hall].
    destruct (negb (active p)); [exact Hall|].
    apply exitStarts_allCurrent, Hall.
  - unfold Async.saleSettles.
    destruct (Async.exits w !! i) as [waiting|]; [|exact Hall].
    destruct sell; unfold allCurrent; simpl; apply Forall_delete, Hall.
Qed.

Lemma async_step_activeAreMonitored cfg w e :
  Async.undisturbed w e = true ->
  allCurrent w ->
  activeAreMonitored (Async.monitor w) ->
  activeAreMonitored (Async.monitor (Async.step cfg w e)).
Proof.
  intros Hcalm Hall Hinv.
  destruct (step_monitor cfg w e)
    as [-> | [(k & symbol & price & amount & now & _ & ->)
       | [[-> _] | (i & waiting & signature & _ & Hi & ->)]]].
  - exact Hinv.
  - exact (step_activeAreMonitored cfg (Async.monitor w)
             (AddPosition k symbol price amount now) eq_refl Hinv).
  - discriminate.
  - rewrite (Forall_lookup_1 _ _ _ _ Hall Hi).
    apply settle_activeAreMonitored, Hinv.
Qed.

Lemma async_run_calm cfg events : forall w,
  Async.calm cfg w events = true ->
  allCurrent w ->
  activeAreMonitored (Async.monitor w) ->
  activeAreMonitored (Async.monitor (Async.run cfg w events)).
Proof.
  induction events as [|e events IH]; intros w Hcalm Hall Hinv; [exact Hinv|].
  simpl in Hcalm. apply andb_true_iff in Hcalm as [He Hrest].
  rewrite async_run_cons. apply IH; [exact Hrest | |].
  - apply async_step_allCurrent; assumption.
  - apply async_step_activeAreMonitored; assumption.
Qed.

(** ** Calls that do not overlap *)

Lemma saleSettles_idle m i sell :
  Async.saleSettles (Async.idle m) i sell = Async.idle m.
Proof. reflexivity. Qed.

Lemma exit_then_sale m mint reason sell finalFeed :
  Async.saleSettles (Async.exitStarts (Async.idle m) mint reason) 0 sell
  = Async.idle (fst (exitPosition m mint reason sell finalFeed)).
Proof.
  destruct (hasActivePosition m mint) eqn:Hact.
  - destruct (hasActivePosition_true m mint Hact) as [p [Hp Ha]].
    unfold Async.exitStarts. simpl Async.monitor. rewrite Hp, Ha. simpl negb. cbv iota.
    unfold Async.saleSettles. simpl.
    destruct sell as [signature|message].
    + rewrite (exitPosition_sold_closed m mint p reason signature finalFeed Hp Ha).
      rewrite (settle_closed m mint p Hp). reflexivity.
    + rewrite (exitPosition_sell_throws m mint p reason message finalFeed Hp Ha).
      reflexivity.
  - rewrite (exitPosition_idle m mint reason sell finalFeed Hact).
    unfold hasActivePosition in Hact. unfold Async.exitStarts. simpl Async.monitor.
    destruct (positions m !! mint) as [p|]; [rewrite Hact|]; apply saleSettles_idle.
Qed.

(** A call that nothing interrupts does what the call of
    [PositionMonitor.step] does, and leaves nothing waiting. *)
Lemma expand_step cfg m op :
  Async.run cfg (Async.idle m) (Async.expand op)
  = Async.idle (PositionMonitor.step cfg m op).
Proof.
  destruct op as [mint symbol price amount now | mint feed now sell finalFeed
                 | mint reason sell finalFeed | mint sell finalFeed | ].
  - reflexivity.
  - unfold Async.expand, Async.run. simpl fold_left.
    unfold PositionMonitor.step, checkPosition, Async.checkStarts.
    simpl Async.monitor.
    destruct (positions m !! mint) as [p|] eqn:Hp;
      [|unfold Async.priceArrives; simpl; apply saleSettles_idle].
    destruct (active p) eqn:Ha; simpl negb; cbv iota;
      [|unfold Async.priceArrives; simpl; apply saleSettles_idle].
    unfold Async.priceArrives. simpl Async.checks. simpl lookup. cbv iota zeta.
    simpl Async.wc_position. simpl Async.wc_mint.
    change {| Async.monitor := m; Async.checks := delete 0%nat [Async.mkWaitingCheck mint p];
              Async.exits := [] |} with (Async.idle m).
    destruct (Js.falsy _ || _); [apply saleSettles_idle|].
    match goal with |- context [if ?c then _ else _] => destruct c end;
      [|apply saleSettles_idle].
    match goal with
    | |- Async.saleSettles (Async.exitStarts ?w mint ?r) 0 sell = _ =>
        change w with (Async.idle m);
        rewrite (exit_then_sale m mint r sell finalFeed);
        destruct (exitPosition m mint r sell finalFeed)
    end.
    reflexivity.
  - unfold Async.expand, Async.run. simpl.
    apply exit_then_sale.
  - unfold Async.expand, Async.run. simpl fold_left.
    unfold PositionMonitor.step, manualExit, Async.manualExitStarts.
    simpl Async.monitor.
    destruct (positions m !! mint) as [p|] eqn:Hp; [|apply saleSettles_idle].
    destruct (active p) eqn:Ha; simpl negb; cbv iota; [|apply saleSettles_idle].
    rewrite (exit_then_sale m mint ManualExit sell finalFeed).
    destruct (exitPosition m mint ManualExit sell finalFeed). reflexivity.
  - reflexivity.
Qed.

Lemma expand_run cfg ops : forall m,
  Async.run cfg (Async.idle m) (concat (Async.expand <$> ops))
  = Async.idle (PositionMonitor.run cfg m ops).
Proof.
  induction ops as [|op ops IH]; intros m; [reflexivity|].
  change (concat (Async.expand <$> op :: ops))
    with (Async.expand op ++ concat (Async.expand <$> ops)).
  rewrite async_run_app, expand_step, IH. reflexivity.
Qed.

Lemma calm_app cfg events1 events2 : forall w,
  Async.calm cfg w (events1 ++ events2)
  = Async.calm cfg w events1 && Async.calm cfg (Async.run cfg w events1) events2.
Proof.
  induction events1 as [|e events1 IH]; intros w; [reflexivity|].
  simpl. rewrite IH, andb_assoc. reflexivity.
Qed.

Lemma expand_calm cfg m op :
  isStopAll op = false -> Async.calm cfg (Async.idle m) (Async.expand op) = true.
Proof. destruct op; simpl; intros H; try reflexivity; discriminate. Qed.

Lemma expand_run_calm cfg ops : forall m,
  forallb (fun op => negb (isStopAll op)) ops = true ->
  Async.calm cfg (Async.idle m) (concat (Async.expand <$> ops)) = true.
Proof.
  induction ops as [|op ops IH]; intros m Hops; [reflexivity|].
  simpl in Hops. apply andb_true_iff in Hops as [Hop Hrest].
  apply negb_true_iff in Hop.
  change (concat (Async.expand <$> op :: ops))
    with (Async.expand op ++ concat (Async.expand <$> ops)).
  rewrite calm_app, expand_step, (expand_calm cfg m op Hop). apply IH, Hrest.
Qed.

Lemma overlapping_outcome :
  forallb (fun e => negb (Async.isStopAllCall e)) Cases.overlapping = true /\
  activeIs
    (Async.monitor
       (Async.run Config.defaults (Async.idle PositionMonitor.empty) Cases.overlapping))
    "MintA" true /\
  ~ monitored
      (Async.monitor
         (Async.run Config.defaults (Async.idle PositionMonitor.empty)
            Cases.overlapping))
      "MintA".
Proof.
  split; [reflexivity|]. split.
  - eexists. split; [vm_compute; reflexivity | reflexivity].
  - intros [x Hx]. vm_compute in Hx. discriminate.
Qed.

(** C6 (amended): however the calls of [addPosition], [checkPosition],
    [exitPosition], [manualExit] and [stopAll] overlap at their [await]s,
    a mint with an entry in the interval map has a position with
    [active = true]. The converse holds, so that an entry exists if and
    only if an active position does, as long as there was no [stopAll] and
    no [addPosition] for a mint while an exit of that mint waited for its
    sale; calls that each complete before the next starts are of that
    kind. An [addPosition] under a waiting exit does break the converse. *)
Theorem monitoring_follows_active_positions
    (cfg : Config.t) (events : list Async.Event) (ops : list Op) (mint : string) :
  let reached := Async.monitor (Async.run cfg (Async.idle PositionMonitor.empty) events) in
  let sequential := concat (Async.expand <$> ops) in
  (monitored reached mint -> activeIs reached mint true) /\
  (Async.calm cfg (Async.idle PositionMonitor.empty) events = true ->
   (monitored reached mint <-> activeIs reached mint true)) /\
  (Async.run cfg (Async.idle PositionMonitor.empty) sequential
   = Async.idle (run cfg PositionMonitor.empty ops) /\
   (monitored (run cfg PositionMonitor.empty ops) mint ->
    activeIs (run cfg PositionMonitor.empty ops) mint true) /\
   (forallb (fun op => negb (isStopAll op)) ops = true ->
    Async.calm cfg (Async.idle PositionMonitor.empty) sequential = true /\
    (monitored (run cfg PositionMonitor.empty ops) mint <->
     activeIs (run cfg PositionMonitor.empty ops) mint true))) /\
  (forallb (fun e => negb (Async.isStopAllCall e)) Cases.overlapping = true /\
   activeIs
     (Async.monitor
        (Async.run Config.defaults (Async.idle PositionMonitor.empty)
           Cases.overlapping)) "MintA" true /\
   ~ monitored
       (Async.monitor
          (Async.run Config.defaults (Async.idle PositionMonitor.empty)
             Cases.overlapping)) "MintA").
Proof.
  intros reached sequential.
  assert (H1 : monitoredAreActive reached).
  { apply async_run_monitoredAreActive. exact empty_monitoredAreActive. }
  split; [exact (H1 mint)|]. split.
  - intros Hcalm. split; [exact (H1 mint)|].
    apply (async_run_calm cfg events _ Hcalm); [constructor|].
    exact empty_activeAreMonitored.
  - split; [|exact overlapping_outcome].
    pose proof (run_monitoredAreActive cfg ops _ empty_monitoredAreActive mint) as H2.
    split; [apply expand_run|]. split; [exact H2|].
    intros Hops. split; [apply expand_run_calm, Hops|].
    split; [exact H2|].
    exact (run_activeAreMonitored cfg ops _ Hops empty_activeAreMonitored mint).
Qed.

Lemma monitoring_follows_active_positions_witness :
  (monitored
     (Async.monitor
        (Async.run Config.defaults (Async.idle PositionMonitor.empty)
           Cases.interleaved)) "MintA"
   <-> activeIs
         (Async.monitor
            (Async.run Config.defaults (Async.idle PositionMonitor.empty)
               Cases.interleaved)) "MintA" true) /\
  (monitored (run Config.defaults PositionMonitor.empty Examples.tradingOps) "MintB"
   <-> activeIs (run Config.defaults PositionMonitor.empty Examples.tradingOps)
         "MintB" true).
Proof.
  split.
  - exact (proj1 (proj2 (monitoring_follows_active_positions Config.defaults
             Cases.interleaved [] "MintA")) eq_refl).
  - exact (proj2 (proj2 (proj2 (proj1 (proj2 (proj2
             (monitoring_follows_active_positions Config.defaults []
                Examples.tradingOps "MintB"))))) eq_refl)).
Defined.

(** ** Purchases that overlap *)

Lemma noOrphans_settle m k current :
  noOrphans m -> noOrphans (Async.settle m k current).
Proof.
  intros Hinv h Hh.
  destruct (settle_fields m k current) as (_ & Hint & Htim & _).
  unfold registered. rewrite Hint. rewrite Htim in Hh.
  assert (Hreg : h ∈ timers m /\ monitoringIntervals m !! k <> Some h).
  { destruct (monitoringIntervals m !! k) as [interval|] eqn:Hk.
    - apply elem_of_difference in Hh as [Hlive Hne]. split; [exact Hlive|].
      intros Heq. injection Heq as ->. apply Hne, elem_of_singleton. reflexivity.
    - split; [exact Hh | discriminate]. }
  destruct Hreg as [Hlive Hne]. destruct (Hinv h Hlive) as [mint Hmint].
  exists mint. rewrite lookup_delete_ne; [exact Hmint|].
  intros ->. exact (Hne Hmint).
Qed.

Lemma noOrphans_stopAll m h : noOrphans m -> h ∉ timers (stopAll m).
Proof.
  intros Hinv Hh. apply stopAll_timers in Hh as [Hlive Hno].
  exact (Hno (Hinv h Hlive)).
Qed.

Lemma noOrphans_addPosition m k symbol price amount now :
  ~ monitored m k -> noOrphans m ->
  noOrphans (addPosition m k symbol price amount now).
Proof.
  intros Hfree Hinv h Hh. unfold registered. simpl in *.
  apply elem_of_union in Hh as [Hnew | Hold].
  - apply elem_of_singleton in Hnew as ->. exists k. apply lookup_insert_eq.
  - destruct (Hinv h Hold) as [mint Hmint]. exists mint.
    rewrite lookup_insert_ne; [exact Hmint|].
    intros ->. apply Hfree. exists h. exact Hmint.
Qed.

Lemma empty_noOrphans : noOrphans PositionMonitor.empty.
Proof. intros h Hh. simpl in Hh. apply elem_of_empty in Hh as []. Qed.

Section Purchases.

Variable parseFloat : string -> float.

Lemma pressed_guard cfg m userId queryData waiting :
  AsyncBot.pressed parseFloat cfg m userId queryData = Some waiting ->
  hasActivePosition m (AsyncBot.wb_mint waiting) = false.
Proof.
  unfold AsyncBot.pressed.
  destruct (negb (isAuthorized cfg userId)); [discriminate|].
  destruct (Js.startsWith "buy:" _); [|discriminate]. cbv zeta.
  destruct (isCustom _); [discriminate|].
  match goal with |- context [hasActivePosition m ?k] =>
    destruct (hasActivePosition m k) eqn:Hact; [discriminate|] end.
  intros H. injection H as <-. exact Hact.
Qed.

(** A handler that nothing interrupts is [onCallbackQuery]. *)
Lemma press_then_purchase cfg m userId queryData buy now :
  Async.monitor
    (AsyncBot.world
       (AsyncBot.botRun parseFloat cfg
          {| AsyncBot.world := Async.idle m; AsyncBot.buys := [] |}
          [AsyncBot.ButtonPressed userId queryData;
           AsyncBot.PurchaseSettles 0 buy now]))
  = fst (onCallbackQuery parseFloat cfg m userId queryData buy now).
Proof.
  unfold AsyncBot.botRun. cbn [fold_left AsyncBot.botStep].
  unfold AsyncBot.buttonPressed, AsyncBot.pressed, onCallbackQuery.
  cbn [AsyncBot.world Async.monitor Async.idle AsyncBot.buys].
  destruct (negb (isAuthorized cfg userId)); [reflexivity|].
  destruct (Js.startsWith "buy:" _); [|reflexivity]. cbv zeta.
  destruct (isCustom _); [reflexivity|].
  match goal with |- context [hasActivePosition m ?k] =>
    destruct (hasActivePosition m k); [reflexivity|] end.
  destruct buy; reflexivity.
Qed.

Lemma botStep_monitoredAreActive cfg bw e :
  monitoredAreActive (Async.monitor (AsyncBot.world bw)) ->
  monitoredAreActive
    (Async.monitor (AsyncBot.world (AsyncBot.botStep parseFloat cfg bw e))).
Proof.
  intros Hinv.
  destruct e as [userId queryData | i buy now | mint | i feed now | i sell | ];
    cbn [AsyncBot.botStep AsyncBot.onMonitor AsyncBot.world];
    try (apply async_step_monitoredAreActive; exact Hinv).
  - unfold AsyncBot.buttonPressed.
    destruct (AsyncBot.pressed _ _ _ _ _); exact Hinv.
  - unfold AsyncBot.purchaseSettles.
    destruct (AsyncBot.buys bw !! i) as [waiting|]; [|exact Hinv].
    destruct buy as [message|signature symbol price]; [exact Hinv|].
    exact (async_step_monitoredAreActive cfg (AsyncBot.world bw)
             (Async.AddPositionCall (AsyncBot.wb_mint waiting) symbol price
                (AsyncBot.wb_amount waiting) now) Hinv).
Qed.

Lemma botRun_cons cfg bw e events :
  AsyncBot.botRun parseFloat cfg bw (e :: events)
  = AsyncBot.botRun parseFloat cfg (AsyncBot.botStep parseFloat cfg bw e) events.
Proof. reflexivity. Qed.

Lemma botRun_monitoredAreActive cfg events : forall bw,
  monitoredAreActive (Async.monitor (AsyncBot.world bw)) ->
  monitoredAreActive
    (Async.monitor (AsyncBot.world (AsyncBot.botRun parseFloat cfg bw events))).
Proof.
  induction events as [|e events IH]; intros bw Hinv; [exact Hinv|].
  rewrite botRun_cons. apply IH, botStep_monitoredAreActive, Hinv.
Qed.

(** An event of the monitor other than [addPosition] adds no polling
    task and orphans no timer. *)
Lemma onMonitor_keeps cfg bw e :
  (forall mint symbol price amount now,
     e <> Async.AddPositionCall mint symbol price amount now) ->
  noOrphans (Async.monitor (AsyncBot.world bw)) ->
  purchasesApart bw ->
  noOrphans (Async.monitor (AsyncBot.world (AsyncBot.onMonitor cfg bw e))) /\
  purchasesApart (AsyncBot.onMonitor cfg bw e).
Proof.
  intros Hnoadd Horph [Hfree Hdup]. unfold purchasesApart.
  cbn [AsyncBot.onMonitor AsyncBot.world AsyncBot.buys].
  destruct (step_monitor cfg (AsyncBot.world bw) e)
    as [-> | [(k & symbol & price & amount & now & He & _)
       | [[_ ->] | (i & waiting & signature & _ & _ & ->)]]].
  - split; [exact Horph|]. split; assumption.
  - exfalso. exact (Hnoadd _ _ _ _ _ He).
  - split; [|split; [|exact Hdup]].
    + intros h Hh. exfalso. exact (noOrphans_stopAll _ h Horph Hh).
    + intros b _ [x Hx]. simpl in Hx. rewrite lookup_empty in Hx. discriminate.
  - split; [apply noOrphans_settle, Horph|]. split; [|exact Hdup].
    intros b Hb [x Hx].
    destruct (settle_fields (Async.monitor (AsyncBot.world bw))
                (Async.we_mint waiting) (Async.we_current waiting))
      as (_ & Hint & _ & _).
    rewrite Hint in Hx. apply (Hfree b Hb). exists x.
    destruct (decide (Async.we_mint waiting = AsyncBot.wb_mint b)) as [Heq|Hne].
    + rewrite Heq, lookup_delete_eq in Hx. discriminate.
    + rewrite lookup_delete_ne in Hx by exact Hne. exact Hx.
Qed.

Lemma botStep_keeps cfg bw e :
  AsyncBot.unrivalled parseFloat cfg bw e = true ->
  monitoredAreActive (Async.monitor (AsyncBot.world bw)) ->
  noOrphans (Async.monitor (AsyncBot.world bw)) ->
  purchasesApart bw ->
  noOrphans (Async.monitor (AsyncBot.world (AsyncBot.botStep parseFloat cfg bw e))) /\
  purchasesApart (AsyncBot.botStep parseFloat cfg bw e).
Proof.
  intros Hriv Hact Horph Hapart.
  destruct e as [userId queryData | i buy now | mint | i feed now | i sell | ];
    cbn [AsyncBot.botStep];
    try (apply onMonitor_keeps; [discriminate | exact Horph | exact Hapart]).
  - (* a button is pressed *)
    destruct Hapart as [Hfree Hdup].
    unfold AsyncBot.buttonPressed. simpl in Hriv.
    destruct (AsyncBot.pressed parseFloat cfg (Async.monitor (AsyncBot.world bw))
                userId queryData) as [waiting|] eqn:Hpress;
      [|split; [exact Horph | split; assumption]].
    split; [exact Horph|]. unfold purchasesApart.
    cbn [AsyncBot.world AsyncBot.buys]. split.
    + intros b Hb. apply elem_of_app in Hb as [Hb | Hb]; [exact (Hfree b Hb)|].
      apply list_elem_of_singleton in Hb as ->. intros Hmon.
      destruct (Hact _ Hmon) as [p [Hp Ha]].
      pose proof (pressed_guard _ _ _ _ _ Hpress) as Hguard.
      unfold hasActivePosition in Hguard. rewrite Hp in Hguard. congruence.
    + rewrite fmap_app. apply NoDup_app. split; [exact Hdup|].
      split; [|apply NoDup_singleton].
      intros k Hk Hk'. apply list_elem_of_singleton in Hk'. subst k.
      apply list_elem_of_fmap in Hk as [other [Heq Hother]].
      rewrite forallb_forall in Hriv.
      pose proof (Hriv other (proj1 (list_elem_of_In _ _) Hother)) as Hne.
      apply negb_true_iff, String.eqb_neq in Hne. congruence.
  - (* a purchase completes *)
    destruct Hapart as [Hfree Hdup].
    unfold AsyncBot.purchaseSettles.
    destruct (AsyncBot.buys bw !! i) as [waiting|] eqn:Hi;
      [|split; [exact Horph | split; assumption]].
    destruct (list_elem_of_split_length _ _ _ Hi) as (l1 & l2 & Hsplit & ->).
    rewrite Hsplit in *. rewrite delete_middle.
    rewrite fmap_app, fmap_cons in Hdup.
    apply NoDup_app in Hdup as (Hd1 & Hd12 & Hd2).
    apply NoDup_cons in Hd2 as [Hd2 Hd3].
    assert (Hrest : NoDup (AsyncBot.wb_mint <$> l1 ++ l2)).
    { rewrite fmap_app. apply NoDup_app. split; [exact Hd1|]. split; [|exact Hd3].
      intros k Hk Hk'. apply (Hd12 k Hk). apply list_elem_of_further, Hk'. }
    assert (Hother : forall b, b ∈ l1 ++ l2 ->
                       AsyncBot.wb_mint b <> AsyncBot.wb_mint waiting).
    { intros b Hb Heq. apply elem_of_app in Hb as [Hb | Hb].
      - apply (Hd12 (AsyncBot.wb_mint b)); [apply list_elem_of_fmap_2, Hb|].
        rewrite Heq. apply list_elem_of_here.
      - apply Hd2. rewrite <- Heq. apply list_elem_of_fmap_2, Hb. }
    assert (Hsub : forall b, b ∈ l1 ++ l2 -> b ∈ l1 ++ waiting :: l2).
    { intros b Hb. apply elem_of_app in Hb as [Hb | Hb]; apply elem_of_app;
        [left; exact Hb | right; apply list_elem_of_further, Hb]. }
    destruct buy as [message|signature symbol price];
      unfold purchasesApart; cbn [AsyncBot.world AsyncBot.buys].
    + split; [exact Horph|]. split; [|exact Hrest].
      intros b Hb. exact (Hfree b (Hsub b Hb)).
    + cbn [Async.addPositionCall Async.monitor]. split.
      * apply noOrphans_addPosition; [|exact Horph].
        apply (Hfree waiting). apply elem_of_app. right. apply list_elem_of_here.
      * split; [|exact Hrest].
        intros b Hb [x Hx]. simpl in Hx.
        rewrite lookup_insert_ne in Hx by (apply not_eq_sym, Hother, Hb).
        apply (Hfree b (Hsub b Hb)). exists x. exact Hx.
Qed.

Lemma botRun_keeps cfg events : forall bw,
  AsyncBot.orderly parseFloat cfg bw events = true ->
  monitoredAreActive (Async.monitor (AsyncBot.world bw)) ->
  noOrphans (Async.monitor (AsyncBot.world bw)) ->
  purchasesApart bw ->
  noOrphans (Async.monitor (AsyncBot.world (AsyncBot.botRun parseFloat cfg bw events))).
Proof.
  induction events as [|e events IH]; intros bw Hord Hact Horph Hapart;
    [exact Horph|].
  simpl in Hord. apply andb_true_iff in Hord as [He Hrest].
  destruct (botStep_keeps cfg bw e He Hact Horph Hapart) as [Horph' Hapart'].
  rewrite botRun_cons. apply IH; [exact Hrest | | exact Horph' | exact Hapart'].
  apply botStep_monitoredAreActive, Hact.
Qed.

Lemma start_purchasesApart : purchasesApart AsyncBot.start.
Proof.
  split; [|constructor]. intros b Hb. simpl in Hb. inversion Hb.
Qed.

End Purchases.

Lemma doublePress_outcome :
  orphaned
    (Async.monitor
       (AsyncBot.world
          (AsyncBot.botRun Cases.halfSol Config.defaults AsyncBot.start
             Cases.doublePress))) 0%nat /\
  0%nat ∈ timers
          (stopAll
             (Async.monitor
                (AsyncBot.world
                   (AsyncBot.botRun Cases.halfSol Config.defaults AsyncBot.start
                      Cases.doublePress)))).
Proof.
  assert (Horph : orphaned
    (Async.monitor
       (AsyncBot.world
          (AsyncBot.botRun Cases.halfSol Config.defaults AsyncBot.start
             Cases.doublePress))) 0%nat).
  { assert (Hmap : monitoringIntervals
                     (Async.monitor
                        (AsyncBot.world
                           (AsyncBot.botRun Cases.halfSol Config.defaults
                              AsyncBot.start Cases.doublePress)))
                   = <[Cases.mintA := 1%nat]> (<[Cases.mintA := 0%nat]> ∅))
      by (vm_compute; reflexivity).
    split; [|split].
    - vm_compute. reflexivity.
    - intros [mint Hmint]. rewrite Hmap in Hmint.
      destruct (decide (Cases.mintA = mint)) as [<-|Hne].
      + rewrite lookup_insert_eq in Hmint. discriminate.
      + rewrite lookup_insert_ne in Hmint by exact Hne.
        rewrite lookup_insert_ne in Hmint by exact Hne.
        rewrite lookup_empty in Hmint. discriminate.
    - vm_compute. lia. }
  split; [exact Horph|].
  apply stopAll_timers. destruct Horph as (Hlive & Hno & _). split; assumption.
Qed.

(** X21: whatever the button presses, purchases, polling cycles, sales
    and shutdowns and however they overlap, every mint with a polling task
    has an active position. As long as no press passes the guards of the
    [callback_query] handler while another purchase of the same mint is
    still under way, every live timer is the polling task of a mint, and
    [stopAll] then leaves no timer running. The [hasActivePosition] guard
    does not see a purchase under way: the same button pressed twice before
    the first purchase is through leaves a timer that no map entry holds
    and that [stopAll] does not clear. *)
Theorem guarded_purchases_leave_no_orphans
    (parseFloat : string -> float) (cfg : Config.t)
    (events : list AsyncBot.BotEvent) :
  let reached :=
    Async.monitor
      (AsyncBot.world (AsyncBot.botRun parseFloat cfg AsyncBot.start events)) in
  let twice :=
    Async.monitor
      (AsyncBot.world
         (AsyncBot.botRun Cases.halfSol Config.defaults AsyncBot.start
            Cases.doublePress)) in
  monitoredAreActive reached /\
  (AsyncBot.orderly parseFloat cfg AsyncBot.start events = true ->
   noOrphans reached /\ (forall h, h ∉ timers (stopAll reached))) /\
  (orphaned twice 0%nat /\ 0%nat ∈ timers (stopAll twice)).
Proof.
  intros reached twice.
  assert (Hact : monitoredAreActive reached).
  { apply botRun_monitoredAreActive. exact empty_monitoredAreActive. }
  split; [exact Hact|]. split; [|exact doublePress_outcome].
  intros Hord.
  assert (Horph : noOrphans reached).
  { apply botRun_keeps; [exact Hord | exact empty_monitoredAreActive
                        | exact empty_noOrphans | exact start_purchasesApart]. }
  split; [exact Horph|].
  intros h. apply noOrphans_stopAll, Horph.
Qed.

Lemma guarded_purchases_leave_no_orphans_witness :
  noOrphans
    (Async.monitor
       (AsyncBot.world
          (AsyncBot.botRun Cases.halfSol Config.defaults AsyncBot.start
             Cases.oneTrade))) /\
  hasActivePosition
    (Async.monitor
       (AsyncBot.world
          (AsyncBot.botRun Cases.halfSol Config.defaults AsyncBot.start
             Cases.oneTrade))) Cases.mintA = true.
Proof.
  split; [|vm_compute; reflexivity].
  exact (proj1 (proj1 (proj2 (guarded_purchases_leave_no_orphans Cases.halfSol
                  Config.defaults Cases.oneTrade)) ltac:(vm_compute; reflexivity))).
Defined.
